(** * natlab/vnet: a shallow embedding of the virtual-network router

    The development follows [tstest/natlab/vnet/vnet.go] and
    [tstest/natlab/vnet/conf.go].  Go values are modelled as follows:

    - a [byte] is a [Z] in [0, 256); byte arithmetic wraps explicitly;
    - [[6]byte] (type [MAC]) is a record of six bytes;
    - [[]byte], [net.IP], [net.HardwareAddr] are [list Z] (nil is [[]]);
    - [netip.Addr], [netip.AddrPort], [netip.Prefix] are small records
      mirroring the representation of package [net/netip];
    - Go maps and [syncs.Map] are [gmap]s; a [set.Set] is a [gset], or,
      when its members are pointers, the [gmap] from the address of each
      member to what it points to;
    - pointers to runtime networks are indices into the server's network
      list;
    - a decoded [gopacket.Packet] is its raw data together with the list of
      its decoded layers; [Packet.Layer(t)] is the first layer of type [t].

    Code that touches the outside world (guest writers, the TCP stack) is
    written in a small monad that threads the server and collects the
    calls that were made. *)

From stdpp Require Import base numbers option list gmap sets strings.
From Stdlib Require Import ZArith Lia.

Local Open Scope Z_scope.

(** ** Bytes and fixed-width integers *)

Definition byte_of (z : Z) : Z := z mod 256.
Definition uint16_of (z : Z) : Z := z mod 65536.
Definition uint32_of (z : Z) : Z := z mod 4294967296.

(** [binary.BigEndian.AppendUint32(b, v)] *)
Definition AppendUint32 (b : list Z) (v : Z) : list Z :=
  b ++ [byte_of (Z.shiftr v 24); byte_of (Z.shiftr v 16);
        byte_of (Z.shiftr v 8); byte_of v].

(** ** MAC addresses *)

Record MAC : Type := mkMAC {
  mac0 : Z; mac1 : Z; mac2 : Z; mac3 : Z; mac4 : Z; mac5 : Z }.

#[global] Instance MAC_eq_dec : EqDecision MAC.
Proof. solve_decision. Defined.

#[global] Instance MAC_countable : Countable MAC.
Proof.
  refine (inj_countable'
    (λ m, (mac0 m, mac1 m, mac2 m, mac3 m, mac4 m, mac5 m))
    (λ t, let '(a, b, c, d, e, f) := t in mkMAC a b c d e f) _).
  by intros [].
Defined.

Definition MAC_zero : MAC := mkMAC 0 0 0 0 0 0.
Definition MAC_broadcast : MAC := mkMAC 255 255 255 255 255 255.

(** [func (m MAC) IsBroadcast() bool] *)
Definition IsBroadcast (m : MAC) : bool := bool_decide (m = MAC_broadcast).

(** [func (m MAC) HWAddr() net.HardwareAddr] *)
Definition HWAddr (m : MAC) : list Z :=
  [mac0 m; mac1 m; mac2 m; mac3 m; mac4 m; mac5 m].

(** The Go conversion [MAC(s)] of a slice to a [[6]byte]: the first six
    elements; it panics ([None]) when the slice is shorter. *)
Definition MAC_of_slice (s : list Z) : option MAC :=
  match s with
  | a :: b :: c :: d :: e :: f :: _ => Some (mkMAC a b c d e f)
  | _ => None
  end.

(** [func macOf(hwa net.HardwareAddr) (_ MAC, ok bool)] *)
Definition macOf (hwa : list Z) : MAC * bool :=
  if bool_decide (length hwa ≠ 6%nat) then (MAC_zero, false)
  else (default MAC_zero (MAC_of_slice hwa), true).

(** ** net/netip values *)

(** [netip.Addr]: the zero value, an IPv4 address, or an IPv6 address kept
    as its two 64-bit halves. *)
Inductive Addr : Type :=
| AddrZero
| Addr4 (a b c d : Z)
| Addr6 (hi lo : Z).

#[global] Instance Addr_eq_dec : EqDecision Addr.
Proof. solve_decision. Defined.

#[global] Instance Addr_countable : Countable Addr.
Proof.
  refine (inj_countable'
    (λ a, match a with
          | AddrZero => inl ()
          | Addr4 a b c d => inr (inl (a, b, c, d))
          | Addr6 hi lo => inr (inr (hi, lo))
          end)
    (λ s, match s with
          | inl _ => AddrZero
          | inr (inl (a, b, c, d)) => Addr4 a b c d
          | inr (inr (hi, lo)) => Addr6 hi lo
          end) _).
  by intros [].
Defined.

Definition Addr_IsValid (a : Addr) : bool :=
  match a with AddrZero => false | _ => true end.

(** [netip.IPv4Unspecified()] *)
Definition IPv4Unspecified : Addr := Addr4 0 0 0 0.

Definition be64 (v : Z) : list Z :=
  [byte_of (Z.shiftr v 56); byte_of (Z.shiftr v 48); byte_of (Z.shiftr v 40);
   byte_of (Z.shiftr v 32); byte_of (Z.shiftr v 24); byte_of (Z.shiftr v 16);
   byte_of (Z.shiftr v 8); byte_of v].

Definition of_be (bs : list Z) : Z :=
  fold_left (λ acc b, acc * 256 + b) bs 0.

(** [func (ip Addr) AsSlice() []byte] *)
Definition AsSlice (a : Addr) : list Z :=
  match a with
  | AddrZero => []
  | Addr4 a b c d => [a; b; c; d]
  | Addr6 hi lo => be64 hi ++ be64 lo
  end.

(** [netip.AddrFromSlice]: 4 bytes give an IPv4 address, 16 bytes an IPv6
    one, anything else [(Addr{}, false)]. *)
Definition AddrFromSlice (s : list Z) : Addr * bool :=
  match s with
  | [a; b; c; d] => (Addr4 a b c d, true)
  | _ =>
      if bool_decide (length s = 16%nat)
      then (Addr6 (of_be (take 8 s)) (of_be (drop 8 s)), true)
      else (AddrZero, false)
  end.

(** [netip.AddrFrom4] *)
Definition AddrFrom4 (s : Z * Z * Z * Z) : Addr :=
  let '(a, b, c, d) := s in Addr4 a b c d.

Definition Is4In6 (a : Addr) : bool :=
  match a with
  | Addr6 hi lo => bool_decide (hi = 0) && bool_decide (Z.shiftr lo 32 = 65535)
  | _ => false
  end.

(** [func (ip Addr) As4() [4]byte]; panics ([None]) on the zero value and on
    an IPv6 address that is not IPv4-mapped. *)
Definition As4 (a : Addr) : option (Z * Z * Z * Z) :=
  match a with
  | Addr4 a b c d => Some (a, b, c, d)
  | Addr6 hi lo =>
      if Is4In6 (Addr6 hi lo)
      then Some (byte_of (Z.shiftr lo 24), byte_of (Z.shiftr lo 16),
                 byte_of (Z.shiftr lo 8), byte_of lo)
      else None
  | AddrZero => None
  end.

(** [func (ip net.IP) To4() net.IP] *)
Definition To4 (ip : list Z) : list Z :=
  if bool_decide (length ip = 4%nat) then ip
  else if bool_decide (length ip = 16%nat)
          && bool_decide (take 10 ip = replicate 10 0)
          && bool_decide (take 2 (drop 10 ip) = [255; 255])
       then drop 12 ip
       else [].

Record AddrPort : Type := mkAddrPort { ap_addr : Addr; ap_port : Z }.

#[global] Instance AddrPort_eq_dec : EqDecision AddrPort.
Proof. solve_decision. Defined.

(** [netip.AddrPortFrom] *)
Definition AddrPortFrom (a : Addr) (p : Z) : AddrPort := mkAddrPort a p.
Definition AddrPort_IsValid (ap : AddrPort) : bool := Addr_IsValid (ap_addr ap).

(** [netip.Prefix] keeps the address as written (host bits included) and
    the prefix length plus one; the zero value is invalid. *)
Record Prefix : Type := mkPrefix { pfx_ip : Addr; pfx_bitsPlusOne : Z }.

#[global] Instance Prefix_eq_dec : EqDecision Prefix.
Proof. solve_decision. Defined.

Definition Prefix_zero : Prefix := mkPrefix AddrZero 0.
Definition PrefixFrom (a : Addr) (bits : Z) : Prefix := mkPrefix a (bits + 1).
Definition Prefix_IsValid (p : Prefix) : bool := bool_decide (0 < pfx_bitsPlusOne p).
Definition Prefix_Addr (p : Prefix) : Addr := pfx_ip p.
Definition Prefix_Bits (p : Prefix) : Z := pfx_bitsPlusOne p - 1.

Definition addr_u32 (a b c d : Z) : Z := of_be [a; b; c; d].

(** [func (p Prefix) Contains(ip Addr) bool]: xor the two addresses and
    shift the host bits away. *)
Definition Prefix_Contains (p : Prefix) (ip : Addr) : bool :=
  Prefix_IsValid p &&
  match pfx_ip p, ip with
  | Addr4 a b c d, Addr4 a' b' c' d' =>
      bool_decide
        (uint32_of (Z.shiftr (Z.lxor (addr_u32 a' b' c' d') (addr_u32 a b c d))
                             (Z.land (32 - Prefix_Bits p) 63)) = 0)
  | Addr6 hi lo, Addr6 hi' lo' =>
      bool_decide
        (Z.shiftr (Z.lxor (hi' * 2 ^ 64 + lo') (hi * 2 ^ 64 + lo))
                  (128 - Prefix_Bits p) = 0)
  | _, _ => false
  end.

(** [net.CIDRMask(ones, 32)]: [ones] leading one bits, nil when [ones] is
    out of range. *)
Definition CIDRMask32 (ones : Z) : list Z :=
  if bool_decide (0 ≤ ones ≤ 32)
  then AppendUint32 [] (Z.land (Z.shiftl (2 ^ 32 - 1) (32 - ones)) (2 ^ 32 - 1))
  else [].

(** The three well-known synthetic addresses. *)
Definition fakeDNSIP : Addr := AddrFrom4 (4, 11, 4, 11).
Definition fakeControlplaneIP : Addr := AddrFrom4 (52, 52, 0, 1).
Definition fakeTestAgentIP : Addr := AddrFrom4 (52, 52, 0, 2).

Definition stunPort : Z := 3478.

(** ** Decoded packets (package gopacket/layers)

    Only the fields the router reads or sets are kept; a field the router
    leaves at its zero value is not represented. *)

Record Ethernet : Type := mkEthernet {
  eth_SrcMAC : list Z; eth_DstMAC : list Z; eth_EthernetType : Z }.

Record ARP : Type := mkARP {
  arp_AddrType : Z; arp_Protocol : Z;
  arp_HwAddressSize : Z; arp_ProtAddressSize : Z; arp_Operation : Z;
  arp_SourceHwAddress : list Z; arp_SourceProtAddress : list Z;
  arp_DstHwAddress : list Z; arp_DstProtAddress : list Z }.

Record IPv4 : Type := mkIPv4 {
  ip_Version : Z; ip_TTL : Z; ip_Protocol : Z;
  ip_SrcIP : list Z; ip_DstIP : list Z;
  ip_Contents : list Z; ip_Payload : list Z }.

Record UDP : Type := mkUDP {
  udp_SrcPort : Z; udp_DstPort : Z; udp_Payload : list Z }.

Record TCP : Type := mkTCP { tcp_SrcPort : Z; tcp_DstPort : Z }.

Record DHCPOption : Type := mkDHCPOption {
  opt_Type : Z; opt_Length : Z; opt_Data : list Z }.

Record DHCPv4 : Type := mkDHCPv4 {
  dhcp_Operation : Z; dhcp_HardwareType : Z; dhcp_HardwareLen : Z;
  dhcp_Xid : Z; dhcp_ClientHWAddr : list Z; dhcp_Flags : Z;
  dhcp_YourClientIP : list Z; dhcp_Options : list DHCPOption }.

Record DNSQuestion : Type := mkDNSQuestion {
  q_Name : string; q_Type : Z; q_Class : Z }.

Record DNSResourceRecord : Type := mkDNSResourceRecord {
  rr_Name : string; rr_Type : Z; rr_Class : Z; rr_TTL : Z; rr_IP : list Z }.

Record DNS : Type := mkDNS {
  dns_ID : Z; dns_QR : bool; dns_OpCode : Z;
  dns_AA : bool; dns_TC : bool; dns_RD : bool; dns_RA : bool;
  dns_ResponseCode : Z; dns_QDCount : Z; dns_ANCount : Z;
  dns_Questions : list DNSQuestion; dns_Answers : list DNSResourceRecord }.

Inductive Layer : Type :=
| LEthernet (e : Ethernet)
| LARP (a : ARP)
| LIPv4 (i : IPv4)
| LIPv6
| LUDP (u : UDP)
| LTCP (t : TCP)
| LIGMP
| LDHCPv4 (d : DHCPv4)
| LDNS (d : DNS)
| LPayload (p : list Z)
| LDecodeFailure.

(** Constants of package [layers]. *)
Definition EthernetTypeIPv4 : Z := 2048.
Definition EthernetTypeARP : Z := 2054.
Definition EthernetTypeIPv6 : Z := 34525.
Definition IPProtocolTCP : Z := 6.
Definition IPProtocolUDP : Z := 17.
Definition LinkTypeEthernet : Z := 1.
Definition ARPRequest : Z := 1.
Definition ARPReply : Z := 2.
Definition DHCPOpReply : Z := 2.
Definition DHCPOptSubnetMask : Z := 1.
Definition DHCPOptRouter : Z := 3.
Definition DHCPOptDNS : Z := 6.
Definition DHCPOptLeaseTime : Z := 51.
Definition DHCPOptMessageType : Z := 53.
Definition DHCPOptServerID : Z := 54.
Definition DHCPMsgTypeUnspecified : Z := 0.
Definition DHCPMsgTypeDiscover : Z := 1.
Definition DHCPMsgTypeOffer : Z := 2.
Definition DHCPMsgTypeRequest : Z := 3.
Definition DHCPMsgTypeAck : Z := 5.
Definition DNSOpCodeQuery : Z := 0.
Definition DNSResponseCodeNoErr : Z := 0.
Definition DNSClassIN : Z := 1.
Definition DNSTypeA : Z := 1.

(** [gopacket.Packet]: the raw data and the decoded layers, outermost
    first. *)
Record Packet : Type := mkPacket { pkt_Data : list Z; pkt_Layers : list Layer }.

(** [pkt.Layer(t)] followed by a type assertion: the first layer of the
    wanted type, if any. *)
Fixpoint find_layer {A : Type} (sel : Layer → option A) (ls : list Layer)
  : option A :=
  match ls with
  | [] => None
  | l :: ls' => match sel l with Some a => Some a | None => find_layer sel ls' end
  end.

Definition sel_Ethernet (l : Layer) := match l with LEthernet e => Some e | _ => None end.
Definition sel_ARP (l : Layer) := match l with LARP a => Some a | _ => None end.
Definition sel_IPv4 (l : Layer) := match l with LIPv4 i => Some i | _ => None end.
Definition sel_UDP (l : Layer) := match l with LUDP u => Some u | _ => None end.
Definition sel_TCP (l : Layer) := match l with LTCP t => Some t | _ => None end.
Definition sel_IGMP (l : Layer) := match l with LIGMP => Some () | _ => None end.
Definition sel_DHCPv4 (l : Layer) := match l with LDHCPv4 d => Some d | _ => None end.
Definition sel_DNS (l : Layer) := match l with LDNS d => Some d | _ => None end.

Definition Layer_Ethernet (p : Packet) := find_layer sel_Ethernet (pkt_Layers p).
Definition Layer_ARP (p : Packet) := find_layer sel_ARP (pkt_Layers p).
Definition Layer_IPv4 (p : Packet) := find_layer sel_IPv4 (pkt_Layers p).
Definition Layer_UDP (p : Packet) := find_layer sel_UDP (pkt_Layers p).
Definition Layer_TCP (p : Packet) := find_layer sel_TCP (pkt_Layers p).
Definition Layer_IGMP (p : Packet) := find_layer sel_IGMP (pkt_Layers p).
Definition Layer_DHCPv4 (p : Packet) := find_layer sel_DHCPv4 (pkt_Layers p).
Definition Layer_DNS (p : Packet) := find_layer sel_DNS (pkt_Layers p).

(** [type EthernetPacket struct { le *layers.Ethernet; gp gopacket.Packet }] *)
Record EthernetPacket : Type := mkEthernetPacket { le : Ethernet; gp : Packet }.

(** [func (ep EthernetPacket) SrcMAC() MAC] and [DstMAC]; the conversion
    panics on a short slice. *)
Definition SrcMAC (ep : EthernetPacket) : option MAC := MAC_of_slice (eth_SrcMAC (le ep)).
Definition DstMAC (ep : EthernetPacket) : option MAC := MAC_of_slice (eth_DstMAC (le ep)).

(** [type UDPPacket struct { Src, Dst netip.AddrPort; Payload []byte }] *)
Record UDPPacket : Type := mkUDPPacket {
  Src : AddrPort; Dst : AddrPort; Payload : list Z }.

(** ** Packet classification *)

(** [func isDHCPRequest(pkt gopacket.Packet) bool] *)
Definition isDHCPRequest (pkt : Packet) : bool :=
  match Layer_IPv4 pkt with
  | None => false
  | Some v4 =>
      if bool_decide (ip_Protocol v4 ≠ IPProtocolUDP) then false
      else match Layer_UDP pkt with
           | None => false
           | Some udp => bool_decide (udp_DstPort udp = 67) && bool_decide (udp_SrcPort udp = 68)
           end
  end.

(** [func isIGMP(pkt gopacket.Packet) bool] *)
Definition isIGMP (pkt : Packet) : bool := bool_decide (is_Some (Layer_IGMP pkt)).

(** [func isMDNSQuery(pkt gopacket.Packet) bool] *)
Definition isMDNSQuery (pkt : Packet) : bool :=
  match Layer_UDP pkt with
  | None => false
  | Some udp => bool_decide (udp_SrcPort udp = 5353) && bool_decide (udp_DstPort udp = 5353)
  end.

(** [func isDNSRequest(pkt gopacket.Packet) bool] *)
Definition isDNSRequest (pkt : Packet) : bool :=
  match Layer_UDP pkt with
  | None => false
  | Some udp =>
      if bool_decide (udp_DstPort udp ≠ 53) then false
      else match Layer_IPv4 pkt with
           | None => false
           | Some ip =>
               let '(dstIP, ok) := AddrFromSlice (ip_DstIP ip) in
               if negb ok || bool_decide (dstIP ≠ fakeDNSIP) then false
               else match Layer_DNS pkt with
                    | None => false
                    | Some dns => negb (dns_QR dns)
                                  && bool_decide (0 < length (dns_Questions dns))%nat
                    end
           end
  end.

(** [func isNATPMP(pkt gopacket.Packet) bool] *)
Definition isNATPMP (pkt : Packet) : bool :=
  match Layer_UDP pkt with
  | None => false
  | Some udp =>
      bool_decide (udp_DstPort udp = 5351)
      && bool_decide (0 < length (udp_Payload udp))%nat
      && bool_decide (udp_Payload udp !! 0%nat = Some 0)
  end.

(** [func (s *Server) IPv4ForDNS(qname string) (netip.Addr, bool)] *)
Definition IPv4ForDNS (qname : string) : Addr * bool :=
  if String.eqb qname "dns" then (fakeDNSIP, true)
  else if String.eqb qname "test-driver.tailscale" then (fakeTestAgentIP, true)
  else if String.eqb qname "controlplane.tailscale.com" then (fakeControlplaneIP, true)
  else (AddrZero, false).

(** [mem.HasSuffix] *)
Definition HasSuffix (s suf : string) : bool :=
  let n := String.length s in
  let m := String.length suf in
  (m <=? n)%nat && String.eqb (String.substring (n - m) m s) suf.

(** ** Runtime state *)

(** [type NAT string] *)
Definition NAT : Type := string.

(** The [writePkt] closure that [ServeUnixConn] registers for a guest
    connection, named by the connection it writes to. *)
Definition Writer : Type := nat.

(** [type node struct { mac MAC; net *network; lanIP netip.Addr }]; the
    network pointer is the index of the network in the server. *)
Record node : Type := mkNode { node_mac : MAC; node_net : nat; node_lanIP : Addr }.

#[global] Instance node_eq_dec : EqDecision node.
Proof. solve_decision. Defined.

(** [type network struct]; [T] is the state of the NAT table behind the
    [NATTable] interface, [None] while the field is still nil. *)
Record network (T : Type) : Type := mkNetwork {
  net_mac : MAC;
  net_portmap : bool;
  net_wanIP : Addr;
  net_lanIP : Prefix;
  net_nodesByIP : gmap Addr node;
  net_natStyle : NAT;
  net_natTable : option T;
  net_writeFunc : gmap MAC Writer }.
Arguments mkNetwork {T}.
Arguments net_mac {T}.
Arguments net_portmap {T}.
Arguments net_wanIP {T}.
Arguments net_lanIP {T}.
Arguments net_nodesByIP {T}.
Arguments net_natStyle {T}.
Arguments net_natTable {T}.
Arguments net_writeFunc {T}.

(** [type Server struct], without the fields guarded by [s.mu] (they are in
    [AgentState] below). *)
Record Server (T : Type) : Type := mkServer {
  derpIPs : gset Addr;
  nodes : list node;
  nodeByMAC : gmap MAC node;
  networks : list (network T);
  networkByWAN : gmap Addr nat }.
Arguments mkServer {T}.
Arguments derpIPs {T}.
Arguments nodes {T}.
Arguments nodeByMAC {T}.
Arguments networks {T}.
Arguments networkByWAN {T}.

(** [type TxID [12]byte] of package stun. *)
Definition TxID : Type := list Z.

(** The collaborators whose code is outside these two files: the NAT
    tables of [nat.go] behind the [NATTable] interface and their registry
    [natTypes], package [stun], and gopacket's serializer.  [None] stands
    for a returned error. *)
Class External (T : Type) : Type := {
  PickOutgoingSrc : T → AddrPort → AddrPort → Z → AddrPort * T;
  PickIncomingDst : T → AddrPort → AddrPort → Z → AddrPort * T;
  natTypes : NAT → option (network T → option T);
  EasyNAT : NAT;
  ParseBindingRequest : list Z → option TxID;
  Response : TxID → AddrPort → list Z;
  SerializeLayers : list Layer → option (list Z) }.

(** What the router does to the outside: it calls the writer registered
    for a MAC on a network with a frame, or injects an IP datagram into the
    TCP/IP stack of a network. *)
Inductive Effect : Type :=
| ECall (n : nat) (mac : MAC) (w : Writer) (frame : list Z)
| EInject (n : nat) (pkt : list Z).

#[global] Instance Effect_eq_dec : EqDecision Effect.
Proof. solve_decision. Defined.

(** ** The router monad: server state, the calls made so far, panics

    A computation that panics or exhausts its fuel keeps the calls it had
    made before. *)

Inductive Outcome (A : Type) : Type :=
| Ret (a : A)
| Panic (e : list Effect)
| OutOfFuel (e : list Effect).
Arguments Ret {A}.
Arguments Panic {A}.
Arguments OutOfFuel {A}.

Definition M (T A : Type) : Type := Server T → Outcome (A * Server T * list Effect).

Definition ret {T A} (a : A) : M T A := λ s, Ret (a, s, []).

Definition bind {T A B} (m : M T A) (f : A → M T B) : M T B := λ s,
  match m s with
  | Ret (a, s', e1) =>
      match f a s' with
      | Ret (b, s'', e2) => Ret (b, s'', e1 ++ e2)
      | Panic e2 => Panic (e1 ++ e2)
      | OutOfFuel e2 => OutOfFuel (e1 ++ e2)
      end
  | Panic e1 => Panic e1
  | OutOfFuel e1 => OutOfFuel e1
  end.

Notation "'let*' x := m 'in' k" := (bind m (λ x, k))
  (at level 10, x name, m at level 100, k at level 200).

Definition panic {T A} : M T A := λ _, Panic [].
Definition outOfFuel {T A} : M T A := λ _, OutOfFuel [].
Definition emit {T} (e : Effect) : M T () := λ s, Ret ((), s, [e]).
Definition getServer {T} : M T (Server T) := λ s, Ret (s, s, []).

(** Dereference of a [*network]. *)
Definition getNet {T} (n : nat) : M T (network T) := λ s,
  match networks s !! n with
  | Some netw => Ret (netw, s, [])
  | None => Panic []
  end.

Definition setNet {T} (n : nat) (netw : network T) : M T () := λ s,
  Ret ((), mkServer (derpIPs s) (nodes s) (nodeByMAC s)
             (<[n := netw]> (networks s)) (networkByWAN s), []).

Fixpoint forM_ {T A} (l : list A) (f : A → M T ()) : M T () :=
  match l with
  | [] => ret ()
  | x :: l' => let* _ := f x in forM_ l' f
  end.

(** The calls a computation made. *)
Definition effects_of {T A} (o : Outcome (A * Server T * list Effect)) : list Effect :=
  match o with
  | Ret (_, _, e) => e
  | Panic e => e
  | OutOfFuel e => e
  end.

(** A pair [(bytes, err)] as the [create...Response] functions return it;
    [Crashed] is a run-time panic (a failed type assertion, an index out of
    range, a nil dereference). *)
Inductive Result (A : Type) : Type :=
| Ok (a : A)
| Err
| Crashed.
Arguments Ok {A}.
Arguments Err {A}.
Arguments Crashed {A}.

Section Router.
Context {T : Type} `{Ext : External T}.

Definition set_natTable (netw : network T) (t : option T) : network T :=
  mkNetwork (net_mac netw) (net_portmap netw) (net_wanIP netw) (net_lanIP netw)
            (net_nodesByIP netw) (net_natStyle netw) t (net_writeFunc netw).

Definition set_natStyle (netw : network T) (st : NAT) : network T :=
  mkNetwork (net_mac netw) (net_portmap netw) (net_wanIP netw) (net_lanIP netw)
            (net_nodesByIP netw) st (net_natTable netw) (net_writeFunc netw).

Definition set_writeFunc (netw : network T) (wf : gmap MAC Writer) : network T :=
  mkNetwork (net_mac netw) (net_portmap netw) (net_wanIP netw) (net_lanIP netw)
            (net_nodesByIP netw) (net_natStyle netw) (net_natTable netw) wf.

Definition set_nodesByIP (netw : network T) (m : gmap Addr node) : network T :=
  mkNetwork (net_mac netw) (net_portmap netw) (net_wanIP netw) (net_lanIP netw)
            m (net_natStyle netw) (net_natTable netw) (net_writeFunc netw).

(** [func (n *network) registerWriter(mac MAC, f func([]byte))] *)
Definition registerWriter (n : nat) (mac : MAC) (f : option Writer) : M T () :=
  let* netw := getNet n in
  match f with
  | Some w => setNet n (set_writeFunc netw (<[mac := w]> (net_writeFunc netw)))
  | None => setNet n (set_writeFunc netw (delete mac (net_writeFunc netw)))
  end.

(** [func (n *network) MACOfIP(ip netip.Addr) (_ MAC, ok bool)] *)
Definition MACOfIP (netw : network T) (ip : Addr) : MAC * bool :=
  if bool_decide (Prefix_Addr (net_lanIP netw) = ip) then (net_mac netw, true)
  else match net_nodesByIP netw !! ip with
       | Some nd => (node_mac nd, true)
       | None => (MAC_zero, false)
       end.

(** [func (n *network) writeEth(res []byte)]: [Range] visits the
    registered writers in the order of [map_to_list]. *)
Definition writeEth (n : nat) (res : list Z) : M T () :=
  if bool_decide (length res < 12)%nat then ret ()
  else
    match MAC_of_slice (take 6 res), MAC_of_slice (take 6 (drop 6 res)) with
    | Some dstMAC, Some srcMAC =>
        let* netw := getNet n in
        if IsBroadcast dstMAC then
          forM_ (map_to_list (net_writeFunc netw))
                (λ kv, emit (ECall n kv.1 kv.2 res))
        else if bool_decide (srcMAC = dstMAC) then ret ()
        else match net_writeFunc netw !! dstMAC with
             | Some w => emit (ECall n dstMAC w res)
             | None => ret ()
             end
    | _, _ => panic
    end.

(** ** Synthesised replies *)

(** [gopacket.SerializeLayers(buffer, options, ls...)] and [buffer.Bytes()] *)
Definition serialize (ls : list Layer) : Result (list Z) :=
  match SerializeLayers ls with
  | Some b => Ok b
  | None => Err
  end.

(** The layers [createARPResponse] hands to the serializer; [None] is its
    [return nil, nil]. *)
Definition arpReply (netw : network T) (pkt : Packet) : option (Ethernet * ARP) :=
  match Layer_Ethernet pkt with
  | None => None
  | Some ethLayer =>
      match Layer_ARP pkt with
      | None => None
      | Some arpLayer =>
          if bool_decide (arp_Operation arpLayer ≠ ARPRequest)
             || bool_decide (arp_AddrType arpLayer ≠ LinkTypeEthernet)
             || bool_decide (arp_Protocol arpLayer ≠ EthernetTypeIPv4)
             || bool_decide (arp_HwAddressSize arpLayer ≠ 6)
             || bool_decide (arp_ProtAddressSize arpLayer ≠ 4)
             || bool_decide (length (arp_DstProtAddress arpLayer) ≠ 4%nat)
          then None
          else
            let wantIP := (AddrFromSlice (arp_DstProtAddress arpLayer)).1 in
            let '(foundMAC, ok) := MACOfIP netw wantIP in
            if negb ok then None
            else
              Some (mkEthernet (HWAddr foundMAC) (eth_SrcMAC ethLayer) EthernetTypeARP,
                    mkARP LinkTypeEthernet EthernetTypeIPv4 6 4 ARPReply
                          (HWAddr foundMAC) (arp_DstProtAddress arpLayer)
                          (eth_SrcMAC ethLayer) (arp_SourceProtAddress arpLayer))
      end
  end.

(** [func (n *network) createARPResponse(pkt gopacket.Packet) ([]byte, error)] *)
Definition createARPResponse (netw : network T) (pkt : Packet) : Result (list Z) :=
  match arpReply netw pkt with
  | None => Ok []
  | Some (eth, a2) => serialize [LEthernet eth; LARP a2]
  end.

(** The loop of [createDHCPResponse] that finds the message type: the
    last message-type option of positive length wins; [opt.Data[0]] panics
    ([None]) on empty data. *)
Definition dhcpMsgType (opts : list DHCPOption) : option Z :=
  foldl (λ acc opt,
           match acc with
           | None => None
           | Some mt =>
               if bool_decide (opt_Type opt = DHCPOptMessageType)
                  && bool_decide (0 < opt_Length opt)
               then head (opt_Data opt)
               else Some mt
           end)
        (Some DHCPMsgTypeUnspecified) opts.

(** The options of the reply for a message type. *)
Definition dhcpReplyOptions (gwIP : Addr) (bits : Z) (msgType : Z) : list DHCPOption :=
  let base := [mkDHCPOption DHCPOptServerID 4 (AsSlice gwIP)] in
  if bool_decide (msgType = DHCPMsgTypeDiscover) then
    base ++ [mkDHCPOption DHCPOptMessageType 1 [byte_of DHCPMsgTypeOffer]]
  else if bool_decide (msgType = DHCPMsgTypeRequest) then
    base ++ [mkDHCPOption DHCPOptMessageType 1 [byte_of DHCPMsgTypeAck];
             mkDHCPOption DHCPOptLeaseTime 4 (AppendUint32 [] 3600);
             mkDHCPOption DHCPOptRouter 4 (AsSlice gwIP);
             mkDHCPOption DHCPOptDNS 4 (AsSlice fakeDNSIP);
             mkDHCPOption DHCPOptSubnetMask 4 (CIDRMask32 bits)]
  else base.

(** The layers [createDHCPResponse] hands to the serializer; [Ok None] is
    its [return nil, nil]. *)
Definition dhcpReply (s : Server T) (request : Packet)
  : Result (option (Ethernet * IPv4 * UDP * DHCPv4)) :=
  match Layer_Ethernet request with
  | None => Crashed
  | Some ethLayer =>
      let '(srcMAC, ok) := macOf (eth_SrcMAC ethLayer) in
      if negb ok then Ok None
      else
        match nodeByMAC s !! srcMAC with
        | None => Ok None
        | Some nd =>
            match networks s !! node_net nd with
            | None => Crashed
            | Some netw =>
                let gwIP := Prefix_Addr (net_lanIP netw) in
                match Layer_IPv4 request, Layer_UDP request, Layer_DHCPv4 request with
                | Some ipLayer, Some udpLayer, Some dhcpLayer =>
                    match dhcpMsgType (dhcp_Options dhcpLayer) with
                    | None => Crashed
                    | Some msgType =>
                        let response :=
                          mkDHCPv4 DHCPOpReply LinkTypeEthernet 6
                                   (dhcp_Xid dhcpLayer) (dhcp_ClientHWAddr dhcpLayer)
                                   (dhcp_Flags dhcpLayer) (AsSlice (node_lanIP nd))
                                   (dhcpReplyOptions gwIP (Prefix_Bits (net_lanIP netw)) msgType) in
                        let eth := mkEthernet (HWAddr (net_mac netw)) (eth_SrcMAC ethLayer)
                                              EthernetTypeIPv4 in
                        let ip := mkIPv4 4 64 IPProtocolUDP
                                         (ip_DstIP ipLayer) (ip_SrcIP ipLayer) [] [] in
                        let udp := mkUDP (udp_DstPort udpLayer) (udp_SrcPort udpLayer) [] in
                        Ok (Some (eth, ip, udp, response))
                    end
                | _, _, _ => Crashed
                end
            end
        end
  end.

(** [func (s *Server) createDHCPResponse(request gopacket.Packet) ([]byte, error)] *)
Definition createDHCPResponse (s : Server T) (request : Packet) : Result (list Z) :=
  match dhcpReply s request with
  | Ok None => Ok []
  | Ok (Some (eth, ip, udp, response)) =>
      serialize [LEthernet eth; LIPv4 ip; LUDP udp; LDHCPv4 response]
  | Err => Err
  | Crashed => Crashed
  end.

(** The loop of [createDNSResponse] over the questions; [None] is the
    early [return nil, nil] on an NTP pool name. *)
Fixpoint dnsQuestions (qs : list DNSQuestion) (response : DNS) : option DNS :=
  match qs with
  | [] => Some response
  | q :: qs' =>
      let response1 :=
        mkDNS (dns_ID response) (dns_QR response) (dns_OpCode response)
              (dns_AA response) (dns_TC response) (dns_RD response) (dns_RA response)
              (dns_ResponseCode response)
              (uint16_of (dns_QDCount response + 1)) (dns_ANCount response)
              (dns_Questions response ++ [q]) (dns_Answers response) in
      if HasSuffix (q_Name q) ".pool.ntp.org" then None
      else if bool_decide (q_Class q ≠ DNSClassIN) || bool_decide (q_Type q ≠ DNSTypeA)
      then dnsQuestions qs' response1
      else
        let '(ip, ok) := IPv4ForDNS (q_Name q) in
        if ok then
          dnsQuestions qs'
            (mkDNS (dns_ID response1) (dns_QR response1) (dns_OpCode response1)
                   (dns_AA response1) (dns_TC response1) (dns_RD response1)
                   (dns_RA response1) (dns_ResponseCode response1)
                   (dns_QDCount response1) (uint16_of (dns_ANCount response1 + 1))
                   (dns_Questions response1)
                   (dns_Answers response1
                      ++ [mkDNSResourceRecord (q_Name q) (q_Type q) (q_Class q) 60
                                              (AsSlice ip)]))
        else dnsQuestions qs' response1
  end.

(** The layers [createDNSResponse] hands to the serializer; [Ok None] is
    its [return nil, nil]. *)
Definition dnsReply (pkt : Packet) : Result (option (Ethernet * IPv4 * UDP * DNS)) :=
  match Layer_Ethernet pkt, Layer_IPv4 pkt, Layer_UDP pkt, Layer_DNS pkt with
  | Some ethLayer, Some ipLayer, Some udpLayer, Some dnsLayer =>
      if bool_decide (dns_OpCode dnsLayer ≠ DNSOpCodeQuery) || dns_QR dnsLayer
         || bool_decide (length (dns_Questions dnsLayer) = 0%nat)
      then Ok None
      else
        let response :=
          mkDNS (dns_ID dnsLayer) true DNSOpCodeQuery true false (dns_RD dnsLayer) true
                DNSResponseCodeNoErr 0 0 [] [] in
        match dnsQuestions (dns_Questions dnsLayer) response with
        | None => Ok None
        | Some response' =>
            let eth2 := mkEthernet (eth_DstMAC ethLayer) (eth_SrcMAC ethLayer)
                                   EthernetTypeIPv4 in
            let ip2 := mkIPv4 4 64 IPProtocolUDP (ip_DstIP ipLayer) (ip_SrcIP ipLayer) [] [] in
            let udp2 := mkUDP (udp_DstPort udpLayer) (udp_SrcPort udpLayer) [] in
            Ok (Some (eth2, ip2, udp2, response'))
        end
  | _, _, _, _ => Crashed
  end.

(** [func (s *Server) createDNSResponse(pkt gopacket.Packet) ([]byte, error)] *)
Definition createDNSResponse (pkt : Packet) : Result (list Z) :=
  match dnsReply pkt with
  | Ok None => Ok []
  | Ok (Some (eth2, ip2, udp2, response)) =>
      serialize [LEthernet eth2; LIPv4 ip2; LUDP udp2; LDNS response]
  | Err => Err
  | Crashed => Crashed
  end.

(** [func (s *Server) shouldInterceptTCP(pkt gopacket.Packet) bool] *)
Definition shouldInterceptTCP (s : Server T) (pkt : Packet) : bool :=
  match Layer_TCP pkt with
  | None => false
  | Some tcp =>
      match Layer_IPv4 pkt with
      | None => false
      | Some ipv4 =>
          if bool_decide (tcp_DstPort tcp = 123) then true
          else
            let dstIP := (AddrFromSlice (To4 (ip_DstIP ipv4))).1 in
            if (bool_decide (tcp_DstPort tcp = 80) || bool_decide (tcp_DstPort tcp = 443))
               && (bool_decide (dstIP = fakeControlplaneIP)
                   || bool_decide (dstIP ∈ derpIPs s))
            then true
            else if bool_decide (tcp_DstPort tcp = 8008)
                    && bool_decide (dstIP = fakeTestAgentIP)
            then true
            else false
      end
  end.

(** [func makeSTUNReply(req UDPPacket) (res UDPPacket, ok bool)] *)
Definition makeSTUNReply (req : UDPPacket) : UDPPacket * bool :=
  match ParseBindingRequest (Payload req) with
  | None => (mkUDPPacket (mkAddrPort AddrZero 0) (mkAddrPort AddrZero 0) [], false)
  | Some txid => (mkUDPPacket (Dst req) (Src req) (Response txid (Src req)), true)
  end.

(** ** Routing *)

(** [func (n *network) doNATOut(src, dst netip.AddrPort) netip.AddrPort];
    [now] is the reading of [time.Now()]. *)
Definition doNATOut (n : nat) (src dst : AddrPort) (now : Z) : M T AddrPort :=
  let* netw := getNet n in
  match net_natTable netw with
  | None => panic
  | Some t =>
      let '(newSrc, t') := PickOutgoingSrc t src dst now in
      let* _ := setNet n (set_natTable netw (Some t')) in
      ret newSrc
  end.

(** [func (n *network) doNATIn(src, dst netip.AddrPort) netip.AddrPort] *)
Definition doNATIn (n : nat) (src dst : AddrPort) (now : Z) : M T AddrPort :=
  let* netw := getNet n in
  match net_natTable netw with
  | None => panic
  | Some t =>
      let '(newDst, t') := PickIncomingDst t src dst now in
      let* _ := setNet n (set_natTable netw (Some t')) in
      ret newDst
  end.

(** [func (n *network) WriteUDPPacketNoNAT(p UDPPacket)] *)
Definition WriteUDPPacketNoNAT (n : nat) (p : UDPPacket) : M T () :=
  let src := Src p in
  let dst := Dst p in
  let* netw := getNet n in
  match net_nodesByIP netw !! ap_addr dst with
  | None => ret ()
  | Some nd =>
      let eth := mkEthernet (HWAddr (net_mac netw)) (HWAddr (node_mac nd)) EthernetTypeIPv4 in
      let ip := mkIPv4 4 64 IPProtocolUDP (AsSlice (ap_addr src)) (AsSlice (ap_addr dst)) [] [] in
      let udp := mkUDP (ap_port src) (ap_port dst) [] in
      match serialize [LEthernet eth; LIPv4 ip; LUDP udp; LPayload (Payload p)] with
      | Ok ethRaw => writeEth n ethRaw
      | _ => ret ()
      end
  end.

(** [func (n *network) HandleUDPPacket(p UDPPacket)] *)
Definition HandleUDPPacket (n : nat) (p : UDPPacket) (now : Z) : M T () :=
  let* dst := doNATIn n (Src p) (Dst p) now in
  if negb (AddrPort_IsValid dst) then ret ()
  else WriteUDPPacketNoNAT n (mkUDPPacket (Src p) dst (Payload p)).

(** [func (s *Server) routeUDPPacket(up UDPPacket)]; the function calls
    itself on a STUN reply, [fuel] bounds the depth of that recursion. *)
Fixpoint routeUDPPacket (fuel : nat) (up : UDPPacket) (now : Z) : M T () :=
  match fuel with
  | O => outOfFuel
  | S fuel' =>
      if bool_decide (ap_port (Dst up) = stunPort) then
        match makeSTUNReply up with
        | (res, true) => routeUDPPacket fuel' res now
        | (_, false) => ret ()
        end
      else
        let* s := getServer in
        match networkByWAN s !! ap_addr (Dst up) with
        | None => ret ()
        | Some netw => HandleUDPPacket netw up now
        end
  end.

(** The payload of the NAT-PMP public-address reply (RFC 6886, 3.2);
    [n.wanIP.As4()] panics ([None]) when the network has no IPv4 WAN
    address. *)
Definition natpmpReplyPayload (wanIP : Addr) (now : Z) : option (list Z) :=
  let res := [0; 128; 0; 0] in
  let res := AppendUint32 res (uint32_of now) in
  match As4 wanIP with
  | Some (a, b, c, d) => Some (res ++ [a; b; c; d])
  | None => None
  end.

(** [func (n *network) handleNATPMPRequest(req UDPPacket)]; [now] is
    [time.Now().Unix()]. *)
Definition handleNATPMPRequest (n : nat) (req : UDPPacket) (now : Z) : M T () :=
  if bool_decide (Payload req = [0; 0]) then
    let* netw := getNet n in
    match natpmpReplyPayload (net_wanIP netw) now with
    | None => panic
    | Some res => WriteUDPPacketNoNAT n (mkUDPPacket (Dst req) (Src req) res)
    end
  else ret ().

(** [n.linkEP.InjectInbound(header.IPv4ProtocolNumber, packetBuf)] *)
Definition InjectInbound (n : nat) (pktCopy : list Z) : M T () := emit (EInject n pktCopy).

(** The result of a [create...Response] call as the router uses it: an
    error is logged and nothing is written, otherwise the bytes go to
    [writeEth]. *)
Definition writeResult (n : nat) (r : Result (list Z)) : M T () :=
  match r with
  | Ok res => writeEth n res
  | Err => ret ()
  | Crashed => panic
  end.

(** [func (n *network) HandleEthernetIPv4PacketForRouter(ep EthernetPacket)] *)
Definition HandleEthernetIPv4PacketForRouter
    (fuel : nat) (n : nat) (ep : EthernetPacket) (now : Z) : M T () :=
  let packet := gp ep in
  match Layer_IPv4 packet with
  | None => ret ()
  | Some v4 =>
      let srcIP := (AddrFromSlice (ip_SrcIP v4)).1 in
      let dstIP := (AddrFromSlice (ip_DstIP v4)).1 in
      let* netw := getNet n in
      let toForward := bool_decide (dstIP ≠ Prefix_Addr (net_lanIP netw))
                       && bool_decide (dstIP ≠ IPv4Unspecified) in
      let udp := Layer_UDP packet in
      let isUDP := bool_decide (is_Some udp) in
      if isDHCPRequest packet then
        let* s := getServer in
        writeResult n (createDHCPResponse s packet)
      else if isMDNSQuery packet || isIGMP packet then ret ()
      else if isDNSRequest packet then
        writeResult n (createDNSResponse packet)
      else if negb toForward && isNATPMP packet then
        match udp with
        | None => panic
        | Some u =>
            handleNATPMPRequest n
              (mkUDPPacket (AddrPortFrom srcIP (udp_SrcPort u))
                           (AddrPortFrom dstIP (udp_DstPort u))
                           (udp_Payload u)) now
        end
      else if toForward && isUDP then
        match udp with
        | None => panic
        | Some u =>
            let src := AddrPortFrom srcIP (udp_SrcPort u) in
            let dst := AddrPortFrom dstIP (udp_DstPort u) in
            let* src' := doNATOut n src dst now in
            routeUDPPacket fuel (mkUDPPacket src' dst (udp_Payload u)) now
        end
      else
        let* s := getServer in
        if toForward && shouldInterceptTCP s packet then
          InjectInbound n (ip_Contents v4 ++ ip_Payload v4)
        else ret ()
  end.

(** [func (n *network) HandleEthernetPacket(ep EthernetPacket)] *)
Definition HandleEthernetPacket
    (fuel : nat) (n : nat) (ep : EthernetPacket) (now : Z) : M T () :=
  let packet := gp ep in
  match DstMAC ep with
  | None => panic
  | Some dstMAC =>
      let* netw := getNet n in
      let isBroadcast := IsBroadcast dstMAC in
      let forRouter := bool_decide (dstMAC = net_mac netw) || isBroadcast in
      let ty := eth_EthernetType (le ep) in
      if bool_decide (ty = EthernetTypeARP) then
        writeResult n (createARPResponse netw packet)
      else if bool_decide (ty = EthernetTypeIPv6) then ret ()
      else if bool_decide (ty = EthernetTypeIPv4) then
        let* _ := writeEth n (pkt_Data (gp ep)) in
        if forRouter then HandleEthernetIPv4PacketForRouter fuel n ep now
        else ret ()
      else ret ()
  end.

(** ** Guest transports *)

(** [type Protocol int] *)
Inductive Protocol : Type := ProtocolQEMU | ProtocolUnixDGRAM.

(** What one iteration of the read loop of [ServeUnixConn] gets from the
    connection: a failed read, or a frame, given as gopacket decoded it,
    together with the clock reading while it is handled. *)
Inductive ReadEvent : Type :=
| ReadError
| ReadFrame (p : Packet) (now : Z).

(** [packet.LinkLayer()] asserted to be an [*layers.Ethernet] *)
Definition LinkLayer (p : Packet) : option Ethernet := Layer_Ethernet p.

(** The deferred [netw.registerWriter(srcMAC, nil)], run when the function
    returns; [locked] is the node and the MAC the loop locked onto. *)
Definition serveReturn (locked : option (node * MAC)) : M T () :=
  match locked with
  | None => ret ()
  | Some (srcNode, srcMAC) => registerWriter (node_net srcNode) srcMAC None
  end.

(** The [for] loop of [ServeUnixConn] over the reads of the connection.
    [handle] is what the loop does with an accepted frame, [w] the
    [writePkt] closure of the connection.  When the reads are used up the
    loop is still waiting for the next one. *)
Fixpoint serveLoop (handle : nat → EthernetPacket → Z → M T ())
    (w : Writer) (proto : Protocol) (evs : list ReadEvent)
    (locked : option (node * MAC)) : M T () :=
  match evs with
  | [] => ret ()
  | ReadError :: evs' =>
      match proto with
      | ProtocolUnixDGRAM => serveLoop handle w proto evs' locked
      | ProtocolQEMU => serveReturn locked
      end
  | ReadFrame packet now :: evs' =>
      match LinkLayer packet with
      | None => serveLoop handle w proto evs' locked
      | Some le =>
          if bool_decide (length (eth_SrcMAC le) ≠ 6%nat)
             || bool_decide (length (eth_DstMAC le) ≠ 6%nat)
          then serveLoop handle w proto evs' locked
          else
            let ep := mkEthernetPacket le packet in
            match SrcMAC ep with
            | None => panic
            | Some srcMAC =>
                match locked with
                | None =>
                    let* s := getServer in
                    match nodeByMAC s !! srcMAC with
                    | None => serveLoop handle w proto evs' None
                    | Some srcNode =>
                        let netw := node_net srcNode in
                        let* _ := registerWriter netw srcMAC (Some w) in
                        let* _ := handle netw ep now in
                        serveLoop handle w proto evs' (Some (srcNode, srcMAC))
                    end
                | Some (srcNode, _) =>
                    if bool_decide (srcMAC ≠ node_mac srcNode)
                    then serveLoop handle w proto evs' locked
                    else
                      let* _ := handle (node_net srcNode) ep now in
                      serveLoop handle w proto evs' locked
                end
            end
      end
  end.

(** [func (s *Server) ServeUnixConn(uc *net.UnixConn, proto Protocol)] on
    the reads [evs] of the connection. *)
Definition ServeUnixConn (fuel : nat) (w : Writer) (proto : Protocol)
    (evs : list ReadEvent) : M T () :=
  serveLoop (HandleEthernetPacket fuel) w proto evs None.

End Router.

(** ** Configuration ([conf.go]) *)

(** [type NetworkService string] *)
Definition NetworkService : Type := string.
Definition NATPMP : NetworkService := "NAT-PMP".
Definition PCP : NetworkService := "PCP".
Definition UPnP : NetworkService := "UPnP".

(** [type Node struct]: a [*Network] is the index of the network in the
    configuration; [err] is the carried error, if any. *)
Record Node : Type := mkNodeConf {
  Node_err : option string; Node_mac : MAC; Node_nets : list nat }.

(** [type Network struct]; a [*Node] is the index of the node. *)
Record Network : Type := mkNetworkConf {
  Network_mac : MAC; Network_natType : NAT;
  Network_wanIP : Addr; Network_lanIP : Prefix;
  Network_nodes : list nat;
  Network_svcs : gset NetworkService;
  Network_err : option string }.

(** [type Config struct { nodes []*Node; networks []*Network }] *)
Record Config : Type := mkConfig { c_nodes : list Node; c_networks : list Network }.

Definition Config_zero : Config := mkConfig [] [].

(** The options of [AddNode]: a [*Network], or a value of another type. *)
Inductive AddNodeOpt : Type :=
| NodeOptNetwork (o : nat)
| NodeOptOther.

(** The options of [AddNetwork].  A string option is given by what the
    parsers of [net/netip] make of it: an address ([ParseAddr] accepts
    it), a prefix ([ParseAddr] rejects it and [ParsePrefix] accepts it), or
    neither. *)
Inductive AddNetworkOpt : Type :=
| NetOptAddr (ip : Addr)
| NetOptPrefix (p : Prefix)
| NetOptBadString (s : string)
| NetOptNAT (t : NAT)
| NetOptService (svc : NetworkService)
| NetOptOther.

Definition Network_add_node (i : nat) (nw : Network) : Network :=
  if bool_decide (i ∈ Network_nodes nw) then nw
  else mkNetworkConf (Network_mac nw) (Network_natType nw) (Network_wanIP nw)
                     (Network_lanIP nw) (Network_nodes nw ++ [i]) (Network_svcs nw)
                     (Network_err nw).

(** One iteration of the option loop of [AddNode] for the node [n] with
    index [i]. *)
Definition AddNode_opt (i : nat) (st : Node * list Network) (o : AddNodeOpt)
  : Node * list Network :=
  let '(n, nets) := st in
  match o with
  | NodeOptNetwork o =>
      (mkNodeConf (Node_err n) (Node_mac n) (Node_nets n ++ [o]),
       alter (Network_add_node i) o nets)
  | NodeOptOther =>
      (mkNodeConf (match Node_err n with
                   | None => Some "unknown AddNode option type"
                   | e => e
                   end) (Node_mac n) (Node_nets n), nets)
  end.

(** [func (c *Config) AddNode(opts ...any) *Node]: the new configuration
    and the index of the new node. *)
Definition AddNode (c : Config) (opts : list AddNodeOpt) : Config * nat :=
  let num := length (c_nodes c) in
  let n := mkNodeConf None (mkMAC 82 204 204 204 204 (byte_of (Z.of_nat num))) [] in
  let '(n', nets') := foldl (AddNode_opt num) (n, c_networks c) opts in
  (mkConfig (c_nodes c ++ [n']) nets', num).

(** [func (n *Network) AddService(s NetworkService)] *)
Definition AddService (n : Network) (s : NetworkService) : Network :=
  mkNetworkConf (Network_mac n) (Network_natType n) (Network_wanIP n) (Network_lanIP n)
                (Network_nodes n) ({[ s ]} ∪ Network_svcs n) (Network_err n).

(** One iteration of the option loop of [AddNetwork]. *)
Definition AddNetwork_opt (n : Network) (o : AddNetworkOpt) : Network :=
  match o with
  | NetOptAddr ip =>
      mkNetworkConf (Network_mac n) (Network_natType n) ip (Network_lanIP n)
                    (Network_nodes n) (Network_svcs n) (Network_err n)
  | NetOptPrefix p =>
      mkNetworkConf (Network_mac n) (Network_natType n) (Network_wanIP n) p
                    (Network_nodes n) (Network_svcs n) (Network_err n)
  | NetOptBadString _ =>
      mkNetworkConf (Network_mac n) (Network_natType n) (Network_wanIP n) (Network_lanIP n)
                    (Network_nodes n) (Network_svcs n)
                    (match Network_err n with
                     | None => Some "unknown string option"
                     | e => e
                     end)
  | NetOptNAT t =>
      mkNetworkConf (Network_mac n) t (Network_wanIP n) (Network_lanIP n)
                    (Network_nodes n) (Network_svcs n) (Network_err n)
  | NetOptService svc => AddService n svc
  | NetOptOther =>
      mkNetworkConf (Network_mac n) (Network_natType n) (Network_wanIP n) (Network_lanIP n)
                    (Network_nodes n) (Network_svcs n)
                    (match Network_err n with
                     | None => Some "unknown AddNetwork option type"
                     | e => e
                     end)
  end.

(** [func (c *Config) AddNetwork(opts ...any) *Network] *)
Definition AddNetwork (c : Config) (opts : list AddNetworkOpt) : Config * nat :=
  let num := length (c_networks c) in
  let n := mkNetworkConf (mkMAC 82 238 238 238 238 (byte_of (Z.of_nat num))) EmptyString
                         AddrZero Prefix_zero [] ∅ None in
  (mkConfig (c_nodes c) (c_networks c ++ [foldl AddNetwork_opt n opts]), num).

(** [func (n *Node) Network() *Network] *)
Definition Node_Network (n : Node) : option nat := head (Node_nets n).

(** [netip.MustParsePrefix] of the default LAN prefix, written as in the
    source: 192.168.0.0/24. *)
Definition defaultLanIP : Prefix := PrefixFrom (Addr4 192 168 0 0) 24.

(** The LAN address of a node: the address of the network's prefix with
    the final octet set to [101 + mac[5]] in byte arithmetic.  [As4] may
    panic. *)
Definition allocLanIP (lanIP : Prefix) (mac : MAC) : option Addr :=
  match As4 (Prefix_Addr lanIP) with
  | Some (a, b, c, _) => Some (AddrFrom4 (a, b, c, byte_of (101 + mac5 mac)))
  | None => None
  end.

Section Init.
Context {T : Type} `{Ext : External T}.

(** The first loop of [initFromConfig]: one runtime network per configured
    network, in order. *)
Definition initNetwork (acc : Result (Server T)) (conf : Network) : Result (Server T) :=
  match acc with
  | Ok s =>
      match Network_err conf with
      | Some _ => Err
      | None =>
          let lanIP := if negb (Prefix_IsValid (Network_lanIP conf)) then defaultLanIP
                       else Network_lanIP conf in
          let n := mkNetwork (Network_mac conf)
                             (bool_decide (NATPMP ∈ Network_svcs conf))
                             (Network_wanIP conf) lanIP ∅ EmptyString None ∅ in
          let idx := length (networks s) in
          if bool_decide (is_Some (networkByWAN s !! Network_wanIP conf)) then Err
          else Ok (mkServer (derpIPs s) (nodes s) (nodeByMAC s) (networks s ++ [n])
                            (<[Network_wanIP conf := idx]> (networkByWAN s)))
      end
  | r => r
  end.

(** The second loop: one runtime node per configured node. *)
Definition initNode (acc : Result (Server T)) (conf : Node) : Result (Server T) :=
  match acc with
  | Ok s =>
      match Node_err conf with
      | Some _ => Err
      | None =>
          if bool_decide (is_Some (nodeByMAC s !! Node_mac conf)) then Err
          else
            match Node_Network conf with
            | None => Crashed
            | Some idx =>
                match networks s !! idx with
                | None => Crashed
                | Some netw =>
                    match allocLanIP (net_lanIP netw) (Node_mac conf) with
                    | None => Crashed
                    | Some lanIP =>
                        let n := mkNode (Node_mac conf) idx lanIP in
                        let netw' := set_nodesByIP netw (<[lanIP := n]> (net_nodesByIP netw)) in
                        Ok (mkServer (derpIPs s) (nodes s ++ [n])
                                     (<[Node_mac conf := n]> (nodeByMAC s))
                                     (<[idx := netw']> (networks s))
                                     (networkByWAN s))
                    end
                end
            end
      end
  | r => r
  end.

(** [func (n *network) InitNAT(natType NAT) error] on the network with
    index [idx]. *)
Definition InitNAT (s : Server T) (idx : nat) (natType : NAT) : Result (Server T) :=
  match networks s !! idx with
  | None => Crashed
  | Some n =>
      match natTypes natType with
      | None => Err
      | Some ctor =>
          match ctor n with
          | None => Err
          | Some t =>
              Ok (mkServer (derpIPs s) (nodes s) (nodeByMAC s)
                           (<[idx := set_natStyle (set_natTable n (Some t)) natType]> (networks s))
                           (networkByWAN s))
          end
      end
  end.

(** [cmp.Or(conf.natType, EasyNAT)] *)
Definition natTypeOr (t : NAT) : NAT := if bool_decide (t = EmptyString) then EasyNAT else t.

(** The third loop: the NAT table of every network. *)
Definition initNATs (acc : Result (Server T) * nat) (conf : Network)
  : Result (Server T) * nat :=
  match acc with
  | (Ok s, idx) => (InitNAT s idx (natTypeOr (Network_natType conf)), S idx)
  | (r, idx) => (r, S idx)
  end.

(** The server [New] starts from. *)
Definition Server_empty : Server T := mkServer ∅ [] ∅ [] ∅.

(** [func (s *Server) initFromConfig(c *Config) error] *)
Definition initFromConfig (s : Server T) (c : Config) : Result (Server T) :=
  let r1 := foldl initNetwork (Ok s) (c_networks c) in
  let r2 := foldl initNode r1 (c_nodes c) in
  (foldl initNATs (r2, 0%nat) (c_networks c)).1.

End Init.

(** ** The agent registry: the fields of [Server] guarded by [s.mu] *)

Module Agent.

#[global] Instance node_countable : Countable node.
Proof.
  refine (inj_countable'
    (λ nd, (node_mac nd, node_net nd, node_lanIP nd))
    (λ t, let '(m, n, ip) := t in mkNode m n ip) _).
  by intros [].
Defined.

(** [type agentConn struct { node *node; tc *gonet.TCPConn }]; the
    connection is named by a number. *)
Record agentConn : Type := mkAgentConn { ac_node : node; ac_tc : nat }.

(** [agentConns set.Set[*agentConn]] is a Go map keyed by pointers: here
    the map from the address of each member to the struct it points to.
    [agentConnWaiter] maps a node to the channel of its waiter. *)
Record AgentState : Type := mkAgentState {
  agentConnWaiter : gmap node nat;
  agentConns : gmap nat agentConn }.

(** [func (s *Server) addIdleAgentConn(ac *agentConn)], the critical
    section; [ac] is the pointer and [obj] what it points to.  The result
    is the waiter channel that gets the non-blocking send, if any. *)
Definition addIdleAgentConn (s : AgentState) (ac : nat) (obj : agentConn)
  : option nat * AgentState :=
  (agentConnWaiter s !! ac_node obj,
   mkAgentState (agentConnWaiter s) (<[ac := obj]> (agentConns s))).

(** The body of the [range] loop of [takeAgentConnOne] over the members in
    the order the runtime visits them. *)
Fixpoint takeAgentConnOne_loop (order : list nat) (s : AgentState) (n : node)
  : option nat * AgentState :=
  match order with
  | [] => (None, s)
  | ac :: order' =>
      match agentConns s !! ac with
      | Some obj =>
          if bool_decide (ac_node obj = n)
          then (Some ac, mkAgentState (agentConnWaiter s) (delete ac (agentConns s)))
          else takeAgentConnOne_loop order' s n
      | None => takeAgentConnOne_loop order' s n
      end
  end.

(** [func (s *Server) takeAgentConnOne(n *node) (_ *agentConn, ok bool)],
    the critical section.  Go leaves the iteration order of a map open:
    [order] is the order of this call, a permutation of the members. *)
Definition takeAgentConnOne (order : list nat) (s : AgentState) (n : node)
  : option nat * AgentState :=
  takeAgentConnOne_loop order s n.

(** [mak.Set(&s.agentConnWaiter, n, ready)], the second critical section of
    [takeAgentConn]. *)
Definition setWaiter (s : AgentState) (n : node) (ready : nat) : AgentState :=
  mkAgentState (<[n := ready]> (agentConnWaiter s)) (agentConns s).

(** The critical sections run one at a time under [s.mu]; a run of the
    server is a sequence of them, in the order in which the callers got the
    mutex.  A call of [takeAgentConn] contributes a [OpTakeOne] for every
    round of its loop and an [OpSetWaiter] after each failed one, and it
    returns what its last [OpTakeOne] returned. *)
Inductive Op : Type :=
| OpAdd (ac : nat) (obj : agentConn)
| OpTakeOne (n : node) (order : list nat)
| OpSetWaiter (n : node) (ready : nat).

(** The connections returned by the [takeAgentConnOne] calls of a run, in
    order, and the final state. *)
Fixpoint run (ops : list Op) (s : AgentState) : list nat * AgentState :=
  match ops with
  | [] => ([], s)
  | OpAdd ac obj :: ops' => run ops' (addIdleAgentConn s ac obj).2
  | OpTakeOne n order :: ops' =>
      match takeAgentConnOne order s n with
      | (Some ac, s') => let '(rs, s'') := run ops' s' in (ac :: rs, s'')
      | (None, s') => run ops' s'
      end
  | OpSetWaiter n ready :: ops' => run ops' (setWaiter s n ready)
  end.

(** The pointers a run adds; [acceptTCP] allocates a new [agentConn] for
    every call of [addIdleAgentConn]. *)
Fixpoint added (ops : list Op) : list nat :=
  match ops with
  | [] => []
  | OpAdd ac _ :: ops' => ac :: added ops'
  | _ :: ops' => added ops'
  end.

End Agent.

(** ** Observations on the calls made *)

(** How often the writer registered for [mac] on network [n] was called
    with exactly the bytes [frame]. *)
Definition is_copy (n : nat) (mac : MAC) (frame : list Z) (e : Effect) : bool :=
  match e with
  | ECall n' mac' _ frame' => bool_decide (n' = n ∧ mac' = mac ∧ frame' = frame)
  | EInject _ _ => false
  end.

Definition copies (n : nat) (mac : MAC) (frame : list Z) (es : list Effect) : nat :=
  length (List.filter (is_copy n mac frame) es).

(** How often the writer registered for [mac] was called at all. *)
Definition copies_to (mac : MAC) (es : list Effect) : nat :=
  length (List.filter (λ e, match e with
                            | ECall _ mac' _ _ => bool_decide (mac' = mac)
                            | EInject _ _ => false
                            end) es).

(** The calls of the broadcast branch of [writeEth]. *)
Definition fanout (n : nat) (wf : gmap MAC Writer) (frame : list Z) : list Effect :=
  (λ kv : MAC * Writer, ECall n kv.1 kv.2 frame) <$> map_to_list wf.

(** The broadcast scenario as the specification words it: every registered
    MAC other than the sender got exactly one copy and the sender none. *)
Definition broadcast_as_specified (n : nat) (wf : gmap MAC Writer) (sender : MAC)
    (frame : list Z) (es : list Effect) : Prop :=
  (∀ mac, is_Some (wf !! mac) → mac ≠ sender → copies n mac frame es = 1%nat)
  ∧ copies n sender frame es = 0%nat.

(** ** Invariants of a started server *)

(** What [initFromConfig] establishes for the nodes: [nodeByMAC] is keyed
    by the node's own MAC, every listed node is in [nodeByMAC], and the LAN
    address of a node is the one allocated from the prefix of its network
    and its MAC. *)
Definition node_ok {T} (s : Server T) (nd : node) : Prop :=
  ∃ netw, networks s !! node_net nd = Some netw
          ∧ allocLanIP (net_lanIP netw) (node_mac nd) = Some (node_lanIP nd).

Definition server_wf {T} (s : Server T) : Prop :=
  (∀ m nd, nodeByMAC s !! m = Some nd → node_mac nd = m ∧ node_ok s nd)
  ∧ (∀ nd, nd ∈ nodes s → nodeByMAC s !! node_mac nd = Some nd).

(** The networks of [nets1] extend those of [nets] and keep their LAN
    prefixes. *)
Definition lanIP_ext {T} (nets nets1 : list (network T)) : Prop :=
  ∀ i netw, nets !! i = Some netw →
    ∃ netw', nets1 !! i = Some netw' ∧ net_lanIP netw' = net_lanIP netw.

(** ** The specification's words, for comparison with the code *)

(** DNS: a question of class IN and type A for one of the three known
    names is answered with the matching synthetic address and TTL 60;
    any other question has no answer. *)
Definition dnsAnswerFor (q : DNSQuestion) : option DNSResourceRecord :=
  if bool_decide (q_Class q = DNSClassIN ∧ q_Type q = DNSTypeA) then
    if bool_decide (q_Name q = "dns") then
      Some (mkDNSResourceRecord (q_Name q) DNSTypeA DNSClassIN 60 [4; 11; 4; 11])
    else if bool_decide (q_Name q = "test-driver.tailscale") then
      Some (mkDNSResourceRecord (q_Name q) DNSTypeA DNSClassIN 60 [52; 52; 0; 2])
    else if bool_decide (q_Name q = "controlplane.tailscale.com") then
      Some (mkDNSResourceRecord (q_Name q) DNSTypeA DNSClassIN 60 [52; 52; 0; 1])
    else None
  else None.

Definition dnsAnswers (qs : list DNSQuestion) : list DNSResourceRecord :=
  omap dnsAnswerFor qs.

(** The name of the question ends in [.pool.ntp.org]. *)
Definition isNTPPool (q : DNSQuestion) : bool := HasSuffix (q_Name q) ".pool.ntp.org".

(** TCP interception: the destinations that the specification lists. *)
Definition intercepted (derp : gset Addr) (dstIP : Addr) (dstPort : Z) : Prop :=
  dstPort = 123
  ∨ ((dstIP = fakeControlplaneIP ∨ dstIP ∈ derp) ∧ (dstPort = 80 ∨ dstPort = 443))
  ∨ (dstIP = fakeTestAgentIP ∧ dstPort = 8008).

(** ** Guest transports: what a session accepts *)

(** [nodeByMAC] is keyed by the MAC of the node it holds. *)
Definition nodeByMAC_keyed {T} (s : Server T) : Prop :=
  ∀ m nd, nodeByMAC s !! m = Some nd → node_mac nd = m.

(** The checks of the read loop on a decoded frame: an Ethernet layer with
    six-byte source and destination MACs.  The result is the frame and its
    source MAC. *)
Definition acceptable (p : Packet) : option (EthernetPacket * MAC) :=
  match LinkLayer p with
  | None => None
  | Some le =>
      if bool_decide (length (eth_SrcMAC le) ≠ 6%nat)
         || bool_decide (length (eth_DstMAC le) ≠ 6%nat)
      then None
      else match MAC_of_slice (eth_SrcMAC le) with
           | Some m => Some (mkEthernetPacket le p, m)
           | None => None
           end
  end.

(** The frames with source MAC [mac] among the reads, up to the read error
    that ends a QEMU session; the flag tells whether the session ended. *)
Fixpoint lockedFrames (mac : MAC) (proto : Protocol) (evs : list ReadEvent)
  : list (EthernetPacket * Z) * bool :=
  match evs with
  | [] => ([], false)
  | ReadError :: evs' =>
      match proto with
      | ProtocolUnixDGRAM => lockedFrames mac proto evs'
      | ProtocolQEMU => ([], true)
      end
  | ReadFrame p now :: evs' =>
      let rest := lockedFrames mac proto evs' in
      match acceptable p with
      | Some (ep, m) => if bool_decide (m = mac) then ((ep, now) :: rest.1, rest.2) else rest
      | None => rest
      end
  end.

(** The first acceptable frame whose source MAC is a key of [byMAC], with
    the node found, the reads before it and the reads after it; [None] when
    the session ends or the reads are used up before such a frame. *)
Fixpoint firstKnown (byMAC : gmap MAC node) (proto : Protocol) (evs : list ReadEvent)
  : option (list ReadEvent * (node * MAC * EthernetPacket * Z) * list ReadEvent) :=
  match evs with
  | [] => None
  | ReadError :: evs' =>
      match proto with
      | ProtocolUnixDGRAM =>
          match firstKnown byMAC proto evs' with
          | Some (before, f, rest) => Some (ReadError :: before, f, rest)
          | None => None
          end
      | ProtocolQEMU => None
      end
  | ReadFrame p now :: evs' =>
      let skip := match firstKnown byMAC proto evs' with
                  | Some (before, f, rest) => Some (ReadFrame p now :: before, f, rest)
                  | None => None
                  end in
      match acceptable p with
      | Some (ep, m) =>
          match byMAC !! m with
          | Some nd => Some ([], (nd, m, ep, now), evs')
          | None => skip
          end
      | None => skip
      end
  end.

(** A read that the unlocked loop passes over: a read error, a frame that
    fails the checks, or a frame from a MAC that is not a node's. *)
Definition passedOver (byMAC : gmap MAC node) (ev : ReadEvent) : Prop :=
  match ev with
  | ReadError => True
  | ReadFrame p _ =>
      match acceptable p with
      | Some (_, m) => byMAC !! m = None
      | None => True
      end
  end.

(** ** Frames that the router writes *)

(** A frame written to a guest that is not addressed to the broadcast
    MAC. *)
Definition unicast_call (e : Effect) : Prop :=
  match e with
  | ECall _ _ _ f => take 6 f ≠ HWAddr MAC_broadcast
  | EInject _ _ => True
  end.

(** No node of any network has the broadcast address as its MAC. *)
Definition nodes_unicast {T} (s : Server T) : Prop :=
  ∀ i netw ip nd,
    networks s !! i = Some netw → net_nodesByIP netw !! ip = Some nd →
    node_mac nd ≠ MAC_broadcast.

(** A computation wrote unicast frames only and left the nodes as they
    were. *)
Definition unicast_only {T A} (o : Outcome (A * Server T * list Effect)) : Prop :=
  Forall unicast_call (effects_of o)
  ∧ ∀ a s' e, o = Ret (a, s', e) → nodes_unicast s'.

(** What gopacket's Ethernet layer does when it is serialized first: the
    frame starts with the six bytes of the destination MAC. *)
Definition ethernet_header_first {T} `{Ext : External T} : Prop :=
  ∀ eth rest b,
    length (eth_DstMAC eth) = 6%nat →
    SerializeLayers (LEthernet eth :: rest) = Some b →
    take 6 b = eth_DstMAC eth.

(** ** A stand-in for the external collaborators

    Used to evaluate the definitions on concrete inputs.  The NAT table is
    the one the specification calls None (identity on outbound, every
    inbound packet dropped), registered under every NAT type name; the STUN
    codec and the serializer are simplified encodings: a binding request is
    [0; 1] followed by the transaction id, the serializer writes the
    Ethernet header (destination, source, type) followed by the addresses,
    ports and payloads of the upper layers. *)

Module Sample.

Definition be16 (v : Z) : list Z := [byte_of (Z.shiftr v 8); byte_of v].

Definition layer_bytes (l : Layer) : list Z :=
  match l with
  | LEthernet e => eth_DstMAC e ++ eth_SrcMAC e ++ be16 (eth_EthernetType e)
  | LARP a => be16 (arp_Operation a) ++ arp_SourceHwAddress a ++ arp_SourceProtAddress a
              ++ arp_DstHwAddress a ++ arp_DstProtAddress a
  | LIPv4 i => [ip_Protocol i] ++ ip_SrcIP i ++ ip_DstIP i
  | LUDP u => be16 (udp_SrcPort u) ++ be16 (udp_DstPort u)
  | LTCP t => be16 (tcp_SrcPort t) ++ be16 (tcp_DstPort t)
  | LDHCPv4 d => [dhcp_Operation d] ++ dhcp_YourClientIP d
                 ++ concat (map (λ o, [opt_Type o; opt_Length o] ++ opt_Data o) (dhcp_Options d))
  | LDNS d => be16 (dns_ID d) ++ be16 (dns_QDCount d) ++ be16 (dns_ANCount d)
              ++ concat (map rr_IP (dns_Answers d))
  | LPayload p => p
  | _ => []
  end.

Definition serializeLayers (ls : list Layer) : option (list Z) :=
  match ls with
  | LEthernet e :: _ =>
      if bool_decide (length (eth_DstMAC e) = 6%nat)
         && bool_decide (length (eth_SrcMAC e) = 6%nat)
      then Some (concat (map layer_bytes ls))
      else None
  | _ => Some (concat (map layer_bytes ls))
  end.

Definition parseBindingRequest (b : list Z) : option TxID :=
  match b with
  | 0 :: 1 :: tx => if bool_decide (length tx = 12%nat) then Some tx else None
  | _ => None
  end.

Definition response (tx : TxID) (ap : AddrPort) : list Z :=
  [1; 1] ++ tx ++ AsSlice (ap_addr ap) ++ be16 (ap_port ap).

(** Modelled from the spec: the NAT table type None of [nat.go], which is
    not among the sources ("identity on outbound; no inbound mapping
    (packets dropped)").  It has no state. *)
Definition none_PickOutgoingSrc (t : ()) (src dst : AddrPort) (now : Z) : AddrPort * () :=
  (src, t).
Definition none_PickIncomingDst (t : ()) (src dst : AddrPort) (now : Z) : AddrPort * () :=
  (mkAddrPort AddrZero 0, t).

#[global] Instance ext : External () := {|
  PickOutgoingSrc := none_PickOutgoingSrc;
  PickIncomingDst := none_PickIncomingDst;
  natTypes := λ _, Some (λ _, Some ());
  EasyNAT := "easy";
  ParseBindingRequest := parseBindingRequest;
  Response := response;
  SerializeLayers := serializeLayers |}.

End Sample.

(** ** Concrete configurations and frames *)

Module Examples.
Import Sample.

(** One network with WAN address 2.0.0.1 and the default LAN prefix, and
    two nodes on it. *)
Definition conf2 : Config :=
  let '(c1, net0) := AddNetwork Config_zero [NetOptAddr (Addr4 2 0 0 1)] in
  let '(c2, _) := AddNode c1 [NodeOptNetwork net0] in
  let '(c3, _) := AddNode c2 [NodeOptNetwork net0] in
  c3.

Definition started (c : Config) : Server () :=
  match initFromConfig Server_empty c with
  | Ok s => s
  | _ => Server_empty
  end.

Definition server2 : Server () := started conf2.

Definition macA : MAC := mkMAC 82 204 204 204 204 0.
Definition macB : MAC := mkMAC 82 204 204 204 204 1.
Definition macRouter : MAC := mkMAC 82 238 238 238 238 0.

Definition after {A} (m : M () A) (s : Server ()) : Server () :=
  match m s with
  | Ret (_, s', _) => s'
  | _ => s
  end.

(** Both guests are connected: their transports registered the writers 1
    and 2. *)
Definition connected2 : Server () :=
  after (registerWriter 0 macB (Some 2%nat))
        (after (registerWriter 0 macA (Some 1%nat)) server2).

Definition wf2 : gmap MAC Writer := {[ macA := 1%nat; macB := 2%nat ]}.

(** An IPv4 frame (an ICMP datagram to 192.168.0.255) that node A sends
    to the broadcast MAC. *)
Definition ipHeaderA : list Z :=
  [69; 0; 0; 20; 0; 0; 0; 0; 64; 1; 0; 0; 192; 168; 0; 101; 192; 168; 0; 255].

Definition frameA : list Z :=
  HWAddr MAC_broadcast ++ HWAddr macA ++ [8; 0] ++ ipHeaderA.

Definition ethA : Ethernet := mkEthernet (HWAddr macA) (HWAddr MAC_broadcast) EthernetTypeIPv4.

Definition epA : EthernetPacket :=
  mkEthernetPacket ethA
    (mkPacket frameA
       [LEthernet ethA;
        LIPv4 (mkIPv4 4 64 1 [192; 168; 0; 101] [192; 168; 0; 255] ipHeaderA []);
        LPayload []]).

(** An ARP request (who has 192.168.0.102) that node A broadcasts. *)
Definition arpA : ARP :=
  mkARP LinkTypeEthernet EthernetTypeIPv4 6 4 ARPRequest
        (HWAddr macA) [192; 168; 0; 101] (HWAddr MAC_zero) [192; 168; 0; 102].

Definition frameArp : list Z :=
  HWAddr MAC_broadcast ++ HWAddr macA ++ [8; 6]
  ++ [0; 1; 8; 0; 6; 4; 0; 1] ++ HWAddr macA ++ [192; 168; 0; 101]
  ++ HWAddr MAC_zero ++ [192; 168; 0; 102].

Definition ethArp : Ethernet := mkEthernet (HWAddr macA) (HWAddr MAC_broadcast) EthernetTypeARP.

Definition epArp : EthernetPacket :=
  mkEthernetPacket ethArp (mkPacket frameArp [LEthernet ethArp; LARP arpA]).

(** Twelve bytes 0xff: destination and source MAC are both the broadcast
    address. *)
Definition frameAllOnes : list Z := replicate 12 255.

End Examples.

Module ExampleNets.
Import Sample Examples.

Definition nodeA : node := mkNode macA 0 (Addr4 192 168 0 101).
Definition nodeB : node := mkNode macB 0 (Addr4 192 168 0 102).

(** The network of [connected2]. *)
Definition net2 : network () :=
  mkNetwork macRouter false (Addr4 2 0 0 1) defaultLanIP
            {[ Addr4 192 168 0 101 := nodeA; Addr4 192 168 0 102 := nodeB ]}
            "easy" (Some ()) wf2.

End ExampleNets.

Module ExampleConfigs.
Import Sample Examples.

(** The default network (no LAN prefix given) with one node. *)
Definition conf1 : Config :=
  let '(c1, net0) := AddNetwork Config_zero [NetOptAddr (Addr4 2 0 0 1)] in
  let '(c2, _) := AddNode c1 [NodeOptNetwork net0] in
  c2.

Definition server1 : Server () := started conf1.

(** The DHCP Discover that the node 52:cc:cc:cc:cc:00 broadcasts. *)
Definition ethDiscover : Ethernet :=
  mkEthernet (HWAddr macA) (HWAddr MAC_broadcast) EthernetTypeIPv4.

Definition dhcpDiscover : DHCPv4 :=
  mkDHCPv4 1 LinkTypeEthernet 6 305419896 (HWAddr macA) 0 [0; 0; 0; 0]
           [mkDHCPOption DHCPOptMessageType 1 [DHCPMsgTypeDiscover]].

Definition pktDiscover : Packet :=
  mkPacket (HWAddr MAC_broadcast ++ HWAddr macA ++ [8; 0])
    [LEthernet ethDiscover;
     LIPv4 (mkIPv4 4 64 IPProtocolUDP [0; 0; 0; 0] [255; 255; 255; 255] [] []);
     LUDP (mkUDP 68 67 []);
     LDHCPv4 dhcpDiscover].

(** A network with the LAN prefix 10.0.0.0/30 and one node. *)
Definition conf30 : Config :=
  let '(c1, net0) := AddNetwork Config_zero
                       [NetOptAddr (Addr4 2 0 0 1);
                        NetOptPrefix (PrefixFrom (Addr4 10 0 0 0) 30)] in
  let '(c2, _) := AddNode c1 [NodeOptNetwork net0] in
  c2.

Definition server30 : Server () := started conf30.

End ExampleConfigs.

Module ExamplePackets.
Import Sample Examples.

Definition ethToRouter : Ethernet :=
  mkEthernet (HWAddr macA) (HWAddr macRouter) EthernetTypeIPv4.

(** A DNS query of node A to 4.11.4.11:53 for the given questions. *)
Definition dnsQuery (qs : list DNSQuestion) : DNS :=
  mkDNS 4660 false DNSOpCodeQuery false false true false 0 (Z.of_nat (length qs)) 0 qs [].

Definition pktDNS (qs : list DNSQuestion) : Packet :=
  mkPacket (HWAddr macRouter ++ HWAddr macA ++ [8; 0])
    [LEthernet ethToRouter;
     LIPv4 (mkIPv4 4 64 IPProtocolUDP [192; 168; 0; 101] [4; 11; 4; 11] [] []);
     LUDP (mkUDP 40000 53 []);
     LDNS (dnsQuery qs)].

Definition qControl : DNSQuestion :=
  mkDNSQuestion "controlplane.tailscale.com" DNSTypeA DNSClassIN.
Definition qOther : DNSQuestion := mkDNSQuestion "example.com" DNSTypeA DNSClassIN.
Definition qNTP : DNSQuestion := mkDNSQuestion "foo.pool.ntp.org" DNSTypeA DNSClassIN.

(** A TCP segment of node A to the given address and port, sent to the
    router. *)
Definition pktTCP (dst : list Z) (port : Z) : EthernetPacket :=
  mkEthernetPacket ethToRouter
    (mkPacket (HWAddr macRouter ++ HWAddr macA ++ [8; 0])
       [LEthernet ethToRouter;
        LIPv4 (mkIPv4 4 64 IPProtocolTCP [192; 168; 0; 101] dst [69; 0] [1; 2; 3]);
        LTCP (mkTCP 50000 port);
        LPayload []]).

(** A UDP datagram of node A to the given address and port with the given
    payload, sent to the router. *)
Definition pktUDP (dst : list Z) (port : Z) (payload : list Z) : EthernetPacket :=
  mkEthernetPacket ethToRouter
    (mkPacket (HWAddr macRouter ++ HWAddr macA ++ [8; 0])
       [LEthernet ethToRouter;
        LIPv4 (mkIPv4 4 64 IPProtocolUDP [192; 168; 0; 101] dst [] []);
        LUDP (mkUDP 40000 port payload);
        LPayload payload]).

End ExamplePackets.

Module ExampleUDP.
Import Sample Examples.

(** A STUN binding request (in the encoding of [Sample]) from the WAN
    address 2.0.0.1:40000 to 1.2.3.4:3478. *)
Definition stunRequest : UDPPacket :=
  mkUDPPacket (mkAddrPort (Addr4 2 0 0 1) 40000) (mkAddrPort (Addr4 1 2 3 4) 3478)
              ([0; 1] ++ replicate 12 7).

(** A packet to 9.9.9.9:1234, which is no network's WAN address. *)
Definition strayPacket : UDPPacket :=
  mkUDPPacket (mkAddrPort (Addr4 2 0 0 1) 40000) (mkAddrPort (Addr4 9 9 9 9) 1234) [1; 2; 3].

End ExampleUDP.

Module ExampleSession.
Import Sample Examples.

Definition macStranger : MAC := mkMAC 2 0 0 0 0 153.

Definition frameFrom (src : MAC) : Packet :=
  let eth := mkEthernet (HWAddr src) (HWAddr MAC_broadcast) EthernetTypeIPv4 in
  mkPacket (HWAddr MAC_broadcast ++ HWAddr src ++ [8; 0] ++ ipHeaderA)
    [LEthernet eth;
     LIPv4 (mkIPv4 4 64 1 [192; 168; 0; 101] [192; 168; 0; 255] ipHeaderA []);
     LPayload []].

Definition epFrom (src : MAC) : EthernetPacket :=
  mkEthernetPacket (mkEthernet (HWAddr src) (HWAddr MAC_broadcast) EthernetTypeIPv4)
                   (frameFrom src).

(** The reads of a session: a frame from a MAC that is no node's, a frame
    from node A, a frame with node B's MAC, another frame from node A. *)
Definition reads : list ReadEvent :=
  [ReadFrame (frameFrom macStranger) 0; ReadFrame (frameFrom macA) 1;
   ReadFrame (frameFrom macB) 2; ReadFrame (frameFrom macA) 3].

End ExampleSession.

Module ExampleAgent.
Import Examples ExampleNets Agent.

(** Two connections of node A and one of node B arrive; two callers take a
    connection of node A, one after the other got the mutex. *)
Definition ops : list Op :=
  [OpAdd 10 (mkAgentConn nodeA 1); OpAdd 11 (mkAgentConn nodeB 2);
   OpTakeOne nodeA [11; 10]%nat; OpAdd 12 (mkAgentConn nodeA 3);
   OpTakeOne nodeA [12; 11; 10]%nat; OpTakeOne nodeA [11]%nat].

Definition idle : AgentState := mkAgentState ∅ ∅.

End ExampleAgent.

(** ** Configurations built through the API *)

(** The configurations that [AddNode] and [AddNetwork] build from the zero
    value; the fields of [Config] are not exported, so these are all the
    configurations a server is started from. *)
Inductive built : Config → Prop :=
| built_zero : built Config_zero
| built_AddNode c opts : built c → built (AddNode c opts).1
| built_AddNetwork c opts : built c → built (AddNetwork c opts).1.

(** ** Start-up, loop by loop *)

(** The LAN prefix that [initFromConfig] uses for a configured network:
    the default when none was given. *)
Definition effectiveLanIP (conf : Network) : Prefix :=
  if negb (Prefix_IsValid (Network_lanIP conf)) then defaultLanIP
  else Network_lanIP conf.

(** The runtime network that the first loop of [initFromConfig] makes of a
    configured one: no nodes, no NAT table and no writer yet. *)
Definition networkOf {T} (conf : Network) : network T :=
  mkNetwork (Network_mac conf) (bool_decide (NATPMP ∈ Network_svcs conf))
            (Network_wanIP conf) (effectiveLanIP conf) ∅ EmptyString None ∅.

(** Two runtime networks that differ at most in [nodesByIP]. *)
Definition same_but_nodesByIP {T} (a b : network T) : Prop :=
  net_mac a = net_mac b ∧ net_portmap a = net_portmap b
  ∧ net_wanIP a = net_wanIP b ∧ net_lanIP a = net_lanIP b
  ∧ net_natStyle a = net_natStyle b ∧ net_natTable a = net_natTable b
  ∧ net_writeFunc a = net_writeFunc b.

(** Two runtime networks that differ at most in [natStyle] and
    [natTable]. *)
Definition same_but_nat {T} (a b : network T) : Prop :=
  net_mac a = net_mac b ∧ net_portmap a = net_portmap b
  ∧ net_wanIP a = net_wanIP b ∧ net_lanIP a = net_lanIP b
  ∧ net_nodesByIP a = net_nodesByIP b ∧ net_writeFunc a = net_writeFunc b.

(** The last byte of a node's MAC, from which its LAN address is made. *)
Definition lastByte (conf : Node) : Z := byte_of (mac5 (Node_mac conf)).

(** [n] nodes added to a configuration, each on the network [net0]. *)
Definition addNodes (n : nat) (net0 : nat) (c : Config) : Config :=
  Nat.iter n (λ c, (AddNode c [NodeOptNetwork net0]).1) c.

Module ExampleLarge.

(** One network and 257 nodes on it. *)
Definition conf257 : Config :=
  addNodes 257 0 (AddNetwork Config_zero [NetOptAddr (Addr4 2 0 0 1)]).1.

End ExampleLarge.

(** Every node is found under its own LAN address in the table of its
    network, and that address is the one allocated for its MAC. *)
Definition lan_indexed {T} (s : Server T) : Prop :=
  ∀ nd, nd ∈ nodes s →
    ∃ netw, networks s !! node_net nd = Some netw
            ∧ net_nodesByIP netw !! node_lanIP nd = Some nd
            ∧ allocLanIP (net_lanIP netw) (node_mac nd) = Some (node_lanIP nd).

(** Every entry of a network's [nodesByIP] is a node of the server, on that
    network, under its own LAN address. *)
Definition nodesByIP_sound {T} (s : Server T) : Prop :=
  ∀ i netw ip nd,
    networks s !! i = Some netw → net_nodesByIP netw !! ip = Some nd →
    nd ∈ nodes s ∧ node_net nd = i ∧ node_lanIP nd = ip.

(** ** The Ethernet header of a serialized frame *)

(** What gopacket's Ethernet layer does when it is serialized first: the
    frame starts with the six bytes of the destination MAC, followed by the
    six bytes of the source MAC. *)
Definition ethernet_header_law {T} `{Ext : External T} : Prop :=
  ∀ eth rest b,
    length (eth_DstMAC eth) = 6%nat → length (eth_SrcMAC eth) = 6%nat →
    SerializeLayers (LEthernet eth :: rest) = Some b →
    take 6 b = eth_DstMAC eth ∧ take 6 (drop 6 b) = eth_SrcMAC eth.

(** The calls of [writeEth] for a frame of at least twelve bytes with the
    given destination and source MAC, on a network with the writers
    [wf]. *)
Definition delivered (n : nat) (wf : gmap MAC Writer) (dst src : MAC) (res : list Z)
  : list Effect :=
  if IsBroadcast dst then fanout n wf res
  else if bool_decide (src = dst) then []
  else match wf !! dst with
       | Some w => [ECall n dst w res]
       | None => []
       end.

(** The ARP reply that [createARPResponse] hands to the serializer when the
    MAC [found] answers the request of [requester] for [target]. *)
Definition arpReplyLayers (found : MAC) (requester : list Z) (target sender : list Z)
  : list Layer :=
  [LEthernet (mkEthernet (HWAddr found) requester EthernetTypeARP);
   LARP (mkARP LinkTypeEthernet EthernetTypeIPv4 6 4 ARPReply
               (HWAddr found) target requester sender)].

(** An ARP request for an IPv4 address over Ethernet, as
    [createARPResponse] checks it. *)
Definition wellFormedARPRequest (a : ARP) : Prop :=
  arp_Operation a = ARPRequest ∧ arp_AddrType a = LinkTypeEthernet
  ∧ arp_Protocol a = EthernetTypeIPv4 ∧ arp_HwAddressSize a = 6
  ∧ arp_ProtAddressSize a = 4 ∧ length (arp_DstProtAddress a) = 4%nat.

(** ** What handling a packet may change *)

(** Two runtime networks that differ at most in the state of the NAT
    table, which is not lost. *)
Definition only_nat_table {T} (a b : network T) : Prop :=
  net_mac a = net_mac b ∧ net_portmap a = net_portmap b
  ∧ net_wanIP a = net_wanIP b ∧ net_lanIP a = net_lanIP b
  ∧ net_nodesByIP a = net_nodesByIP b ∧ net_natStyle a = net_natStyle b
  ∧ net_writeFunc a = net_writeFunc b
  ∧ (is_Some (net_natTable a) → is_Some (net_natTable b)).

(** Two servers that differ at most in the NAT tables of their networks. *)
Definition nat_only {T} (s s' : Server T) : Prop :=
  derpIPs s' = derpIPs s ∧ nodes s' = nodes s ∧ nodeByMAC s' = nodeByMAC s
  ∧ networkByWAN s' = networkByWAN s
  ∧ Forall2 only_nat_table (networks s) (networks s').

(** A computation that, when it returns, has changed nothing but NAT
    tables. *)
Definition keeps {T A} (m : M T A) : Prop :=
  ∀ s a s' es, m s = Ret (a, s', es) → nat_only s s'.

(** Every network has a NAT table, and [networkByWAN] leads to networks of
    the server. *)
Definition nat_ready {T} (s : Server T) : Prop :=
  (∀ i netw, networks s !! i = Some netw → is_Some (net_natTable netw))
  ∧ (∀ ip i, networkByWAN s !! ip = Some i → (i < length (networks s))%nat).

(** A binding response is never taken for a binding request (the two
    differ in the message type). *)
Definition stun_response_is_no_request {T} `{Ext : External T} : Prop :=
  ∀ tx ap, ParseBindingRequest (Response tx ap) = None.

(** The server after the NAT table of network [n] was replaced. *)
Definition with_natTable {T} (s : Server T) (n : nat) (netw : network T) (t : T)
  : Server T :=
  mkServer (derpIPs s) (nodes s) (nodeByMAC s)
           (<[n := set_natTable netw (Some t)]> (networks s)) (networkByWAN s).

(** The layers [WriteUDPPacketNoNAT] hands to the serializer for a packet
    to the node with MAC [dstMAC]. *)
Definition udpLayers (routerMAC dstMAC : MAC) (p : UDPPacket) : list Layer :=
  [LEthernet (mkEthernet (HWAddr routerMAC) (HWAddr dstMAC) EthernetTypeIPv4);
   LIPv4 (mkIPv4 4 64 IPProtocolUDP (AsSlice (ap_addr (Src p)))
                 (AsSlice (ap_addr (Dst p))) [] []);
   LUDP (mkUDP (ap_port (Src p)) (ap_port (Dst p)) []);
   LPayload (Payload p)].

(** ** Framing on a guest connection *)

(** The bytes that the [writePkt] closure of [ServeUnixConn] puts on the
    connection for a packet when no write fails; [None] is the nil slice.
    For QEMU the packet is preceded by its length as a big-endian
    [uint32]. *)
Definition writePkt (proto : Protocol) (pkt : option (list Z)) : list Z :=
  match pkt with
  | None => []
  | Some pkt =>
      match proto with
      | ProtocolQEMU => AppendUint32 [] (uint32_of (Z.of_nat (length pkt))) ++ pkt
      | ProtocolUnixDGRAM => pkt
      end
  end.

(** [binary.BigEndian.Uint32] *)
Definition Uint32 (b : list Z) : Z := of_be (take 4 b).

(** The length of the read buffer, [16<<10]. *)
Definition bufLen : Z := 16384.

(** One round of the QEMU branch of the read loop on the bytes [inp] that
    the connection still delivers before it ends: a frame and the bytes
    after it, the end of the session ([io.ReadFull] fails), or a panic (the
    slice expression [buf[4:4+n]] is out of range; [4+n] is computed in
    [uint32]). *)
Inductive QemuRead : Type :=
| QFrame (pkt rest : list Z)
| QEnd
| QPanic.

Definition readQEMU (inp : list Z) : QemuRead :=
  if bool_decide (length inp < 4)%nat then QEnd
  else
    let n := Uint32 (take 4 inp) in
    let hi := uint32_of (4 + n) in
    if bool_decide (hi < 4 ∨ bufLen < hi) then QPanic
    else if bool_decide (length (drop 4 inp) < Z.to_nat n)%nat then QEnd
    else QFrame (take (Z.to_nat n) (drop 4 inp)) (drop (Z.to_nat n) (drop 4 inp)).

(** How the reading of a QEMU connection ends. *)
Inductive QemuEnd : Type := QEOF | QCrash | QMore.

(** The frames that the read loop gets from a QEMU connection, in order;
    [fuel] bounds the number of rounds. *)
Fixpoint qemuReads (fuel : nat) (inp : list Z) : list (list Z) * QemuEnd :=
  match fuel with
  | O => ([], QMore)
  | S fuel' =>
      match readQEMU inp with
      | QFrame pkt rest => let '(fs, e) := qemuReads fuel' rest in (pkt :: fs, e)
      | QEnd => ([], QEOF)
      | QPanic => ([], QCrash)
      end
  end.

(** Every round takes at least the four bytes of a header, so the loop
    makes at most one round per byte and one more. *)
Definition qemuSession (inp : list Z) : list (list Z) * QemuEnd :=
  qemuReads (S (length inp)) inp.

(** ** The TCP handler of a network's stack *)

(** [func (ip Addr) Unmap() Addr] *)
Definition Unmap (a : Addr) : Addr :=
  if Is4In6 a then match As4 a with Some q => AddrFrom4 q | None => a end else a.

(** [func netaddrIPFromNetstackIP(s tcpip.Address) netip.Addr]; the
    address is given by its bytes. *)
Definition netaddrIPFromNetstackIP (s : list Z) : Addr :=
  if bool_decide (length s = 4%nat) then (AddrFromSlice s).1
  else if bool_decide (length s = 16%nat) then Unmap (AddrFromSlice s).1
  else AddrZero.

(** What [acceptTCP] dials for a proxied connection: the destination
    address itself, or the control plane by name, with the port of the
    request. *)
Inductive DialTarget : Type :=
| DialAddr (ip : Addr) (port : Z)
| DialControlplane (port : Z).

(** What [acceptTCP] does with a forwarded connection request: it resets
    it ([r.Complete(true)]), answers with the fixed greeting and closes,
    hands the connection to [addIdleAgentConn] for the node the request
    came from, pipes it to a dialled connection, or panics
    ([addIdleAgentConn] dereferences the node, which is nil when
    [nodesByIP] has no entry for the client). *)
Inductive TCPOutcome : Type :=
| TCPReset
| TCPGreeting
| TCPAgent (nd : node)
| TCPProxy (target : DialTarget)
| TCPPanic.

(** [func (n *network) acceptTCP(r *tcp.ForwarderRequest)] for a request
    with the given remote and local address and local port;
    [createEndpointOk] and [dialOk] tell whether [r.CreateEndpoint] and
    [net.Dial] succeed. *)
Definition acceptTCP {T} (s : Server T) (netw : network T)
    (RemoteAddress LocalAddress : list Z) (LocalPort : Z)
    (createEndpointOk dialOk : bool) : TCPOutcome :=
  let clientRemoteIP := netaddrIPFromNetstackIP RemoteAddress in
  let destIP := netaddrIPFromNetstackIP LocalAddress in
  if negb (Addr_IsValid clientRemoteIP) then TCPReset
  else if negb createEndpointOk then TCPReset
  else if bool_decide (LocalPort = 123) then TCPGreeting
  else if bool_decide (LocalPort = 8008) && bool_decide (destIP = fakeTestAgentIP) then
    match net_nodesByIP netw !! clientRemoteIP with
    | Some nd => TCPAgent nd
    | None => TCPPanic
    end
  else
    let targetDial :=
      if bool_decide (destIP ∈ derpIPs s) then Some (DialAddr destIP LocalPort)
      else if bool_decide (destIP = fakeControlplaneIP)
           then Some (DialControlplane LocalPort)
           else None in
    match targetDial with
    | Some target => if dialOk then TCPProxy target else TCPReset
    | None => TCPReset
    end.

(** ** Session recording ([k8s-operator/sessionrecording/hijacker.go]) *)

Module Hijacker.

(** The error values come from libraries: [errors.New], [fmt.Errorf] with
    the format of [closeConnWithWarning], and [multierr.New], whose result
    may be nil ([None]). *)
Class Errors (error : Type) : Type := {
  errorsNew : string → error;
  errorWriting : string → error → error;
  multierrNew : list (option error) → option error }.

(** What is done to the client connection: the forbidden response with
    the given body is written to it, it is closed. *)
Inductive ConnEvent : Type :=
| WriteForbidden (body : string)
| CloseConn.

(** The connection that [setUpRecording] hands back: the client's own, or
    that connection wrapped in the recording logic. *)
Inductive Conn : Type :=
| ConnClient
| ConnRecorded.

Section Policy.
Context {error : Type} `{Err : Errors error}.

(** [func closeConnWithWarning(conn net.Conn, msg string) error];
    [writeErr] and [closeErr] are the results of [resp.Write(conn)] and
    [conn.Close()]. *)
Definition closeConnWithWarning (writeErr closeErr : option error) (msg : string)
  : option error * list ConnEvent :=
  match writeErr with
  | Some e => (multierrNew [Some (errorWriting msg e); closeErr],
               [WriteForbidden msg; CloseConn])
  | None => (closeErr, [WriteForbidden msg; CloseConn])
  end.

(** The message for a failed connection to the recorders; [err] is the
    text of the error. *)
Definition connectMsg (err : string) : string :=
  ("error connecting to session recorders: " ++ err)%string.

Definition failClosedMsg (err : string) : string :=
  (connectMsg err ++ "; failure mode is 'fail closed'; closing connection.")%string.

(** [func (h *Hijacker) setUpRecording(ctx, conn) (net.Conn, error)] up to
    the point where the recorder is connected: [dialErr] is the error of
    [h.connectToRecorder], if any.  The result is the connection, the
    error, and what was done to the client connection. *)
Definition setUpRecording (failOpen : bool) (dialErr : option string)
    (writeErr closeErr : option error) : option Conn * option error * list ConnEvent :=
  match dialErr with
  | Some err =>
      if failOpen then (Some ConnClient, None, [])
      else
        let msg := failClosedMsg err in
        match closeConnWithWarning writeErr closeErr msg with
        | (Some e, evs) => (None, multierrNew [Some (errorsNew msg); Some e], evs)
        | (None, evs) => (None, Some (errorsNew msg), evs)
        end
  | None => (Some ConnRecorded, None, [])
  end.

End Policy.

(** A stand-in for the error libraries: an error is its message,
    [multierr.New] joins the messages of the errors that are not nil. *)
#[global] Instance sampleErrors : Errors string := {|
  errorsNew := λ msg, msg;
  errorWriting := λ msg e, ("error writing msg to conn: " ++ e)%string;
  multierrNew := λ errs, match omap id errs with
                         | [] => None
                         | es => Some (String.concat "; " es)
                         end |}.

End Hijacker.

(** ** More concrete frames and packets *)

Module ExampleLan.
Import Sample Examples ExampleNets ExampleConfigs ExamplePackets ExampleSession.

(** An IPv4 frame that node A sends to the MAC of node B. *)
Definition frameAB : list Z := HWAddr macB ++ HWAddr macA ++ [8; 0] ++ ipHeaderA.

Definition ethAB : Ethernet := mkEthernet (HWAddr macA) (HWAddr macB) EthernetTypeIPv4.

Definition epAB : EthernetPacket :=
  mkEthernetPacket ethAB
    (mkPacket frameAB
       [LEthernet ethAB;
        LIPv4 (mkIPv4 4 64 1 [192; 168; 0; 101] [192; 168; 0; 102] ipHeaderA []);
        LPayload []]).

(** An ARP request of node A for the given address. *)
Definition epArpFor (target : list Z) : EthernetPacket :=
  mkEthernetPacket ethArp
    (mkPacket (HWAddr MAC_broadcast ++ HWAddr macA ++ [8; 6])
       [LEthernet ethArp;
        LARP (mkARP LinkTypeEthernet EthernetTypeIPv4 6 4 ARPRequest
                    (HWAddr macA) [192; 168; 0; 101] (HWAddr MAC_zero) target)]).

(** The DHCP Discover of [ExampleConfigs], from the given MAC. *)
Definition epDiscoverFrom (src : MAC) : EthernetPacket :=
  let eth := mkEthernet (HWAddr src) (HWAddr MAC_broadcast) EthernetTypeIPv4 in
  mkEthernetPacket eth
    (mkPacket (HWAddr MAC_broadcast ++ HWAddr src ++ [8; 0])
       [LEthernet eth;
        LIPv4 (mkIPv4 4 64 IPProtocolUDP [0; 0; 0; 0] [255; 255; 255; 255] [] []);
        LUDP (mkUDP 68 67 []);
        LDHCPv4 dhcpDiscover]).

(** A datagram from port 68 to port 67 of node A whose payload did not
    decode as DHCP. *)
Definition epBadDHCP : EthernetPacket :=
  let eth := mkEthernet (HWAddr macA) (HWAddr MAC_broadcast) EthernetTypeIPv4 in
  mkEthernetPacket eth
    (mkPacket (HWAddr MAC_broadcast ++ HWAddr macA ++ [8; 0])
       [LEthernet eth;
        LIPv4 (mkIPv4 4 64 IPProtocolUDP [0; 0; 0; 0] [255; 255; 255; 255] [] []);
        LUDP (mkUDP 68 67 [1; 2; 3]);
        LDecodeFailure]).

(** A STUN binding request (in the encoding of [Sample]) that comes from
    port 3478. *)
Definition stunFromStunPort : UDPPacket :=
  mkUDPPacket (mkAddrPort (Addr4 2 0 0 1) 3478) (mkAddrPort (Addr4 1 2 3 4) 3478)
              ([0; 1] ++ replicate 12 7).

(** A packet from the WAN to the WAN address of the network. *)
Definition wanPacket : UDPPacket :=
  mkUDPPacket (mkAddrPort (Addr4 1 2 3 4) 3478) (mkAddrPort (Addr4 2 0 0 1) 40000)
              [1; 2; 3].

(** A stand-in NAT table that sends every packet from the WAN to node A,
    keeping the port; the rest is as in [Sample]. *)
Definition toNodeA : External () := {|
  PickOutgoingSrc := none_PickOutgoingSrc;
  PickIncomingDst := λ t src dst now, (mkAddrPort (Addr4 192 168 0 101) (ap_port dst), t);
  natTypes := λ _, Some (λ _, Some ());
  EasyNAT := "easy";
  ParseBindingRequest := parseBindingRequest;
  Response := response;
  SerializeLayers := serializeLayers |}.

(** The reads of a QEMU session after it locked onto node A: a frame of
    node A, a failed read, another frame. *)
Definition readsUntilError : list ReadEvent :=
  [ReadFrame (frameFrom macA) 1; ReadError; ReadFrame (frameFrom macA) 2].

End ExampleLan.
(** * Properties *)

(** ** The monad *)

Section MonadFacts.
Context {T : Type}.

Lemma bind_ret_l {A B} (a : A) (f : A → M T B) (s : Server T) :
  bind (ret a) f s = f a s.
Proof.
  unfold bind, ret. destruct (f a s) as [[[b s'] e]|e|e]; reflexivity.
Qed.

Lemma bind_getNet {B} (n : nat) (netw : network T) (f : network T → M T B) (s : Server T) :
  networks s !! n = Some netw → bind (getNet n) f s = f netw s.
Proof.
  intros Hn. unfold bind, getNet. rewrite Hn.
  destruct (f netw s) as [[[b s'] e]|e|e]; reflexivity.
Qed.

Lemma bind_getServer {B} (f : Server T → M T B) (s : Server T) :
  bind getServer f s = f s s.
Proof.
  unfold bind, getServer. destruct (f s s) as [[[b s'] e]|e|e]; reflexivity.
Qed.

Lemma bind_assoc {A B C} (m : M T A) (f : A → M T B) (g : B → M T C) (s : Server T) :
  bind (bind m f) g s = bind m (λ a, bind (f a) g) s.
Proof.
  unfold bind. destruct (m s) as [[[a s1] e1]|e1|e1]; try reflexivity.
  destruct (f a s1) as [[[b s2] e2]|e2|e2]; try reflexivity.
  destruct (g b s2) as [[[c s3] e3]|e3|e3]; by rewrite (assoc_L (++)).
Qed.

Lemma bind_ext {A B} (m : M T A) (f g : A → M T B) (s : Server T) :
  (∀ a s', f a s' = g a s') → bind m f s = bind m g s.
Proof.
  intros Hfg. unfold bind. destruct (m s) as [[[a s1] e1]|e1|e1]; try reflexivity.
  by rewrite Hfg.
Qed.

Lemma effects_of_bind {A B} (m : M T A) (f : A → M T B) (s : Server T) a s' e :
  m s = Ret (a, s', e) → effects_of (bind m f s) = e ++ effects_of (f a s').
Proof.
  intros Hm. unfold bind. rewrite Hm.
  destruct (f a s') as [[[b s''] e2]|e2|e2]; reflexivity.
Qed.

Lemma forM_emit {A} (g : A → Effect) (l : list A) (s : Server T) :
  forM_ l (λ x, emit (g x)) s = Ret ((), s, g <$> l).
Proof.
  induction l as [|x l IH]; [reflexivity|].
  simpl. unfold bind at 1. unfold emit at 1. by rewrite IH.
Qed.

End MonadFacts.

(** ** Slices and MACs *)

Lemma MAC_of_slice_HWAddr (m : MAC) : MAC_of_slice (HWAddr m) = Some m.
Proof. by destruct m. Qed.

Lemma MAC_of_slice_take6 (l : list Z) (m : MAC) :
  MAC_of_slice (take 6 l) = Some m ↔ take 6 l = HWAddr m.
Proof.
  split.
  - destruct l as [|a [|b [|c [|d [|e [|f l]]]]]]; simpl; try discriminate.
    intros [= <-]. reflexivity.
  - intros ->. apply MAC_of_slice_HWAddr.
Qed.

Lemma MAC_of_slice_long (l : list Z) :
  (6 ≤ length l)%nat → ∃ m, MAC_of_slice (take 6 l) = Some m.
Proof.
  destruct l as [|a [|b [|c [|d [|e [|f l]]]]]]; simpl; try lia. eauto.
Qed.

Lemma MAC_of_slice_len6 (l : list Z) :
  length l = 6%nat → ∃ m, MAC_of_slice l = Some m ∧ l = HWAddr m.
Proof.
  destruct l as [|a [|b [|c [|d [|e [|f [|g l]]]]]]]; simpl; try discriminate.
  intros _. by eexists (mkMAC _ _ _ _ _ _).
Qed.

(** ** The link registry: [writeEth] *)

Lemma copies_app n mac frame es1 es2 :
  copies n mac frame (es1 ++ es2) = (copies n mac frame es1 + copies n mac frame es2)%nat.
Proof. unfold copies. by rewrite List.filter_app, length_app. Qed.

Lemma copies_cons n mac frame e es :
  copies n mac frame (e :: es)
  = ((if is_copy n mac frame e then 1 else 0) + copies n mac frame es)%nat.
Proof. unfold copies. simpl. by destruct (is_copy n mac frame e). Qed.

Lemma copies_fanout_list n mac frame (l : list (MAC * Writer)) :
  NoDup l.*1 →
  copies n mac frame ((λ kv : MAC * Writer, ECall n kv.1 kv.2 frame) <$> l)
  = if bool_decide (mac ∈ l.*1) then 1%nat else 0%nat.
Proof.
  induction l as [|[k w] l IH]; intros Hnd.
  - reflexivity.
  - rewrite !fmap_cons in *. apply NoDup_cons in Hnd as [Hk Hnd]. specialize (IH Hnd).
    rewrite copies_cons, IH. simpl in *.
    destruct (decide (k = mac)) as [->|Hne].
    + rewrite bool_decide_eq_true_2 by done.
      rewrite (bool_decide_eq_false_2 (mac ∈ l.*1)) by done.
      rewrite bool_decide_eq_true_2 by constructor. reflexivity.
    + rewrite (bool_decide_eq_false_2 (_ ∧ _)) by (by intros (_ & ? & _)).
      simpl. apply (f_equal (λ b : bool, if b then 1%nat else 0%nat)).
      apply bool_decide_ext. rewrite elem_of_cons.
      split; [by right | by intros [->|?]].
Qed.

Lemma copies_fanout n mac frame (wf : gmap MAC Writer) :
  copies n mac frame (fanout n wf frame) = match wf !! mac with Some _ => 1%nat | None => 0%nat end.
Proof.
  unfold fanout. rewrite copies_fanout_list by apply NoDup_fst_map_to_list.
  destruct (wf !! mac) as [w|] eqn:Hw.
  - rewrite bool_decide_eq_true_2; [done|].
    apply list_elem_of_fmap. exists (mac, w). split; [done|].
    by apply elem_of_map_to_list.
  - rewrite bool_decide_eq_false_2; [done|].
    intros [[k w] [-> Hin]]%list_elem_of_fmap.
    apply elem_of_map_to_list in Hin. simpl in *. congruence.
Qed.

Section LinkRegistry.
Context {T : Type} `{Ext : External T}.

Lemma writeEth_short (n : nat) (res : list Z) (s : Server T) :
  (length res < 12)%nat → writeEth n res s = Ret ((), s, []).
Proof. intros H. unfold writeEth. by rewrite bool_decide_eq_true_2. Qed.

Lemma writeEth_broadcast (n : nat) (res : list Z) (s : Server T) (netw : network T) :
  networks s !! n = Some netw →
  (12 ≤ length res)%nat →
  take 6 res = HWAddr MAC_broadcast →
  writeEth n res s = Ret ((), s, fanout n (net_writeFunc netw) res).
Proof.
  intros Hn Hlen Hdst. unfold writeEth.
  rewrite bool_decide_eq_false_2 by lia.
  rewrite (proj2 (MAC_of_slice_take6 _ _) Hdst).
  destruct (MAC_of_slice_long (drop 6 res)) as [src ->]; [rewrite length_drop; lia|].
  unfold bind, getNet. rewrite Hn. simpl.
  rewrite forM_emit. reflexivity.
Qed.

Lemma writeEth_self (n : nat) (res : list Z) (s : Server T) :
  take 6 res = take 6 (drop 6 res) →
  take 6 res ≠ HWAddr MAC_broadcast →
  effects_of (writeEth n res s) = [].
Proof.
  intros Heq Hnb. unfold writeEth.
  case_bool_decide; [reflexivity|].
  destruct (MAC_of_slice (take 6 res)) as [dstMAC|] eqn:Hd; [|reflexivity].
  rewrite <- Heq, Hd.
  unfold bind, getNet. destruct (networks s !! n) as [netw|]; [|reflexivity]. simpl.
  unfold IsBroadcast. rewrite bool_decide_eq_false_2.
  - rewrite bool_decide_eq_true_2 by done. reflexivity.
  - intros ->. apply MAC_of_slice_take6 in Hd. contradiction.
Qed.

End LinkRegistry.

Section LinkRegistryClaims.
Context {T : Type} `{Ext : External T}.

(** C4 (as amended).  A frame handed to [writeEth] whose destination MAC
    (bytes 0-5) equals its source MAC (bytes 6-11) and is not the broadcast
    address reaches no writer: no callback is invoked. *)
Theorem writeEth_never_to_itself (n : nat) (res : list Z) (s : Server T) :
  take 6 res = take 6 (drop 6 res) →
  take 6 res ≠ HWAddr MAC_broadcast →
  effects_of (writeEth n res s) = [].
Proof. apply writeEth_self. Qed.

Lemma HandleEthernetPacket_ipv4 fuel n ep now (s : Server T) netw dstMAC :
  networks s !! n = Some netw →
  DstMAC ep = Some dstMAC →
  eth_EthernetType (le ep) = EthernetTypeIPv4 →
  HandleEthernetPacket fuel n ep now s
  = (let* _ := writeEth n (pkt_Data (gp ep)) in
     if bool_decide (dstMAC = net_mac netw) || IsBroadcast dstMAC
     then HandleEthernetIPv4PacketForRouter fuel n ep now
     else ret ()) s.
Proof.
  intros Hn Hd Hty. unfold HandleEthernetPacket. rewrite Hd, Hty.
  by rewrite (bind_getNet _ _ _ _ Hn).
Qed.

(** Frames that are neither IPv4 nor ARP are not passed on to anyone. *)
Lemma HandleEthernetPacket_other fuel n ep now (s : Server T) netw dstMAC :
  networks s !! n = Some netw →
  DstMAC ep = Some dstMAC →
  eth_EthernetType (le ep) ≠ EthernetTypeIPv4 →
  eth_EthernetType (le ep) ≠ EthernetTypeARP →
  HandleEthernetPacket fuel n ep now s = Ret ((), s, []).
Proof.
  intros Hn Hd H4 Harp. unfold HandleEthernetPacket. rewrite Hd.
  rewrite (bind_getNet _ _ _ _ Hn).
  rewrite (bool_decide_eq_false_2 _ Harp), (bool_decide_eq_false_2 _ H4).
  by case_bool_decide.
Qed.

(** An ARP frame is answered by the router, it is not passed on. *)
Lemma HandleEthernetPacket_arp fuel n ep now (s : Server T) netw dstMAC :
  networks s !! n = Some netw →
  DstMAC ep = Some dstMAC →
  eth_EthernetType (le ep) = EthernetTypeARP →
  effects_of (HandleEthernetPacket fuel n ep now s)
  = effects_of (writeResult n (createARPResponse netw (gp ep)) s).
Proof.
  intros Hn Hd Harp. unfold HandleEthernetPacket. rewrite Hd, Harp.
  by rewrite (bind_getNet _ _ _ _ Hn).
Qed.

(** An IPv4 frame to the broadcast MAC: the LAN fan-out calls the writer
    of every MAC registered on the network exactly once with the frame and
    calls no other writer; what follows are the calls of the router's own
    handling of the frame. *)
Lemma HandleEthernetPacket_broadcast fuel n ep now (s : Server T) netw :
  networks s !! n = Some netw →
  DstMAC ep = Some MAC_broadcast →
  eth_EthernetType (le ep) = EthernetTypeIPv4 →
  take 6 (pkt_Data (gp ep)) = eth_DstMAC (le ep) →
  (12 ≤ length (pkt_Data (gp ep)))%nat →
  let frame := pkt_Data (gp ep) in
  let copied := fanout n (net_writeFunc netw) frame in
  effects_of (HandleEthernetPacket fuel n ep now s)
  = copied ++ effects_of (HandleEthernetIPv4PacketForRouter fuel n ep now s)
  ∧ (∀ mac, is_Some (net_writeFunc netw !! mac) → copies n mac frame copied = 1%nat)
  ∧ (∀ mac, net_writeFunc netw !! mac = None → copies n mac frame copied = 0%nat)
  ∧ length copied = size (net_writeFunc netw).
Proof.
  intros Hn Hd Hty Hdata Hlen frame copied.
  assert (Hbc : take 6 frame = HWAddr MAC_broadcast).
  { apply MAC_of_slice_take6. unfold frame. rewrite Hdata. exact Hd. }
  repeat split.
  - rewrite (HandleEthernetPacket_ipv4 _ _ _ _ _ _ _ Hn Hd Hty).
    erewrite effects_of_bind by (by apply writeEth_broadcast).
    assert (IsBroadcast MAC_broadcast = true) as -> by (by apply bool_decide_eq_true_2).
    by rewrite orb_true_r.
  - intros mac [w Hw]. unfold copied. by rewrite copies_fanout, Hw.
  - intros mac Hw. unfold copied. by rewrite copies_fanout, Hw.
  - unfold copied, fanout. by rewrite length_fmap, length_map_to_list.
Qed.

End LinkRegistryClaims.

(** ** The link registry on concrete frames *)

Section LinkRegistryRuns.
Import Sample Examples ExampleNets.

Lemma connected2_net : networks connected2 !! 0%nat = Some net2.
Proof. vm_compute. reflexivity. Qed.

Lemma writeEth_never_to_itself_witness :
  let res := HWAddr macA ++ HWAddr macA in
  take 6 res = take 6 (drop 6 res)
  ∧ take 6 res ≠ HWAddr MAC_broadcast
  ∧ effects_of (writeEth 0 res connected2) = [].
Proof.
  intros res.
  assert (H1 : take 6 res = take 6 (drop 6 res)) by reflexivity.
  assert (H2 : take 6 res ≠ HWAddr MAC_broadcast) by discriminate.
  exact (conj H1 (conj H2 (writeEth_never_to_itself 0 res connected2 H1 H2))).
Defined.

(** C4 as stated fails on twelve bytes 0xff: destination and source MAC
    are equal, and both registered writers are called. *)
Lemma writeEth_all_ones_delivered :
  take 6 frameAllOnes = take 6 (drop 6 frameAllOnes)
  ∧ effects_of (writeEth 0 frameAllOnes connected2)
    = [ECall 0 macA 1%nat frameAllOnes; ECall 0 macB 2%nat frameAllOnes].
Proof. split; vm_compute; reflexivity. Qed.

(** C1 as stated fails twice.  Node A broadcasts an IPv4 frame while A and
    B are connected: A's own writer is called with the frame.  Node A
    broadcasts an ARP request: B gets no copy of it. *)
Lemma broadcast_not_as_specified :
  ¬ broadcast_as_specified 0 wf2 macA frameA
      (effects_of (HandleEthernetPacket 2 0 epA 0 connected2))
  ∧ ¬ broadcast_as_specified 0 wf2 macA frameArp
      (effects_of (HandleEthernetPacket 2 0 epArp 0 connected2)).
Proof.
  split.
  - intros [_ H]. vm_compute in H. discriminate.
  - intros [H _]. specialize (H macB).
    assert (Hreg : is_Some (wf2 !! macB)) by (by eexists).
    specialize (H Hreg). vm_compute in H. 
    assert (Hne : macB ≠ macA) by discriminate.
    specialize (H Hne). discriminate.
Qed.

End LinkRegistryRuns.

(** ** Start-up: [initFromConfig] *)

Section InitFacts.
Context {T : Type} `{Ext : External T}.

Lemma lanIP_ext_app (nets : list (network T)) n : lanIP_ext nets (nets ++ [n]).
Proof. intros i netw Hi. exists netw. split; [|done]. by apply lookup_app_l_Some. Qed.

Lemma lanIP_ext_insert (nets : list (network T)) idx netw netw' :
  nets !! idx = Some netw → net_lanIP netw' = net_lanIP netw →
  lanIP_ext nets (<[idx := netw']> nets).
Proof.
  intros Hidx Hlan i n Hi. destruct (decide (i = idx)) as [->|Hne].
  - exists netw'. split; [|congruence].
    apply list_lookup_insert_eq. by eapply lookup_lt_Some.
  - exists n. split; [|done]. by rewrite list_lookup_insert_ne.
Qed.

Lemma node_ok_ext (s s1 : Server T) nd :
  lanIP_ext (networks s) (networks s1) → node_ok s nd → node_ok s1 nd.
Proof.
  intros Hext (netw & Hn & Ha). destruct (Hext _ _ Hn) as (netw' & Hn' & Hl).
  exists netw'. split; [done|]. by rewrite Hl.
Qed.

Lemma server_wf_ext (s s1 : Server T) :
  lanIP_ext (networks s) (networks s1) →
  nodeByMAC s1 = nodeByMAC s → nodes s1 = nodes s →
  server_wf s → server_wf s1.
Proof.
  intros Hext Hm Hl [W1 W2]. split.
  - intros m nd. rewrite Hm. intros Hnd. destruct (W1 _ _ Hnd) as [? ?].
    split; [done|]. by eapply node_ok_ext.
  - intros nd. rewrite Hl, Hm. apply W2.
Qed.

Lemma server_wf_empty : server_wf (Server_empty (T:=T)).
Proof.
  split.
  - intros m nd Hl. simpl in Hl. by rewrite lookup_empty in Hl.
  - intros nd Hin. simpl in Hin. by apply not_elem_of_nil in Hin.
Qed.

Lemma initNetwork_wf (s : Server T) conf s1 :
  initNetwork (Ok s) conf = Ok s1 → server_wf s → server_wf s1.
Proof.
  unfold initNetwork. destruct (Network_err conf); [discriminate|].
  case_bool_decide; [discriminate|]. intros [= <-].
  apply server_wf_ext; [apply lanIP_ext_app|done|done].
Qed.

Lemma initNode_wf (s : Server T) conf s1 :
  initNode (Ok s) conf = Ok s1 → server_wf s → server_wf s1.
Proof.
  unfold initNode. destruct (Node_err conf); [discriminate|].
  case_bool_decide as Hdup; [discriminate|].
  destruct (Node_Network conf) as [idx|]; [|discriminate].
  destruct (networks s !! idx) as [netw|] eqn:Hidx; [|discriminate].
  destruct (allocLanIP _ _) as [lanIP|] eqn:Hip; [|discriminate].
  intros [= <-] [W1 W2].
  assert (Hnone : nodeByMAC s !! Node_mac conf = None).
  { destruct (nodeByMAC s !! Node_mac conf) eqn:E; [|done].
    exfalso. apply Hdup. by eexists. }
  assert (Hext : lanIP_ext (networks s)
                   (<[idx := set_nodesByIP netw
                               (<[lanIP := mkNode (Node_mac conf) idx lanIP]>
                                  (net_nodesByIP netw))]> (networks s))).
  { by apply (lanIP_ext_insert _ _ netw). }
  split; simpl.
  - intros m nd Hl. destruct (decide (Node_mac conf = m)) as [<-|Hne].
    + rewrite lookup_insert_eq in Hl. injection Hl as <-. split; [done|].
      destruct (Hext _ _ Hidx) as (netw' & Hn' & Hlan).
      exists netw'. simpl. split; [done|]. by rewrite Hlan.
    + rewrite lookup_insert_ne in Hl by done. destruct (W1 _ _ Hl) as [? Hok].
      split; [done|]. revert Hok. by apply node_ok_ext.
  - intros nd [Hin | ->%list_elem_of_singleton]%elem_of_app.
    + specialize (W2 _ Hin). rewrite lookup_insert_ne; [done|].
      intros Heq. rewrite <- Heq in W2. congruence.
    + simpl. by rewrite lookup_insert_eq.
Qed.

Lemma InitNAT_wf (s : Server T) idx natType s1 :
  InitNAT s idx natType = Ok s1 → server_wf s → server_wf s1.
Proof.
  unfold InitNAT. destruct (networks s !! idx) as [n|] eqn:Hidx; [|discriminate].
  destruct (natTypes natType) as [ctor|]; [|discriminate].
  destruct (ctor n) as [t|]; [|discriminate]. intros [= <-].
  apply server_wf_ext; [|done|done]. simpl.
  by apply (lanIP_ext_insert _ _ n).
Qed.

Lemma foldl_Result_inv {A} (P : Server T → Prop)
    (f : Result (Server T) → A → Result (Server T)) (l : list A) :
  (∀ s x s1, f (Ok s) x = Ok s1 → P s → P s1) →
  (∀ x, f Err x = Err) → (∀ x, f Crashed x = Crashed) →
  ∀ r s', foldl f r l = Ok s' → ∃ s, r = Ok s ∧ (P s → P s').
Proof.
  intros Hstep HErr HCr. induction l as [|x l IH]; intros r s' Hf.
  - simpl in Hf. subst. eauto.
  - simpl in Hf. destruct (IH _ _ Hf) as (s1 & Hs1 & HP).
    destruct r as [s| |].
    + exists s. split; [done|]. intros Hs. apply HP. by eapply Hstep.
    + rewrite HErr in Hs1. discriminate.
    + rewrite HCr in Hs1. discriminate.
Qed.

Lemma foldl_initNATs_inv (l : list Network) :
  ∀ r idx s', (foldl initNATs (r, idx) l).1 = Ok s' →
    ∃ s, r = Ok s ∧ (server_wf s → server_wf s').
Proof.
  induction l as [|x l IH]; intros r idx s' Hf.
  - simpl in Hf. subst. eauto.
  - simpl in Hf. destruct r as [s| |]; simpl in Hf.
    + destruct (IH _ _ _ Hf) as (s1 & Hs1 & HP).
      exists s. split; [done|]. intros Hs. apply HP. by eapply InitNAT_wf.
    + destruct (IH _ _ _ Hf) as (s1 & Hs1 & _). discriminate.
    + destruct (IH _ _ _ Hf) as (s1 & Hs1 & _). discriminate.
Qed.

(** A server that [initFromConfig] built from an empty one is
    well-formed. *)
Lemma initFromConfig_wf (s s' : Server T) (c : Config) :
  initFromConfig s c = Ok s' → server_wf s → server_wf s'.
Proof.
  unfold initFromConfig. intros Hinit Hs.
  destruct (foldl_initNATs_inv _ _ _ _ Hinit) as (s2 & H2 & P2).
  destruct (foldl_Result_inv server_wf initNode (c_nodes c) initNode_wf
              (λ _, eq_refl) (λ _, eq_refl) _ _ H2) as (s1 & H1 & P1).
  destruct (foldl_Result_inv server_wf initNetwork (c_networks c) initNetwork_wf
              (λ _, eq_refl) (λ _, eq_refl) _ _ H1) as (s0 & H0 & P0).
  injection H0 as <-. auto.
Qed.

End InitFacts.

(** ** LAN addresses *)

Lemma allocLanIP_v4 a b c d bp mac :
  allocLanIP (mkPrefix (Addr4 a b c d) bp) mac
  = Some (Addr4 a b c ((101 + mac5 mac) mod 256)).
Proof. reflexivity. Qed.

Lemma addr_u32_shiftr8 a b c d :
  0 ≤ d < 256 → Z.shiftr (addr_u32 a b c d) 8 = (a * 256 + b) * 256 + c.
Proof.
  intros Hd. rewrite Z.shiftr_div_pow2 by lia. change (2 ^ 8) with 256.
  unfold addr_u32, of_be. simpl. symmetry.
  apply Z.div_unique with d; lia.
Qed.

(** For an IPv4 prefix of length at most 24 the allocated address lies in
    the prefix: only the last octet differs from the prefix address. *)
Lemma allocLanIP_in_prefix a b c d bits mac ip :
  0 ≤ d < 256 → 0 ≤ bits ≤ 24 →
  allocLanIP (PrefixFrom (Addr4 a b c d) bits) mac = Some ip →
  Prefix_Contains (PrefixFrom (Addr4 a b c d) bits) ip = true.
Proof.
  intros Hd Hbits. unfold PrefixFrom. rewrite allocLanIP_v4. intros [= <-].
  unfold Prefix_Contains, Prefix_IsValid, Prefix_Bits. simpl.
  rewrite bool_decide_eq_true_2 by lia. simpl.
  apply bool_decide_eq_true_2.
  replace (bits + 1 - 1) with bits by lia.
  assert (Hk : Z.land (32 - bits) 63 = 8 + (24 - bits)).
  { change 63 with (Z.ones 6). rewrite Z.land_ones by lia.
    change (2 ^ 6) with 64. rewrite Z.mod_small; lia. }
  rewrite Hk, <- Z.shiftr_shiftr by lia.
  rewrite Z.shiftr_lxor, !addr_u32_shiftr8; [|lia|apply Z.mod_pos_bound; lia].
  by rewrite Z.lxor_nilpotent, Z.shiftr_0_l.
Qed.

Section StartedNodes.
Context {T : Type} `{Ext : External T}.

(** Every node of a started server has the LAN address allocated from the
    prefix of its network: the prefix address with the final octet replaced
    by [101 + mac[5]] modulo 256. *)
Lemma started_node_lanIP (c : Config) (s : Server T) m nd :
  initFromConfig Server_empty c = Ok s →
  nodeByMAC s !! m = Some nd →
  node_mac nd = m
  ∧ ∃ netw, networks s !! node_net nd = Some netw
            ∧ allocLanIP (net_lanIP netw) m = Some (node_lanIP nd).
Proof.
  intros Hinit Hnd.
  destruct (initFromConfig_wf _ _ _ Hinit server_wf_empty) as [W1 _].
  destruct (W1 _ _ Hnd) as [<- Hok]. done.
Qed.

Lemma started_node_in_prefix (c : Config) (s : Server T) m nd netw a b c' d bits :
  initFromConfig Server_empty c = Ok s →
  nodeByMAC s !! m = Some nd →
  networks s !! node_net nd = Some netw →
  net_lanIP netw = PrefixFrom (Addr4 a b c' d) bits →
  0 ≤ d < 256 → 0 ≤ bits ≤ 24 →
  node_lanIP nd = Addr4 a b c' ((101 + mac5 m) mod 256)
  ∧ Prefix_Contains (net_lanIP netw) (node_lanIP nd) = true.
Proof.
  intros Hinit Hnd Hn Hp Hd Hbits.
  destruct (started_node_lanIP _ _ _ _ Hinit Hnd) as (_ & netw' & Hn' & Ha).
  rewrite Hn in Hn'. injection Hn' as <-. rewrite Hp in *.
  split.
  - unfold PrefixFrom in Ha. rewrite allocLanIP_v4 in Ha. by injection Ha as <-.
  - by eapply allocLanIP_in_prefix.
Qed.

End StartedNodes.

(** ** DHCP *)

Section DHCPFacts.
Context {T : Type} `{Ext : External T}.

(** The reply to a DHCP request of a known node: [YourClientIP] is the
    node's LAN address, the first option is the server id with the address
    of the network's prefix, a Discover gets an Offer and a Request an Ack
    with lease time, router, DNS server and subnet mask. *)
Lemma dhcpReply_known_node (s : Server T) (request : Packet)
    ethLayer ipLayer udpLayer dhcpLayer m nd netw msgType :
  Layer_Ethernet request = Some ethLayer →
  eth_SrcMAC ethLayer = HWAddr m →
  nodeByMAC s !! m = Some nd →
  networks s !! node_net nd = Some netw →
  Layer_IPv4 request = Some ipLayer →
  Layer_UDP request = Some udpLayer →
  Layer_DHCPv4 request = Some dhcpLayer →
  dhcpMsgType (dhcp_Options dhcpLayer) = Some msgType →
  let gwIP := Prefix_Addr (net_lanIP netw) in
  ∃ eth ip udp response,
    dhcpReply s request = Ok (Some (eth, ip, udp, response))
    ∧ dhcp_YourClientIP response = AsSlice (node_lanIP nd)
    ∧ head (dhcp_Options response) = Some (mkDHCPOption DHCPOptServerID 4 (AsSlice gwIP))
    ∧ (msgType = DHCPMsgTypeDiscover →
       dhcp_Options response
       = [mkDHCPOption DHCPOptServerID 4 (AsSlice gwIP);
          mkDHCPOption DHCPOptMessageType 1 [DHCPMsgTypeOffer]])
    ∧ (msgType = DHCPMsgTypeRequest →
       dhcp_Options response
       = [mkDHCPOption DHCPOptServerID 4 (AsSlice gwIP);
          mkDHCPOption DHCPOptMessageType 1 [DHCPMsgTypeAck];
          mkDHCPOption DHCPOptLeaseTime 4 [0; 0; 14; 16];
          mkDHCPOption DHCPOptRouter 4 (AsSlice gwIP);
          mkDHCPOption DHCPOptDNS 4 [4; 11; 4; 11];
          mkDHCPOption DHCPOptSubnetMask 4 (CIDRMask32 (Prefix_Bits (net_lanIP netw)))]).
Proof.
  intros He Hsrc Hnd Hn Hip Hudp Hdhcp Hmt gwIP.
  unfold dhcpReply. rewrite He, Hsrc. unfold macOf.
  rewrite bool_decide_eq_false_2 by (intros Hc; by apply Hc).
  rewrite MAC_of_slice_HWAddr. simpl.
  rewrite Hnd, Hn, Hip, Hudp, Hdhcp, Hmt.
  do 4 eexists. split; [reflexivity|]. simpl.
  split; [reflexivity|]. split.
  - unfold dhcpReplyOptions. by repeat case_bool_decide.
  - split; intros ->; reflexivity.
Qed.

End DHCPFacts.

Section StartUpRuns.
Import Sample Examples ExampleConfigs.

(** C2, evaluated.  On the default network the DHCP Offer for the node
    52:cc:cc:cc:cc:00 has YIADDR 192.168.0.101 and the server id
    192.168.0.0: the default prefix is written with the network address,
    so the router's own address is 192.168.0.0 and not 192.168.0.1. *)
Theorem dhcp_offer_default_network :
  ∃ s eth ip udp response,
    initFromConfig Server_empty conf1 = Ok s
    ∧ (net_lanIP <$> networks s) = [PrefixFrom (Addr4 192 168 0 0) 24]
    ∧ dhcpReply s pktDiscover = Ok (Some (eth, ip, udp, response))
    ∧ dhcp_YourClientIP response = [192; 168; 0; 101]
    ∧ dhcp_Options response
      = [mkDHCPOption DHCPOptServerID 4 [192; 168; 0; 0];
         mkDHCPOption DHCPOptMessageType 1 [DHCPMsgTypeOffer]].
Proof.
  do 5 eexists. split; [vm_compute; reflexivity|].
  split; [vm_compute; reflexivity|].
  split; [vm_compute; reflexivity|]. split; reflexivity.
Qed.

(** C9, evaluated.  With the LAN prefix 10.0.0.0/30 the first node gets
    the address 10.0.0.101, which is not inside the prefix. *)
Theorem lanIP_outside_long_prefix :
  ∃ s nd netw,
    initFromConfig Server_empty conf30 = Ok s
    ∧ nodes s = [nd]
    ∧ networks s !! node_net nd = Some netw
    ∧ net_lanIP netw = PrefixFrom (Addr4 10 0 0 0) 30
    ∧ node_lanIP nd = Addr4 10 0 0 101
    ∧ Prefix_Contains (net_lanIP netw) (node_lanIP nd) = false.
Proof.
  do 3 eexists. split; [vm_compute; reflexivity|].
  split; [vm_compute; reflexivity|].
  split; [vm_compute; reflexivity|].
  split; [reflexivity|]. split; [reflexivity|]. vm_compute. reflexivity.
Qed.

End StartUpRuns.

(** ** DNS *)

Lemma dnsAnswerFor_code (q : DNSQuestion) :
  dnsAnswerFor q
  = if bool_decide (q_Class q ≠ DNSClassIN) || bool_decide (q_Type q ≠ DNSTypeA)
    then None
    else let '(ip, ok) := IPv4ForDNS (q_Name q) in
         if ok then Some (mkDNSResourceRecord (q_Name q) (q_Type q) (q_Class q) 60 (AsSlice ip))
         else None.
Proof.
  unfold dnsAnswerFor, IPv4ForDNS.
  destruct (decide (q_Class q = DNSClassIN)) as [Hc|Hc];
    destruct (decide (q_Type q = DNSTypeA)) as [Ht|Ht].
  - rewrite bool_decide_eq_true_2 by done.
    rewrite !(bool_decide_eq_false_2 (_ ≠ _)) by (intros Hn; by apply Hn). simpl.
    rewrite Hc, Ht.
    destruct (String.eqb_spec (q_Name q) "dns") as [->|H1]; [reflexivity|].
    rewrite (bool_decide_eq_false_2 _ H1).
    destruct (String.eqb_spec (q_Name q) "test-driver.tailscale") as [->|H2]; [reflexivity|].
    rewrite (bool_decide_eq_false_2 _ H2).
    destruct (String.eqb_spec (q_Name q) "controlplane.tailscale.com") as [->|H3];
      [reflexivity|].
    by rewrite (bool_decide_eq_false_2 _ H3).
  - rewrite bool_decide_eq_false_2 by (by intros [_ ?]).
    rewrite (bool_decide_eq_true_2 (q_Type q ≠ _)) by done. by rewrite orb_true_r.
  - rewrite bool_decide_eq_false_2 by (by intros [? _]).
    by rewrite (bool_decide_eq_true_2 (q_Class q ≠ _)) by done.
  - rewrite bool_decide_eq_false_2 by (by intros [? _]).
    by rewrite (bool_decide_eq_true_2 (q_Class q ≠ _)) by done.
Qed.

Lemma uint16_of_succ x : uint16_of (uint16_of x + 1) = uint16_of (x + 1).
Proof. unfold uint16_of. by rewrite Zplus_mod_idemp_l. Qed.

(** Without NTP pool names the loop over the questions runs to the end:
    it echoes every question and appends the answers. *)
Lemma dnsQuestions_all (qs : list DNSQuestion) :
  Forall (λ q, isNTPPool q = false) qs →
  ∀ r k a,
    dns_QDCount r = uint16_of k → dns_ANCount r = uint16_of a →
    ∃ r', dnsQuestions qs r = Some r'
      ∧ dns_Questions r' = dns_Questions r ++ qs
      ∧ dns_Answers r' = dns_Answers r ++ dnsAnswers qs
      ∧ dns_QDCount r' = uint16_of (k + Z.of_nat (length qs))
      ∧ dns_ANCount r' = uint16_of (a + Z.of_nat (length (dnsAnswers qs)))
      ∧ dns_ID r' = dns_ID r ∧ dns_QR r' = dns_QR r ∧ dns_OpCode r' = dns_OpCode r
      ∧ dns_AA r' = dns_AA r ∧ dns_TC r' = dns_TC r ∧ dns_RD r' = dns_RD r
      ∧ dns_RA r' = dns_RA r ∧ dns_ResponseCode r' = dns_ResponseCode r.
Proof.
  induction 1 as [|q qs Hq Hqs IH]; intros r k a Hk Ha.
  - exists r. simpl. rewrite !app_nil_r, !Z.add_0_r. by repeat split.
  - simpl. unfold isNTPPool in Hq. rewrite Hq.
    unfold dnsAnswers. simpl. rewrite dnsAnswerFor_code.
    assert (Hk1 : uint16_of (dns_QDCount r + 1) = uint16_of (k + 1))
      by (by rewrite Hk, uint16_of_succ).
    assert (Ha1 : uint16_of (dns_ANCount r + 1) = uint16_of (a + 1))
      by (by rewrite Ha, uint16_of_succ).
    destruct (bool_decide (q_Class q ≠ DNSClassIN) || bool_decide (q_Type q ≠ DNSTypeA)).
    + match goal with |- context [dnsQuestions qs ?r1] =>
        destruct (IH r1 (k + 1) a Hk1 Ha) as (r' & -> & HQ & HA & Hqd & Han & Hrest)
      end.
      exists r'. simpl in *. split; [done|].
      rewrite HQ, HA, Hqd, Han, <- !(assoc_L (++)). simpl.
      repeat split; try apply Hrest. apply (f_equal uint16_of). clear. lia.
    + destruct (IPv4ForDNS (q_Name q)) as [ip [|]].
      * match goal with |- context [dnsQuestions qs ?r1] =>
          destruct (IH r1 (k + 1) (a + 1) Hk1 Ha1)
            as (r' & -> & HQ & HA & Hqd & Han & Hrest)
        end.
        exists r'. simpl in *. split; [done|].
        rewrite HQ, HA, Hqd, Han, <- !(assoc_L (++)). simpl.
        repeat split; try apply Hrest; apply (f_equal uint16_of);
          unfold dnsAnswers; clear; lia.
      * match goal with |- context [dnsQuestions qs ?r1] =>
          destruct (IH r1 (k + 1) a Hk1 Ha) as (r' & -> & HQ & HA & Hqd & Han & Hrest)
        end.
        exists r'. simpl in *. split; [done|].
        rewrite HQ, HA, Hqd, Han, <- !(assoc_L (++)). simpl.
        repeat split; try apply Hrest. apply (f_equal uint16_of). clear. lia.
Qed.

(** An NTP pool name anywhere among the questions ends the loop with the
    early return. *)
Lemma dnsQuestions_ntp (qs : list DNSQuestion) :
  Exists (λ q, isNTPPool q = true) qs → ∀ r, dnsQuestions qs r = None.
Proof.
  induction 1 as [q qs Hq|q qs Hqs IH]; intros r; simpl.
  - unfold isNTPPool in Hq. by rewrite Hq.
  - destruct (HasSuffix (q_Name q) ".pool.ntp.org"); [done|].
    destruct (_ || _); [apply IH|].
    destruct (IPv4ForDNS (q_Name q)) as [ip [|]]; apply IH.
Qed.

Section DNSClaims.
Context {T : Type} `{Ext : External T}.

(** C5.  For a DNS query (opcode QUERY, QR clear, at least one question):
    if the name of any question ends in [.pool.ntp.org] there is no
    response at all, nothing reaches [writeEth]'s writers; otherwise the
    response echoes the questions and carries, for each question of class
    IN and type A for one of the three known names, the synthetic address
    with TTL 60, and nothing for any other question.  The flags are QR, AA
    and RA set, TC clear, opcode QUERY, rcode NoError; ID and RD are those
    of the query. *)
Theorem createDNSResponse_answers (pkt : Packet) ethLayer ipLayer udpLayer dnsLayer :
  Layer_Ethernet pkt = Some ethLayer →
  Layer_IPv4 pkt = Some ipLayer →
  Layer_UDP pkt = Some udpLayer →
  Layer_DNS pkt = Some dnsLayer →
  dns_OpCode dnsLayer = DNSOpCodeQuery →
  dns_QR dnsLayer = false →
  dns_Questions dnsLayer ≠ [] →
  let qs := dns_Questions dnsLayer in
  (Exists (λ q, isNTPPool q = true) qs →
     dnsReply pkt = Ok None
     ∧ createDNSResponse pkt = Ok []
     ∧ ∀ n (s : Server T), writeResult n (createDNSResponse pkt) s = Ret ((), s, []))
  ∧ (Forall (λ q, isNTPPool q = false) qs →
     ∃ response,
       dnsReply pkt
       = Ok (Some (mkEthernet (eth_DstMAC ethLayer) (eth_SrcMAC ethLayer) EthernetTypeIPv4,
                   mkIPv4 4 64 IPProtocolUDP (ip_DstIP ipLayer) (ip_SrcIP ipLayer) [] [],
                   mkUDP (udp_DstPort udpLayer) (udp_SrcPort udpLayer) [],
                   response))
       ∧ createDNSResponse pkt
         = serialize
             [LEthernet (mkEthernet (eth_DstMAC ethLayer) (eth_SrcMAC ethLayer)
                                    EthernetTypeIPv4);
              LIPv4 (mkIPv4 4 64 IPProtocolUDP (ip_DstIP ipLayer) (ip_SrcIP ipLayer) [] []);
              LUDP (mkUDP (udp_DstPort udpLayer) (udp_SrcPort udpLayer) []);
              LDNS response]
       ∧ dns_Questions response = qs
       ∧ dns_Answers response = dnsAnswers qs
       ∧ dns_QDCount response = uint16_of (Z.of_nat (length qs))
       ∧ dns_ANCount response = uint16_of (Z.of_nat (length (dnsAnswers qs)))
       ∧ dns_ID response = dns_ID dnsLayer
       ∧ dns_QR response = true
       ∧ dns_OpCode response = DNSOpCodeQuery
       ∧ dns_AA response = true
       ∧ dns_TC response = false
       ∧ dns_RD response = dns_RD dnsLayer
       ∧ dns_RA response = true
       ∧ dns_ResponseCode response = DNSResponseCodeNoErr).
Proof.
  intros He Hip Hudp Hdns Hop Hqr Hqs qs.
  assert (Hguard : bool_decide (dns_OpCode dnsLayer ≠ DNSOpCodeQuery) || dns_QR dnsLayer
                   || bool_decide (length (dns_Questions dnsLayer) = 0%nat) = false).
  { rewrite Hqr, (bool_decide_eq_false_2 (_ ≠ _)) by (intros Hn; by apply Hn).
    apply bool_decide_eq_false_2. by destruct (dns_Questions dnsLayer). }
  split.
  - intros Hntp.
    assert (Hreply : dnsReply pkt = Ok None).
    { unfold dnsReply. rewrite He, Hip, Hudp, Hdns, Hguard.
      by rewrite dnsQuestions_ntp. }
    assert (Hcreate : createDNSResponse pkt = Ok [])
      by (unfold createDNSResponse; by rewrite Hreply).
    repeat split; [done..|]. intros n s. rewrite Hcreate. simpl.
    apply writeEth_short. simpl. lia.
  - intros Hall.
    destruct (dnsQuestions_all qs Hall
                (mkDNS (dns_ID dnsLayer) true DNSOpCodeQuery true false (dns_RD dnsLayer) true
                       DNSResponseCodeNoErr 0 0 [] []) 0 0 eq_refl eq_refl)
      as (r' & Hloop & HQ & HA & Hqd & Han & Hid & Hqr' & Hop' & Haa & Htc & Hrd & Hra & Hrc).
    exists r'.
    assert (Hreply : dnsReply pkt
       = Ok (Some (mkEthernet (eth_DstMAC ethLayer) (eth_SrcMAC ethLayer) EthernetTypeIPv4,
                   mkIPv4 4 64 IPProtocolUDP (ip_DstIP ipLayer) (ip_SrcIP ipLayer) [] [],
                   mkUDP (udp_DstPort udpLayer) (udp_SrcPort udpLayer) [], r'))).
    { unfold dnsReply. rewrite He, Hip, Hudp, Hdns, Hguard. fold qs. by rewrite Hloop. }
    split; [done|]. split; [unfold createDNSResponse; by rewrite Hreply|].
    simpl in *. rewrite Z.add_0_l in Hqd, Han. by repeat split.
Qed.

End DNSClaims.

Section DNSRuns.
Import Sample Examples ExamplePackets.

Lemma createDNSResponse_answers_witness :
  ∃ response,
    dnsReply (pktDNS [qControl; qOther])
    = Ok (Some (mkEthernet (HWAddr macRouter) (HWAddr macA) EthernetTypeIPv4,
                mkIPv4 4 64 IPProtocolUDP [4; 11; 4; 11] [192; 168; 0; 101] [] [],
                mkUDP 53 40000 [], response))
    ∧ dns_Questions response = [qControl; qOther]
    ∧ dns_Answers response
      = [mkDNSResourceRecord "controlplane.tailscale.com" DNSTypeA DNSClassIN 60 [52; 52; 0; 1]].
Proof.
  assert (Hq : dns_Questions (dnsQuery [qControl; qOther]) ≠ []) by discriminate.
  assert (Hall : Forall (λ q, isNTPPool q = false) [qControl; qOther])
    by (repeat constructor).
  destruct (proj2 (createDNSResponse_answers (pktDNS [qControl; qOther]) _ _ _ _
                     eq_refl eq_refl eq_refl eq_refl eq_refl eq_refl Hq) Hall)
    as (response & Hreply & _ & HQ & HA & _).
  exists response. split; [exact Hreply|]. split; [exact HQ|exact HA].
Defined.

(** A query for [foo.pool.ntp.org] gets no response. *)
Lemma dns_ntp_suppressed :
  dnsReply (pktDNS [qControl; qNTP]) = Ok None
  ∧ createDNSResponse (pktDNS [qControl; qNTP]) = Ok [].
Proof. split; reflexivity. Qed.

End DNSRuns.

(** ** TCP interception *)

Section TCPClaims.
Context {T : Type} `{Ext : External T}.

Lemma shouldInterceptTCP_spec (s : Server T) (pkt : Packet) v4 tcp a b c d :
  Layer_IPv4 pkt = Some v4 →
  Layer_TCP pkt = Some tcp →
  ip_DstIP v4 = [a; b; c; d] →
  shouldInterceptTCP s pkt = true
  ↔ intercepted (derpIPs s) (Addr4 a b c d) (tcp_DstPort tcp).
Proof.
  intros Hip Htcp Hdst. unfold shouldInterceptTCP, intercepted.
  rewrite Htcp, Hip, Hdst. simpl.
  repeat case_bool_decide; simpl; split; intros Hx; try done; try tauto;
    try (destruct Hx as [?|[[[?|?] [?|?]]|[? ?]]]; congruence).
Qed.

(** C6.  A TCP datagram that is not addressed to the router's own LAN
    address (nor to 0.0.0.0) is injected into the TCP/IP stack of the
    network if its destination is one of the listed ones, and is dropped
    otherwise; the server is left as it was. *)
Theorem tcp_interception fuel n ep now (s : Server T) netw v4 tcp a b c d :
  networks s !! n = Some netw →
  Layer_IPv4 (gp ep) = Some v4 →
  Layer_TCP (gp ep) = Some tcp →
  Layer_UDP (gp ep) = None →
  Layer_IGMP (gp ep) = None →
  ip_DstIP v4 = [a; b; c; d] →
  Addr4 a b c d ≠ Prefix_Addr (net_lanIP netw) →
  Addr4 a b c d ≠ IPv4Unspecified →
  (intercepted (derpIPs s) (Addr4 a b c d) (tcp_DstPort tcp) →
     HandleEthernetIPv4PacketForRouter fuel n ep now s
     = Ret ((), s, [EInject n (ip_Contents v4 ++ ip_Payload v4)]))
  ∧ (¬ intercepted (derpIPs s) (Addr4 a b c d) (tcp_DstPort tcp) →
     HandleEthernetIPv4PacketForRouter fuel n ep now s = Ret ((), s, [])).
Proof.
  intros Hn Hip Htcp Hudp Higmp Hdst Hlan H0.
  pose proof (shouldInterceptTCP_spec s (gp ep) v4 tcp a b c d Hip Htcp Hdst) as Hspec.
  assert (Hrun : HandleEthernetIPv4PacketForRouter fuel n ep now s
                 = (if shouldInterceptTCP s (gp ep)
                    then InjectInbound n (ip_Contents v4 ++ ip_Payload v4)
                    else ret ()) s).
  { unfold HandleEthernetIPv4PacketForRouter. rewrite Hip.
    rewrite (bind_getNet _ _ _ _ Hn).
    unfold isDHCPRequest, isMDNSQuery, isIGMP, isDNSRequest, isNATPMP.
    rewrite Hip, Hudp, Higmp, Hdst. simpl.
    rewrite (bool_decide_eq_true_2 _ Hlan), (bool_decide_eq_true_2 _ H0). simpl.
    destruct (bool_decide (ip_Protocol v4 ≠ IPProtocolUDP)); by rewrite bind_getServer. }
  rewrite Hrun. split; intros Hi.
  - apply Hspec in Hi. by rewrite Hi.
  - destruct (shouldInterceptTCP s (gp ep)) eqn:E; [|done].
    exfalso. apply Hi. by apply Hspec.
Qed.

End TCPClaims.

(** ** The WAN switch and STUN *)

Section WANClaims.
Context {T : Type} `{Ext : External T}.

Lemma routeUDPPacket_other fuel (up : UDPPacket) now (s : Server T) :
  ap_port (Dst up) ≠ stunPort →
  routeUDPPacket (S fuel) up now s
  = match networkByWAN s !! ap_addr (Dst up) with
    | None => Ret ((), s, [])
    | Some netw => HandleUDPPacket netw up now s
    end.
Proof.
  intros Hport. simpl. rewrite (bool_decide_eq_false_2 _ Hport).
  rewrite bind_getServer. by destruct (networkByWAN s !! ap_addr (Dst up)).
Qed.

(** C7.  A packet to port 3478 whose payload parses as a STUN binding
    request is answered in process: the reply has the source and the
    destination of the request exchanged, its payload is the binding
    response that [stun.Response] builds for the source of the request, and
    it is routed by [routeUDPPacket] itself; with the source port of the
    request different from 3478, the reply goes to the network that owns
    the source address, or nowhere.  A packet to another port whose
    destination address is no network's WAN address is dropped. *)
Theorem routeUDPPacket_stun fuel (up : UDPPacket) now (s : Server T) :
  (∀ txid,
     ap_port (Dst up) = stunPort →
     ParseBindingRequest (Payload up) = Some txid →
     let reply := mkUDPPacket (Dst up) (Src up) (Response txid (Src up)) in
     makeSTUNReply up = (reply, true)
     ∧ routeUDPPacket (S fuel) up now s = routeUDPPacket fuel reply now s
     ∧ (ap_port (Src up) ≠ stunPort →
        routeUDPPacket (S (S fuel)) up now s
        = match networkByWAN s !! ap_addr (Src up) with
          | None => Ret ((), s, [])
          | Some netw => HandleUDPPacket netw reply now s
          end))
  ∧ (ap_port (Dst up) ≠ stunPort →
     networkByWAN s !! ap_addr (Dst up) = None →
     routeUDPPacket (S fuel) up now s = Ret ((), s, [])).
Proof.
  split.
  - intros txid Hport Hparse reply.
    assert (Hmk : makeSTUNReply up = (reply, true))
      by (unfold makeSTUNReply; by rewrite Hparse).
    assert (Hstep : ∀ f, routeUDPPacket (S f) up now s = routeUDPPacket f reply now s).
    { intros f. simpl. rewrite (bool_decide_eq_true_2 _ Hport). by rewrite Hmk. }
    repeat split; [done..|]. intros Hsrc.
    rewrite Hstep. by rewrite routeUDPPacket_other.
  - intros Hport Hnone. by rewrite routeUDPPacket_other, Hnone.
Qed.

(** When a binding response never parses as a binding request, the
    recursion of [routeUDPPacket] is at most two deep: two units of fuel
    are enough for every packet. *)
Lemma routeUDPPacket_total fuel (up : UDPPacket) now (s : Server T) :
  (∀ tx ap, ParseBindingRequest (Response tx ap) = None) →
  routeUDPPacket (S (S fuel)) up now s = routeUDPPacket 2 up now s.
Proof.
  intros Hlaw.
  destruct (decide (ap_port (Dst up) = stunPort)) as [Hp|Hp].
  - simpl. rewrite !(bool_decide_eq_true_2 _ Hp).
    unfold makeSTUNReply at 1 3. destruct (ParseBindingRequest (Payload up)); [|done].
    simpl. destruct (bool_decide (ap_port (Src up) = stunPort)); [|done].
    unfold makeSTUNReply. simpl. by rewrite Hlaw.
  - by rewrite !routeUDPPacket_other.
Qed.

End WANClaims.

(** ** NAT-PMP *)

Section NATPMPClaims.
Context {T : Type} `{Ext : External T}.

(** A UDP datagram to port 5351 that the router has to forward is not
    treated as NAT-PMP: it is translated and routed on the WAN like any
    other datagram. *)
Lemma natpmp_port_forwarded fuel n ep now (s : Server T) netw v4 u :
  networks s !! n = Some netw →
  Layer_IPv4 (gp ep) = Some v4 →
  Layer_UDP (gp ep) = Some u →
  Layer_IGMP (gp ep) = None →
  udp_DstPort u = 5351 →
  let srcIP := (AddrFromSlice (ip_SrcIP v4)).1 in
  let dstIP := (AddrFromSlice (ip_DstIP v4)).1 in
  dstIP ≠ Prefix_Addr (net_lanIP netw) →
  dstIP ≠ IPv4Unspecified →
  HandleEthernetIPv4PacketForRouter fuel n ep now s
  = (let* src' := doNATOut n (AddrPortFrom srcIP (udp_SrcPort u))
                           (AddrPortFrom dstIP 5351) now in
     routeUDPPacket fuel (mkUDPPacket src' (AddrPortFrom dstIP 5351) (udp_Payload u)) now) s.
Proof.
  intros Hn Hip Hudp Higmp Hport srcIP dstIP Hlan H0.
  unfold HandleEthernetIPv4PacketForRouter. rewrite Hip.
  rewrite (bind_getNet _ _ _ _ Hn).
  unfold isDHCPRequest, isMDNSQuery, isIGMP, isDNSRequest.
  rewrite Hip, Hudp, Higmp, Hport. simpl.
  fold srcIP dstIP.
  rewrite (bool_decide_eq_true_2 _ Hlan), (bool_decide_eq_true_2 _ H0). simpl.
  rewrite andb_false_r. simpl.
  by destruct (bool_decide (ip_Protocol v4 ≠ IPProtocolUDP)).
Qed.

(** C8 (as amended).  A UDP datagram to port 5351 whose payload starts
    with 0 and that is addressed to the router's own LAN address or to
    0.0.0.0 is handled as NAT-PMP.  When the payload is exactly [00 00] and
    the network has an IPv4 WAN address, the router sends, from the
    address the request went to, to the address and port it came from, a
    12-octet payload: version 0, opcode 128, result code 0, the low 32 bits
    of the Unix time in big-endian order, and the four octets of the WAN
    address.  Any other payload is dropped without a reply. *)
Theorem natpmp_public_address fuel n ep now (s : Server T) netw v4 u rest :
  networks s !! n = Some netw →
  Layer_IPv4 (gp ep) = Some v4 →
  Layer_UDP (gp ep) = Some u →
  Layer_IGMP (gp ep) = None →
  udp_DstPort u = 5351 →
  udp_Payload u = 0 :: rest →
  let srcIP := (AddrFromSlice (ip_SrcIP v4)).1 in
  let dstIP := (AddrFromSlice (ip_DstIP v4)).1 in
  dstIP = Prefix_Addr (net_lanIP netw) ∨ dstIP = IPv4Unspecified →
  (∀ a b c d,
     rest = [0] → net_wanIP netw = Addr4 a b c d →
     let t := uint32_of now in
     let reply := [0; 128; 0; 0;
                   (t ≫ 24) mod 256; (t ≫ 16) mod 256; (t ≫ 8) mod 256; t mod 256;
                   a; b; c; d] in
     length reply = 12%nat
     ∧ HandleEthernetIPv4PacketForRouter fuel n ep now s
       = WriteUDPPacketNoNAT n
           (mkUDPPacket (AddrPortFrom dstIP 5351) (AddrPortFrom srcIP (udp_SrcPort u)) reply) s)
  ∧ (rest ≠ [0] → HandleEthernetIPv4PacketForRouter fuel n ep now s = Ret ((), s, [])).
Proof.
  intros Hn Hip Hudp Higmp Hport Hpay srcIP dstIP Hlocal.
  assert (Hrun : HandleEthernetIPv4PacketForRouter fuel n ep now s
                 = handleNATPMPRequest n
                     (mkUDPPacket (AddrPortFrom srcIP (udp_SrcPort u))
                                  (AddrPortFrom dstIP 5351) (udp_Payload u)) now s).
  { unfold HandleEthernetIPv4PacketForRouter. rewrite Hip.
    rewrite (bind_getNet _ _ _ _ Hn).
    unfold isDHCPRequest, isMDNSQuery, isIGMP, isDNSRequest, isNATPMP.
    rewrite Hip, Hudp, Higmp, Hport, Hpay. simpl. fold srcIP dstIP.
    assert (Hfw : bool_decide (dstIP ≠ Prefix_Addr (net_lanIP netw))
                  && bool_decide (dstIP ≠ IPv4Unspecified) = false).
    { destruct Hlocal as [Hl|Hl].
      - rewrite (bool_decide_eq_false_2 (dstIP ≠ Prefix_Addr _)); [done|].
        intros Hc. by apply Hc.
      - rewrite (bool_decide_eq_false_2 (dstIP ≠ IPv4Unspecified)); [apply andb_false_r|].
        intros Hc. by apply Hc. }
    rewrite Hfw. simpl. rewrite ?andb_false_r. simpl.
    by destruct (bool_decide (ip_Protocol v4 ≠ IPProtocolUDP)). }
  rewrite Hrun. unfold handleNATPMPRequest. simpl. rewrite Hpay. split.
  - intros a b c d -> Hwan. split; [reflexivity|].
    rewrite bool_decide_eq_true_2 by done.
    rewrite (bind_getNet _ _ _ _ Hn). unfold natpmpReplyPayload. by rewrite Hwan.
  - intros Hrest. rewrite bool_decide_eq_false_2; [done|]. congruence.
Qed.

End NATPMPClaims.

(** ** The router on concrete packets *)

Section RouterRuns.
Import Sample Examples ExampleNets ExamplePackets ExampleUDP.

Lemma tcp_interception_witness :
  HandleEthernetIPv4PacketForRouter 2 0 (pktTCP [52; 52; 0; 1] 443) 0 connected2
  = Ret ((), connected2, [EInject 0 [69; 0; 1; 2; 3]])
  ∧ HandleEthernetIPv4PacketForRouter 2 0 (pktTCP [8; 8; 8; 8] 443) 0 connected2
    = Ret ((), connected2, []).
Proof.
  assert (Hlan : ∀ a b c d, Addr4 a b c d ≠ Addr4 192 168 0 0 →
                            Addr4 a b c d ≠ Prefix_Addr (net_lanIP net2)) by (intros; done).
  split.
  - apply (proj1 (tcp_interception 2 0 (pktTCP [52; 52; 0; 1] 443) 0 connected2 net2
                    _ (mkTCP 50000 443) 52 52 0 1
                    connected2_net eq_refl eq_refl eq_refl eq_refl eq_refl
                    ltac:(discriminate) ltac:(discriminate))).
    right. left. split; [by left | by right].
  - apply (proj2 (tcp_interception 2 0 (pktTCP [8; 8; 8; 8] 443) 0 connected2 net2
                    _ (mkTCP 50000 443) 8 8 8 8
                    connected2_net eq_refl eq_refl eq_refl eq_refl eq_refl
                    ltac:(discriminate) ltac:(discriminate))).
    intros [Hp|[[[Hip|Hderp] _]|[Hip _]]]; discriminate.
Defined.

Lemma routeUDPPacket_stun_witness :
  routeUDPPacket 3 stunRequest 0 connected2
  = routeUDPPacket 2
      (mkUDPPacket (mkAddrPort (Addr4 1 2 3 4) 3478) (mkAddrPort (Addr4 2 0 0 1) 40000)
                   (response (replicate 12 7) (mkAddrPort (Addr4 2 0 0 1) 40000)))
      0 connected2
  ∧ routeUDPPacket 1 strayPacket 0 connected2 = Ret ((), connected2, []).
Proof.
  split.
  - exact (proj1 (proj2 (proj1 (routeUDPPacket_stun 2 stunRequest 0 connected2)
                           (replicate 12 7) eq_refl eq_refl))).
  - apply (proj2 (routeUDPPacket_stun 0 strayPacket 0 connected2)).
    + discriminate.
    + vm_compute. reflexivity.
Defined.

Lemma natpmp_public_address_witness :
  HandleEthernetIPv4PacketForRouter 2 0 (pktUDP [192; 168; 0; 0] 5351 [0; 0]) 1700000000
    connected2
  = WriteUDPPacketNoNAT 0
      (mkUDPPacket (mkAddrPort (Addr4 192 168 0 0) 5351)
                   (mkAddrPort (Addr4 192 168 0 101) 40000)
                   [0; 128; 0; 0; 101; 83; 241; 0; 2; 0; 0; 1])
      connected2.
Proof.
  exact (proj2 (proj1 (natpmp_public_address 2 0 (pktUDP [192; 168; 0; 0] 5351 [0; 0])
                         1700000000 connected2 net2 _ _ [0]
                         connected2_net eq_refl eq_refl eq_refl eq_refl eq_refl
                         (or_introl eq_refl))
                      2 0 0 1 eq_refl eq_refl)).
Defined.

(** The reply of that run reaches node A, whose address the request came
    from. *)
Lemma natpmp_reply_delivered :
  copies_to macA
    (effects_of (HandleEthernetPacket 2 0 (pktUDP [192; 168; 0; 0] 5351 [0; 0]) 1700000000
                   connected2)) = 1%nat.
Proof. vm_compute. reflexivity. Qed.

(** C8 as stated fails on a datagram to 8.8.8.8:5351 with the payload
    [00 00]: the router is to forward it, so it is translated and routed on
    the WAN, where no network owns 8.8.8.8; no reply is written. *)
Lemma natpmp_not_answered_when_forwarded :
  let ep := pktUDP [8; 8; 8; 8] 5351 [0; 0] in
  isNATPMP (gp ep) = true
  ∧ HandleEthernetIPv4PacketForRouter 2 0 ep 1700000000 connected2
    = Ret ((), connected2, [])
  ∧ HandleEthernetPacket 2 0 ep 1700000000 connected2 = Ret ((), connected2, []).
Proof. repeat split; vm_compute; reflexivity. Qed.

End RouterRuns.

(** ** Guest transports *)

Lemma acceptable_Some (p : Packet) ep m :
  acceptable p = Some (ep, m) →
  ∃ le, LinkLayer p = Some le ∧ ep = mkEthernetPacket le p
        ∧ length (eth_SrcMAC le) = 6%nat ∧ length (eth_DstMAC le) = 6%nat
        ∧ SrcMAC ep = Some m.
Proof.
  unfold acceptable. destruct (LinkLayer p) as [l|]; [|discriminate].
  case_bool_decide as H1; [discriminate|]. case_bool_decide as H2; [discriminate|].
  simpl. destruct (MAC_of_slice (eth_SrcMAC l)) as [m'|] eqn:Hm; [|discriminate].
  intros [= <- <-]. exists l. repeat split; try done.
  all: match goal with |- ?a = ?b => by destruct (decide (a = b)) end.
Qed.

Lemma lockedFrames_src (mac : MAC) (proto : Protocol) (evs : list ReadEvent) :
  Forall (λ f, SrcMAC f.1 = Some mac) (lockedFrames mac proto evs).1.
Proof.
  induction evs as [|[|p now] evs IH]; simpl.
  - constructor.
  - destruct proto; [constructor|exact IH].
  - destruct (acceptable p) as [[ep m]|] eqn:Hacc; [|exact IH].
    case_bool_decide as Hm; [|exact IH]. subst m. simpl. constructor; [|exact IH].
    by destruct (acceptable_Some _ _ _ Hacc) as (l & _ & _ & _ & _ & ?).
Qed.

Lemma firstKnown_Some (byMAC : gmap MAC node) (proto : Protocol) (evs : list ReadEvent)
    before nd m ep now rest :
  firstKnown byMAC proto evs = Some (before, (nd, m, ep, now), rest) →
  evs = before ++ ReadFrame (gp ep) now :: rest
  ∧ Forall (passedOver byMAC) before
  ∧ acceptable (gp ep) = Some (ep, m)
  ∧ SrcMAC ep = Some m
  ∧ byMAC !! m = Some nd.
Proof.
  revert before. induction evs as [|[|p t] evs IH]; intros before; simpl.
  - discriminate.
  - destruct proto; [discriminate|].
    destruct (firstKnown byMAC ProtocolUnixDGRAM evs) as [[[b f] r]|]; [|discriminate].
    intros [= <- -> ->]. destruct (IH _ eq_refl) as (-> & Hb & Hrest).
    split; [done|]. split; [by constructor|done].
  - assert (Hskip : passedOver byMAC (ReadFrame p t) →
        match firstKnown byMAC proto evs with
        | Some (before0, f, rest0) => Some (ReadFrame p t :: before0, f, rest0)
        | None => None
        end = Some (before, (nd, m, ep, now), rest) →
        ReadFrame p t :: evs = before ++ ReadFrame (gp ep) now :: rest
        ∧ Forall (passedOver byMAC) before
        ∧ acceptable (gp ep) = Some (ep, m) ∧ SrcMAC ep = Some m ∧ byMAC !! m = Some nd).
    { intros Hp. destruct (firstKnown byMAC proto evs) as [[[b f] r]|]; [|discriminate].
      intros [= <- -> ->]. destruct (IH _ eq_refl) as (-> & Hb & Hrest).
      split; [done|]. split; [by constructor|done]. }
    destruct (acceptable p) as [[ep' m']|] eqn:Hacc.
    + destruct (byMAC !! m') as [nd'|] eqn:Hnd.
      * intros [= <- <- <- <- <- <-].
        destruct (acceptable_Some _ _ _ Hacc) as (l & Hl & -> & _ & _ & Hsrc).
        simpl. by repeat split.
      * apply Hskip. simpl. by rewrite Hacc.
    + apply Hskip. simpl. by rewrite Hacc.
Qed.

Section Session.
Context {T : Type} `{Ext : External T}.
Variable handle : nat → EthernetPacket → Z → M T ().
Variable w : Writer.
Variable proto : Protocol.

(** One iteration of the read loop on a frame, by the outcome of its
    checks. *)
Lemma serveLoop_frame (p : Packet) (now : Z) (evs : list ReadEvent)
    (locked : option (node * MAC)) (s : Server T) :
  serveLoop handle w proto (ReadFrame p now :: evs) locked s
  = match acceptable p with
    | None => serveLoop handle w proto evs locked s
    | Some (ep, srcMAC) =>
        match locked with
        | None =>
            match nodeByMAC s !! srcMAC with
            | None => serveLoop handle w proto evs None s
            | Some srcNode =>
                (let* _ := registerWriter (node_net srcNode) srcMAC (Some w) in
                 let* _ := handle (node_net srcNode) ep now in
                 serveLoop handle w proto evs (Some (srcNode, srcMAC))) s
            end
        | Some (srcNode, _) =>
            if bool_decide (srcMAC ≠ node_mac srcNode)
            then serveLoop handle w proto evs locked s
            else (let* _ := handle (node_net srcNode) ep now in
                  serveLoop handle w proto evs locked) s
        end
    end.
Proof.
  unfold acceptable. simpl. destruct (LinkLayer p) as [l|]; [|done].
  case_bool_decide as H1; [done|]. case_bool_decide as H2; [done|]. simpl.
  assert (Hlen : length (eth_SrcMAC l) = 6%nat)
    by (by destruct (decide (length (eth_SrcMAC l) = 6%nat))).
  destruct (MAC_of_slice_len6 _ Hlen) as (m & Hm & _).
  unfold SrcMAC. simpl. rewrite Hm.
  destruct locked as [[srcNode m0]|]; [by case_bool_decide|].
  rewrite bind_getServer. by destruct (nodeByMAC s !! m).
Qed.

(** Once locked, the loop hands exactly the frames from the node's MAC to
    the handler, in order, and unregisters the writer when the session
    ends. *)
Lemma serveLoop_locked (evs : list ReadEvent) (srcNode : node) (srcMAC : MAC)
    (s : Server T) :
  serveLoop handle w proto evs (Some (srcNode, srcMAC)) s
  = (let* _ := forM_ (lockedFrames (node_mac srcNode) proto evs).1
                     (λ f, handle (node_net srcNode) f.1 f.2) in
     if (lockedFrames (node_mac srcNode) proto evs).2
     then registerWriter (node_net srcNode) srcMAC None
     else ret ()) s.
Proof.
  revert s. induction evs as [|[|p now] evs IH]; intros s.
  - reflexivity.
  - simpl. destruct proto.
    + simpl. by rewrite bind_ret_l.
    + apply IH.
  - rewrite serveLoop_frame. simpl.
    destruct (acceptable p) as [[ep m]|]; [|apply IH].
    destruct (decide (m = node_mac srcNode)) as [->|Hne].
    + rewrite bool_decide_eq_false_2 by (intros Hc; by apply Hc).
      rewrite bool_decide_eq_true_2 by done. simpl.
      rewrite bind_assoc. apply bind_ext. intros [] s'. apply IH.
    + rewrite bool_decide_eq_true_2 by done.
      rewrite bool_decide_eq_false_2 by done. apply IH.
Qed.

(** C3.  A guest session locks onto the source MAC of the first frame
    that passes the checks and comes from a node's MAC: it registers the
    connection's writer for that MAC on the node's network and hands the
    frame to the router.  From then on exactly the frames with that source
    MAC are handed to the router; every other frame is passed over.  Before
    the lock no frame is handed to the router and no writer is
    registered. *)
Theorem serve_locks_on_first_known_mac (evs : list ReadEvent) (s : Server T) :
  nodeByMAC_keyed s →
  match firstKnown (nodeByMAC s) proto evs with
  | None => serveLoop handle w proto evs None s = Ret ((), s, [])
  | Some (before, (srcNode, srcMAC, ep, now), rest) =>
      evs = before ++ ReadFrame (gp ep) now :: rest
      ∧ Forall (passedOver (nodeByMAC s)) before
      ∧ SrcMAC ep = Some srcMAC
      ∧ nodeByMAC s !! srcMAC = Some srcNode
      ∧ Forall (λ f, SrcMAC f.1 = Some srcMAC) (lockedFrames srcMAC proto rest).1
      ∧ serveLoop handle w proto evs None s
        = (let* _ := registerWriter (node_net srcNode) srcMAC (Some w) in
           let* _ := handle (node_net srcNode) ep now in
           let* _ := forM_ (lockedFrames srcMAC proto rest).1
                           (λ f, handle (node_net srcNode) f.1 f.2) in
           if (lockedFrames srcMAC proto rest).2
           then registerWriter (node_net srcNode) srcMAC None
           else ret ()) s
  end.
Proof.
  intros Hkeyed.
  destruct (firstKnown (nodeByMAC s) proto evs) as [[[before [[[srcNode srcMAC] ep] now]] rest]|]
    eqn:Hfirst.
  - destruct (firstKnown_Some _ _ _ _ _ _ _ _ _ Hfirst) as (Hevs & Hbefore & Hacc & Hsrc & Hnd).
    repeat split; try done; [apply lockedFrames_src|].
    pose proof (Hkeyed _ _ Hnd) as Hmac.
    clear Hevs Hbefore. revert before Hfirst.
    induction evs as [|[|p t] evs IH]; intros before; simpl firstKnown.
    + discriminate.
    + destruct proto; [discriminate|].
      destruct (firstKnown (nodeByMAC s) ProtocolUnixDGRAM evs) as [[[b f] r]|] eqn:E;
        [|discriminate].
      intros [= <- -> ->]. simpl. by eapply IH.
    + rewrite serveLoop_frame.
      destruct (acceptable p) as [[ep' m']|] eqn:Hacc'.
      * destruct (nodeByMAC s !! m') as [nd'|] eqn:Hnd'.
        -- intros [= <- <- <- <- <- <-].
           apply bind_ext. intros [] s1. apply bind_ext. intros [] s2.
           rewrite serveLoop_locked. by rewrite Hmac.
        -- destruct (firstKnown (nodeByMAC s) proto evs) as [[[b f] r]|] eqn:E;
             [|discriminate].
           intros [= <- -> ->]. by eapply IH.
      * destruct (firstKnown (nodeByMAC s) proto evs) as [[[b f] r]|] eqn:E;
          [|discriminate].
        intros [= <- -> ->]. by eapply IH.
  - revert Hfirst. induction evs as [|[|p t] evs IH]; simpl firstKnown.
    + reflexivity.
    + destruct proto; [reflexivity|].
      destruct (firstKnown (nodeByMAC s) ProtocolUnixDGRAM evs) as [[[b f] r]|] eqn:E;
        [discriminate|].
      intros _. simpl. by apply IH.
    + rewrite serveLoop_frame.
      destruct (acceptable p) as [[ep' m']|] eqn:Hacc'.
      * destruct (nodeByMAC s !! m') as [nd'|] eqn:Hnd'; [discriminate|].
        destruct (firstKnown (nodeByMAC s) proto evs) as [[[b f] r]|] eqn:E;
          [discriminate|].
        intros _. by apply IH.
      * destruct (firstKnown (nodeByMAC s) proto evs) as [[[b f] r]|] eqn:E;
          [discriminate|].
        intros _. by apply IH.
Qed.

End Session.

Lemma server_wf_keyed {T} (s : Server T) : server_wf s → nodeByMAC_keyed s.
Proof. intros [W1 _] m nd Hnd. by destruct (W1 _ _ Hnd). Qed.

Section SessionRuns.
Import Sample Examples ExampleSession.

Lemma server2_started : initFromConfig Server_empty conf2 = Ok server2.
Proof. vm_compute. reflexivity. Qed.

Lemma server2_keyed : nodeByMAC_keyed server2.
Proof.
  apply server_wf_keyed.
  exact (initFromConfig_wf _ _ _ server2_started server_wf_empty).
Qed.

Lemma serve_locks_on_first_known_mac_witness :
  nodeByMAC_keyed server2
  ∧ serveLoop (HandleEthernetPacket 2) 1%nat ProtocolUnixDGRAM reads None server2
    = (let* _ := registerWriter 0 macA (Some 1%nat) in
       let* _ := HandleEthernetPacket 2 0 (epFrom macA) 1 in
       let* _ := forM_ [(epFrom macA, 3)] (λ f, HandleEthernetPacket 2 0 f.1 f.2) in
       ret ()) server2.
Proof.
  split; [exact server2_keyed|].
  pose proof (serve_locks_on_first_known_mac (HandleEthernetPacket 2) 1%nat
                ProtocolUnixDGRAM reads server2 server2_keyed) as H.
  assert (Hfirst : firstKnown (nodeByMAC server2) ProtocolUnixDGRAM reads
                   = Some ([ReadFrame (frameFrom macStranger) 0],
                           (mkNode macA 0 (Addr4 192 168 0 101), macA, epFrom macA, 1),
                           [ReadFrame (frameFrom macB) 2; ReadFrame (frameFrom macA) 3]))
    by (vm_compute; reflexivity).
  rewrite Hfirst in H. destruct H as (_ & _ & _ & _ & _ & Hrun).
  exact Hrun.
Defined.

End SessionRuns.

(** ** The agent registry *)

Module AgentFacts.
Import Agent.

(** [takeAgentConnOne] returns a member of the set that belongs to the
    node asked for and removes exactly that member; when it returns
    nothing the state is as before. *)
Lemma takeAgentConnOne_Some order s n ac s' :
  takeAgentConnOne order s n = (Some ac, s') →
  (∃ obj, agentConns s !! ac = Some obj ∧ ac_node obj = n)
  ∧ agentConns s' = delete ac (agentConns s)
  ∧ agentConnWaiter s' = agentConnWaiter s.
Proof.
  unfold takeAgentConnOne. induction order as [|x order IH]; simpl; [discriminate|].
  destruct (agentConns s !! x) as [obj|] eqn:Hx; [|exact IH].
  case_bool_decide as Hn; [|exact IH].
  intros [= <- <-]. simpl. eauto.
Qed.

Lemma takeAgentConnOne_None order s n s' :
  takeAgentConnOne order s n = (None, s') →
  s' = s ∧ ∀ ac obj, ac ∈ order → agentConns s !! ac = Some obj → ac_node obj ≠ n.
Proof.
  unfold takeAgentConnOne. induction order as [|x order IH]; simpl.
  - intros [= <-]. split; [done|]. intros ac obj Hin. by apply not_elem_of_nil in Hin.
  - destruct (agentConns s !! x) as [obj|] eqn:Hx.
    + case_bool_decide as Hn; [discriminate|]. intros Hr.
      destruct (IH Hr) as [-> Hall]. split; [done|].
      intros ac obj' [->|Hin]%elem_of_cons Hac; [congruence|by eapply Hall].
    + intros Hr. destruct (IH Hr) as [-> Hall]. split; [done|].
      intros ac obj' [->|Hin]%elem_of_cons Hac; [congruence|by eapply Hall].
Qed.

(** Whatever a run returns or leaves in the set was in the set at the
    beginning or was added during the run. *)
Lemma run_origin (ops : list Op) :
  ∀ s ac, ac ∈ (run ops s).1 ∨ is_Some (agentConns (run ops s).2 !! ac) →
          is_Some (agentConns s !! ac) ∨ ac ∈ added ops.
Proof.
  induction ops as [|[a obj|n order|n ready] ops IH]; intros s ac; simpl.
  - intros [Hin|?]; [by apply not_elem_of_nil in Hin|by left].
  - intros H. destruct (IH _ _ H) as [Hs|?]; [|right; by right].
    simpl in Hs. destruct (decide (a = ac)) as [->|Hne]; [right; by left|].
    rewrite lookup_insert_ne in Hs by done. by left.
  - destruct (takeAgentConnOne order s n) as [[x|] s1] eqn:Htake.
    + destruct (takeAgentConnOne_Some _ _ _ _ _ Htake) as ((obj & Hx & _) & Hdel & _).
      destruct (run ops s1) as [rs s2] eqn:Hrun. simpl.
      intros [[->|Hin]%elem_of_cons|Hs2].
      * left. by eexists.
      * destruct (IH s1 ac) as [Hs|?]; [rewrite Hrun; by left| |by right].
        rewrite Hdel in Hs. left. destruct (decide (x = ac)) as [->|Hne].
        -- by rewrite lookup_delete_eq in Hs; destruct Hs.
        -- by rewrite lookup_delete_ne in Hs.
      * destruct (IH s1 ac) as [Hs|?]; [rewrite Hrun; by right| |by right].
        rewrite Hdel in Hs. left. destruct (decide (x = ac)) as [->|Hne].
        -- by rewrite lookup_delete_eq in Hs; destruct Hs.
        -- by rewrite lookup_delete_ne in Hs.
    + destruct (takeAgentConnOne_None _ _ _ _ Htake) as [-> _]. apply IH.
  - intros H. by destruct (IH _ _ H) as [Hs|?]; [left|right].
Qed.

(** C10.  The critical sections of [addIdleAgentConn] and
    [takeAgentConnOne] run one at a time under the server-wide mutex.  In
    every such run in which each connection is added once, no connection
    is returned by two calls of [takeAgentConnOne], so no two
    [takeAgentConn] calls return the same one; a returned connection is no
    longer in the set, and a connection that was not returned is still in
    it. *)
Theorem agent_conn_taken_at_most_once (ops : list Op) (s : AgentState) :
  NoDup (added ops) →
  (∀ ac, ac ∈ added ops → agentConns s !! ac = None) →
  NoDup (run ops s).1
  ∧ (∀ ac, ac ∈ (run ops s).1 → agentConns (run ops s).2 !! ac = None)
  ∧ (∀ ac, is_Some (agentConns s !! ac) ∨ ac ∈ added ops →
           ac ∉ (run ops s).1 → is_Some (agentConns (run ops s).2 !! ac)).
Proof.
  revert s. induction ops as [|[a obj|n order|n ready] ops IH]; intros s Hnd Hfresh; simpl.
  - split; [constructor|]. split.
    + intros ac Hin. by apply not_elem_of_nil in Hin.
    + intros ac [?|Hin] _; [done|by apply not_elem_of_nil in Hin].
  - simpl in Hnd. apply NoDup_cons in Hnd as [Ha Hnd].
    destruct (IH (addIdleAgentConn s a obj).2 Hnd) as (H1 & H2 & H3).
    { intros ac Hin. simpl. rewrite lookup_insert_ne; [|intros ->; done].
      apply Hfresh. by right. }
    split; [done|]. split; [done|].
    intros ac Hac Hnot. apply H3; [|done]. simpl.
    destruct (decide (a = ac)) as [->|Hne]; [left; by rewrite lookup_insert_eq|].
    rewrite lookup_insert_ne by done.
    destruct Hac as [?|[->|?]%elem_of_cons]; [by left|done|by right].
  - simpl in Hnd.
    destruct (takeAgentConnOne order s n) as [[x|] s1] eqn:Htake.
    + destruct (takeAgentConnOne_Some _ _ _ _ _ Htake) as ((obj & Hx & _) & Hdel & _).
      assert (Hfresh1 : ∀ ac, ac ∈ added ops → agentConns s1 !! ac = None).
      { intros ac Hin. rewrite Hdel. destruct (decide (x = ac)) as [->|Hne].
        - apply lookup_delete_eq.
        - rewrite lookup_delete_ne by done. by apply Hfresh. }
      assert (Hgone : ¬ (is_Some (agentConns s1 !! x) ∨ x ∈ added ops)).
      { intros [Hs|Hin].
        - rewrite Hdel, lookup_delete_eq in Hs. by destruct Hs.
        - specialize (Hfresh _ Hin). congruence. }
      destruct (IH s1 Hnd Hfresh1) as (H1 & H2 & H3).
      pose proof (run_origin ops s1 x) as Horigin.
      destruct (run ops s1) as [rs s2] eqn:Hrun. simpl in *.
      split; [|split].
      * apply NoDup_cons. split; [|done]. intros Hin. apply Hgone, Horigin. by left.
      * intros ac [Heq|Hin]%elem_of_cons; [subst ac|by apply H2].
        destruct (agentConns s2 !! x) eqn:E; [|done].
        exfalso. apply Hgone, Horigin. right. by eexists.
      * intros ac Hac Hnot. apply not_elem_of_cons in Hnot as [Hne Hnot].
        apply H3; [|done]. destruct Hac as [Hs|?]; [left|by right].
        by rewrite Hdel, lookup_delete_ne.
    + destruct (takeAgentConnOne_None _ _ _ _ Htake) as [-> _]. by apply IH.
  - simpl in Hnd. by apply (IH (setWaiter s n ready)).
Qed.

End AgentFacts.

Ltac not_in_list :=
  let H := fresh in
  intros H; repeat (apply elem_of_cons in H as [H|H]; [discriminate H|]);
  by apply elem_of_nil in H.

Section AgentRuns.
Import Agent AgentFacts ExampleAgent.

Lemma agent_conn_taken_at_most_once_witness :
  NoDup (added ops)
  ∧ (run ops idle).1 = [10; 12]%nat
  ∧ NoDup (run ops idle).1
  ∧ is_Some (agentConns (run ops idle).2 !! 11%nat).
Proof.
  assert (Hnd : NoDup (added ops)).
  { simpl. repeat (apply NoDup_cons; split; [not_in_list|]). apply NoDup_nil_2. }
  assert (Hfresh : ∀ ac, ac ∈ added ops → agentConns idle !! ac = None)
    by (intros ac _; apply lookup_empty).
  assert (Hrets : (run ops idle).1 = [10; 12]%nat) by reflexivity.
  destruct (agent_conn_taken_at_most_once ops idle Hnd Hfresh) as (H1 & _ & H3).
  split; [exact Hnd|]. split; [exact Hrets|]. split; [exact H1|].
  apply H3.
  - right. simpl. apply elem_of_cons. right. apply elem_of_cons. by left.
  - rewrite Hrets. not_in_list.
Defined.

End AgentRuns.

(** ** The router writes unicast frames only *)

Lemma HWAddr_inj (m m' : MAC) : HWAddr m = HWAddr m' → m = m'.
Proof. destruct m, m'. by intros [= -> -> -> -> -> ->]. Qed.

Section UnicastOnly.
Context {T : Type} `{Ext : External T}.
Hypothesis Hheader : ethernet_header_first.

Lemma unicast_only_ret {A} (a : A) (s : Server T) :
  nodes_unicast s → unicast_only (ret a s).
Proof. intros Hs. split; [constructor|]. by intros a' s' e [= _ <- _]. Qed.

Lemma unicast_only_stop {A} (o : Outcome (A * Server T * list Effect)) :
  effects_of o = [] → (∀ a s' e, o ≠ Ret (a, s', e)) → unicast_only o.
Proof.
  intros He Hne. split; [rewrite He; constructor|].
  intros a s' e Hr. by destruct (Hne a s' e).
Qed.

Lemma unicast_only_bind {A B} (m : M T A) (f : A → M T B) (s : Server T) :
  unicast_only (m s) →
  (∀ a s', nodes_unicast s' → unicast_only (f a s')) →
  unicast_only (bind m f s).
Proof.
  intros [Hm Hs] Hf. unfold bind.
  destruct (m s) as [[[a s1] e1]|e1|e1]; simpl in *.
  - destruct (Hf a s1 (Hs _ _ _ eq_refl)) as [Hf1 Hf2].
    destruct (f a s1) as [[[b s2] e2]|e2|e2]; simpl in *.
    + split; [by apply Forall_app|]. intros ? ? ? [= <- <- <-]. by eapply Hf2.
    + split; [by apply Forall_app|]. discriminate.
    + split; [by apply Forall_app|]. discriminate.
  - split; [done|discriminate].
  - split; [done|discriminate].
Qed.

Lemma unicast_only_getNet {B} n (f : network T → M T B) (s : Server T) :
  nodes_unicast s →
  (∀ netw, networks s !! n = Some netw → unicast_only (f netw s)) →
  unicast_only (bind (getNet n) f s).
Proof.
  intros Hs Hf. destruct (networks s !! n) as [netw|] eqn:Hn.
  - rewrite (bind_getNet _ _ _ _ Hn). by apply Hf.
  - unfold bind, getNet. rewrite Hn. split; [constructor|discriminate].
Qed.

Lemma nodes_unicast_natTable (s : Server T) n netw t :
  nodes_unicast s → networks s !! n = Some netw →
  nodes_unicast (mkServer (derpIPs s) (nodes s) (nodeByMAC s)
                          (<[n := set_natTable netw t]> (networks s)) (networkByWAN s)).
Proof.
  intros Hs Hn i netw' ip nd Hi Hnd. simpl in Hi.
  destruct (decide (i = n)) as [->|Hne].
  - rewrite list_lookup_insert_eq in Hi by (by eapply lookup_lt_Some).
    injection Hi as <-. by eapply (Hs n netw).
  - rewrite list_lookup_insert_ne in Hi by done. by eapply Hs.
Qed.

Lemma unicast_only_writeEth n res (s : Server T) :
  nodes_unicast s →
  (length res < 12)%nat ∨ take 6 res ≠ HWAddr MAC_broadcast →
  unicast_only (writeEth n res s).
Proof.
  intros Hs Hres. unfold writeEth. case_bool_decide as Hlen; [by apply unicast_only_ret|].
  destruct Hres as [?|Hres]; [lia|].
  destruct (MAC_of_slice (take 6 res)) as [dstMAC|] eqn:Hd;
    [|split; [constructor|discriminate]].
  destruct (MAC_of_slice (take 6 (drop 6 res))) as [srcMAC|];
    [|split; [constructor|discriminate]].
  apply unicast_only_getNet; [done|]. intros netw Hn.
  unfold IsBroadcast. rewrite bool_decide_eq_false_2.
  - case_bool_decide; [by apply unicast_only_ret|].
    destruct (net_writeFunc netw !! dstMAC); [|by apply unicast_only_ret].
    split; [by repeat constructor|]. by intros ? ? ? [= _ <- _].
  - intros ->. by apply MAC_of_slice_take6 in Hd.
Qed.

Lemma unicast_only_serialized n eth rest (s : Server T) :
  nodes_unicast s →
  length (eth_DstMAC eth) = 6%nat →
  eth_DstMAC eth ≠ HWAddr MAC_broadcast →
  unicast_only (writeResult n (serialize (LEthernet eth :: rest)) s).
Proof.
  intros Hs Hlen Hdst. unfold serialize.
  destruct (SerializeLayers (LEthernet eth :: rest)) as [b|] eqn:Hb; simpl.
  - apply unicast_only_writeEth; [done|]. right. by rewrite (Hheader _ _ _ Hlen Hb).
  - by apply unicast_only_ret.
Qed.

Lemma unicast_only_WriteUDPPacketNoNAT n p (s : Server T) :
  nodes_unicast s → unicast_only (WriteUDPPacketNoNAT n p s).
Proof.
  intros Hs. unfold WriteUDPPacketNoNAT.
  apply unicast_only_getNet; [done|]. intros netw Hn.
  destruct (net_nodesByIP netw !! ap_addr (Dst p)) as [nd|] eqn:Hnd;
    [|by apply unicast_only_ret].
  pose proof (unicast_only_serialized n
    (mkEthernet (HWAddr (net_mac netw)) (HWAddr (node_mac nd)) EthernetTypeIPv4)
    [LIPv4 (mkIPv4 4 64 IPProtocolUDP (AsSlice (ap_addr (Src p)))
                   (AsSlice (ap_addr (Dst p))) [] []);
     LUDP (mkUDP (ap_port (Src p)) (ap_port (Dst p)) []); LPayload (Payload p)] s Hs
    eq_refl) as Hser.
  unfold writeResult in Hser.
  destruct (serialize _) as [b| |].
  - apply Hser. simpl. intros Heq%HWAddr_inj. by eapply Hs.
  - by apply unicast_only_ret.
  - by apply unicast_only_ret.
Qed.

Lemma unicast_only_doNAT {B} n (pick : T → AddrPort * T) (f : AddrPort → M T B)
    (s : Server T) :
  nodes_unicast s →
  (∀ a s', nodes_unicast s' → unicast_only (f a s')) →
  unicast_only
    (bind (let* netw := getNet n in
           match net_natTable netw with
           | None => panic
           | Some t =>
               let '(a, t') := pick t in
               let* _ := setNet n (set_natTable netw (Some t')) in
               ret a
           end) f s).
Proof.
  intros Hs Hf. apply unicast_only_bind; [|done].
  apply unicast_only_getNet; [done|]. intros netw Hn.
  destruct (net_natTable netw) as [t|]; [|split; [constructor|discriminate]].
  destruct (pick t) as [a t']. split; [constructor|].
  intros ? ? ? [= _ <- _]. by apply nodes_unicast_natTable.
Qed.

Lemma unicast_only_HandleUDPPacket n p now (s : Server T) :
  nodes_unicast s → unicast_only (HandleUDPPacket n p now s).
Proof.
  intros Hs. unfold HandleUDPPacket, doNATIn.
  apply (unicast_only_doNAT n (λ t, PickIncomingDst t (Src p) (Dst p) now)); [done|].
  intros dst s' Hs'. destruct (negb (AddrPort_IsValid dst)); [by apply unicast_only_ret|].
  by apply unicast_only_WriteUDPPacketNoNAT.
Qed.

Lemma unicast_only_routeUDPPacket fuel up now (s : Server T) :
  nodes_unicast s → unicast_only (routeUDPPacket fuel up now s).
Proof.
  revert up. induction fuel as [|fuel IH]; intros up Hs; simpl.
  - split; [constructor|discriminate].
  - case_bool_decide.
    + destruct (makeSTUNReply up) as [res [|]]; [by apply IH|by apply unicast_only_ret].
    + rewrite bind_getServer.
      destruct (networkByWAN s !! ap_addr (Dst up)); [|by apply unicast_only_ret].
      by apply unicast_only_HandleUDPPacket.
Qed.

Lemma unicast_only_handleNATPMPRequest n req now (s : Server T) :
  nodes_unicast s → unicast_only (handleNATPMPRequest n req now s).
Proof.
  intros Hs. unfold handleNATPMPRequest. case_bool_decide; [|by apply unicast_only_ret].
  apply unicast_only_getNet; [done|]. intros netw Hn.
  destruct (natpmpReplyPayload _ _); [|split; [constructor|discriminate]].
  by apply unicast_only_WriteUDPPacketNoNAT.
Qed.

(** The replies and forwarded packets of the router for a frame whose
    source MAC is a six-byte unicast address are unicast frames. *)
Lemma unicast_only_router fuel n ep now (s : Server T) :
  nodes_unicast s →
  (∀ l, Layer_Ethernet (gp ep) = Some l →
        length (eth_SrcMAC l) = 6%nat ∧ eth_SrcMAC l ≠ HWAddr MAC_broadcast) →
  unicast_only (HandleEthernetIPv4PacketForRouter fuel n ep now s).
Proof.
  intros Hs Hsrc. unfold HandleEthernetIPv4PacketForRouter.
  destruct (Layer_IPv4 (gp ep)) as [v4|] eqn:Hip; [|by apply unicast_only_ret].
  apply unicast_only_getNet; [done|]. intros netw Hn.
  destruct (isDHCPRequest (gp ep)).
  { rewrite bind_getServer. unfold createDHCPResponse, dhcpReply.
    destruct (Layer_Ethernet (gp ep)) as [l|] eqn:Hl;
      [|split; [constructor|discriminate]].
    destruct (Hsrc l eq_refl) as [Hlen Hne].
    destruct (macOf (eth_SrcMAC l)) as [srcMAC [|]]; simpl;
      [|by apply unicast_only_writeEth; [|left; simpl; lia]].
    destruct (nodeByMAC s !! srcMAC) as [nd|];
      [|by apply unicast_only_writeEth; [|left; simpl; lia]].
    destruct (networks s !! node_net nd) as [netw'|];
      [|split; [constructor|discriminate]].
    rewrite Hip.
    destruct (Layer_UDP (gp ep)); [|split; [constructor|discriminate]].
    destruct (Layer_DHCPv4 (gp ep)); [|split; [constructor|discriminate]].
    destruct (dhcpMsgType _); [|split; [constructor|discriminate]].
    by apply unicast_only_serialized. }
  destruct (isMDNSQuery (gp ep) || isIGMP (gp ep)); [by apply unicast_only_ret|].
  destruct (isDNSRequest (gp ep)).
  { unfold createDNSResponse, dnsReply.
    destruct (Layer_Ethernet (gp ep)) as [l|] eqn:Hl;
      [|split; [constructor|discriminate]].
    destruct (Hsrc l eq_refl) as [Hlen Hne]. rewrite Hip.
    destruct (Layer_UDP (gp ep)); [|split; [constructor|discriminate]].
    destruct (Layer_DNS (gp ep)); [|split; [constructor|discriminate]].
    destruct (_ || _); [by apply unicast_only_writeEth; [|left; simpl; lia]|].
    destruct (dnsQuestions _ _); [|by apply unicast_only_writeEth; [|left; simpl; lia]].
    by apply unicast_only_serialized. }
  destruct (negb _ && isNATPMP (gp ep)).
  { destruct (Layer_UDP (gp ep)); [|split; [constructor|discriminate]].
    by apply unicast_only_handleNATPMPRequest. }
  destruct (_ && bool_decide (is_Some (Layer_UDP (gp ep)))).
  { destruct (Layer_UDP (gp ep)) as [u|]; [|split; [constructor|discriminate]].
    unfold doNATOut.
    apply (unicast_only_doNAT n
             (λ t, PickOutgoingSrc t (AddrPortFrom _ (udp_SrcPort u))
                                   (AddrPortFrom _ (udp_DstPort u)) now)); [done|].
    intros src' s' Hs'. by apply unicast_only_routeUDPPacket. }
  rewrite bind_getServer.
  destruct (_ && shouldInterceptTCP s (gp ep)); [|by apply unicast_only_ret].
  split; [by repeat constructor|]. by intros ? ? ? [= _ <- _].
Qed.

Lemma copies_unicast n mac frame es :
  take 6 frame = HWAddr MAC_broadcast → Forall unicast_call es → copies n mac frame es = 0%nat.
Proof.
  intros Hb. induction 1 as [|e es He Hes IH]; [reflexivity|].
  rewrite copies_cons, IH. destruct e as [n' mac' w' f|]; simpl; [|done].
  rewrite bool_decide_eq_false_2; [done|]. intros (_ & _ & ->). simpl in He. contradiction.
Qed.

End UnicastOnly.

(** ** Broadcast on the LAN *)

Section Broadcast.
Context {T : Type} `{Ext : External T}.

(** C1 (as amended).  When a node sends an IPv4 frame to the broadcast
    MAC, every MAC registered on the same network receives exactly one copy
    of the frame, in particular every registered MAC other than the
    sender, and a MAC that is not registered receives none.  (The frame has
    a six-byte unicast source MAC and no node has the broadcast MAC;
    whatever else the router writes while it handles the frame is a unicast
    frame of its own.) *)
Theorem broadcast_exactly_one_copy fuel n ep now (s : Server T) netw :
  ethernet_header_first →
  nodes_unicast s →
  networks s !! n = Some netw →
  DstMAC ep = Some MAC_broadcast →
  eth_EthernetType (le ep) = EthernetTypeIPv4 →
  take 6 (pkt_Data (gp ep)) = eth_DstMAC (le ep) →
  (12 ≤ length (pkt_Data (gp ep)))%nat →
  (∀ l, Layer_Ethernet (gp ep) = Some l →
        length (eth_SrcMAC l) = 6%nat ∧ eth_SrcMAC l ≠ HWAddr MAC_broadcast) →
  ∀ mac,
    copies n mac (pkt_Data (gp ep)) (effects_of (HandleEthernetPacket fuel n ep now s))
    = match net_writeFunc netw !! mac with Some _ => 1%nat | None => 0%nat end.
Proof.
  intros Hheader Hs Hn Hd Hty Hdata Hlen Hsrc mac.
  destruct (HandleEthernetPacket_broadcast fuel n ep now s netw Hn Hd Hty Hdata Hlen)
    as (Heff & _).
  rewrite Heff, copies_app, copies_fanout.
  rewrite (copies_unicast n mac (pkt_Data (gp ep))
             (effects_of (HandleEthernetIPv4PacketForRouter fuel n ep now s))).
  - lia.
  - apply MAC_of_slice_take6. rewrite Hdata. exact Hd.
  - by apply (unicast_only_router Hheader).
Qed.

End Broadcast.

Section BroadcastRuns.
Import Sample Examples ExampleNets.

Lemma sample_header_first : ethernet_header_first (Ext := Sample.ext).
Proof.
  intros eth rest b Hlen. simpl. unfold serializeLayers.
  rewrite (bool_decide_eq_true_2 _ Hlen).
  destruct (bool_decide (length (eth_SrcMAC eth) = 6%nat)); [|discriminate].
  intros [= <-]. simpl. rewrite <- !(assoc_L (++)).
  by rewrite take_app_length' by done.
Qed.

Lemma connected2_unicast : nodes_unicast connected2.
Proof.
  intros i netw ip nd Hi Hnd.
  assert (Hnets : networks connected2 = [net2]) by (vm_compute; reflexivity).
  rewrite Hnets in Hi. destruct i as [|i]; [|by destruct i].
  injection Hi as <-. simpl in Hnd.
  apply lookup_insert_Some in Hnd as [[_ <-]|[_ Hnd]]; [discriminate|].
  apply lookup_singleton_Some in Hnd as [_ <-]. discriminate.
Qed.

Lemma broadcast_exactly_one_copy_witness :
  copies 0 macA frameA (effects_of (HandleEthernetPacket 2 0 epA 0 connected2)) = 1%nat
  ∧ copies 0 macB frameA (effects_of (HandleEthernetPacket 2 0 epA 0 connected2)) = 1%nat
  ∧ copies 0 macRouter frameA (effects_of (HandleEthernetPacket 2 0 epA 0 connected2))
    = 0%nat.
Proof.
  assert (H2 : DstMAC epA = Some MAC_broadcast) by reflexivity.
  assert (H3 : eth_EthernetType (le epA) = EthernetTypeIPv4) by reflexivity.
  assert (H4 : take 6 (pkt_Data (gp epA)) = eth_DstMAC (le epA)) by reflexivity.
  assert (H5 : (12 ≤ length (pkt_Data (gp epA)))%nat) by (vm_compute; lia).
  assert (H6 : ∀ l, Layer_Ethernet (gp epA) = Some l →
                    length (eth_SrcMAC l) = 6%nat ∧ eth_SrcMAC l ≠ HWAddr MAC_broadcast).
  { intros l [= <-]. split; [reflexivity|discriminate]. }
  pose proof (broadcast_exactly_one_copy 2 0 epA 0 connected2 net2 sample_header_first
                connected2_unicast connected2_net H2 H3 H4 H5 H6) as H.
  split; [exact (H macA)|]. split; [exact (H macB)|exact (H macRouter)].
Defined.

End BroadcastRuns.

(** ** No node has the broadcast MAC *)

Lemma AddNode_opt_mac i st o : Node_mac (AddNode_opt i st o).1 = Node_mac st.1.
Proof. destruct st as [n nets], o; reflexivity. Qed.

Lemma AddNode_opts_mac i opts st :
  Node_mac (foldl (AddNode_opt i) st opts).1 = Node_mac st.1.
Proof.
  revert st. induction opts as [|o opts IH]; intros st; [reflexivity|].
  simpl. by rewrite IH, AddNode_opt_mac.
Qed.

Lemma AddNode_nodes c opts :
  ∃ n, c_nodes (AddNode c opts).1 = c_nodes c ++ [n] ∧ mac0 (Node_mac n) = 82.
Proof.
  unfold AddNode.
  pose proof (AddNode_opts_mac (length (c_nodes c)) opts
    (mkNodeConf None (mkMAC 82 204 204 204 204 (byte_of (Z.of_nat (length (c_nodes c))))) [],
     c_networks c)) as Hmac.
  destruct (foldl _ _ opts) as [n' nets']. simpl in *.
  exists n'. split; [done|]. by rewrite Hmac.
Qed.

(** Every node of a configuration built through the API has a MAC that
    starts with 0x52. *)
Lemma built_macs c : built c → Forall (λ n, mac0 (Node_mac n) = 82) (c_nodes c).
Proof.
  induction 1 as [|c opts Hc IH|c opts Hc IH].
  - constructor.
  - destruct (AddNode_nodes c opts) as (n & -> & Hn).
    apply Forall_app. split; [done|]. by constructor.
  - exact IH.
Qed.

Section StartedUnicast.
Context {T : Type} `{Ext : External T}.

Lemma nodes_unicast_nodesByIP (s s1 : Server T) :
  (∀ i netw1 ip nd,
     networks s1 !! i = Some netw1 → net_nodesByIP netw1 !! ip = Some nd →
     node_mac nd ≠ MAC_broadcast
     ∨ ∃ netw, networks s !! i = Some netw ∧ net_nodesByIP netw !! ip = Some nd) →
  nodes_unicast s → nodes_unicast s1.
Proof.
  intros Hstep Hs i netw1 ip nd Hi Hnd.
  destruct (Hstep _ _ _ _ Hi Hnd) as [?|(netw & Hn & Hip)]; [done|by eapply Hs].
Qed.

Lemma initNetwork_unicast (s : Server T) conf s1 :
  initNetwork (Ok s) conf = Ok s1 → nodes_unicast s → nodes_unicast s1.
Proof.
  unfold initNetwork. destruct (Network_err conf); [discriminate|].
  case_bool_decide; [discriminate|]. intros [= <-].
  apply nodes_unicast_nodesByIP. simpl. intros i netw1 ip nd Hi Hnd.
  apply lookup_app_Some in Hi as [Hi|[_ Hi]]; [right; eauto|].
  apply list_lookup_singleton_Some in Hi as [_ <-]. simpl in Hnd.
  by rewrite lookup_empty in Hnd.
Qed.

Lemma initNode_unicast (s : Server T) conf s1 :
  Node_mac conf ≠ MAC_broadcast →
  initNode (Ok s) conf = Ok s1 → nodes_unicast s → nodes_unicast s1.
Proof.
  intros Hmac. unfold initNode. destruct (Node_err conf); [discriminate|].
  case_bool_decide; [discriminate|].
  destruct (Node_Network conf) as [idx|]; [|discriminate].
  destruct (networks s !! idx) as [netw|] eqn:Hidx; [|discriminate].
  destruct (allocLanIP _ _) as [lanIP|]; [|discriminate]. intros [= <-].
  apply nodes_unicast_nodesByIP. simpl. intros i netw1 ip nd Hi Hnd.
  destruct (decide (i = idx)) as [->|Hne].
  - rewrite list_lookup_insert_eq in Hi by (by eapply lookup_lt_Some).
    injection Hi as <-. simpl in Hnd.
    apply lookup_insert_Some in Hnd as [[_ <-]|[_ Hnd]]; [by left|right; eauto].
  - rewrite list_lookup_insert_ne in Hi by done. right. eauto.
Qed.

Lemma InitNAT_unicast (s : Server T) idx natType s1 :
  InitNAT s idx natType = Ok s1 → nodes_unicast s → nodes_unicast s1.
Proof.
  unfold InitNAT. destruct (networks s !! idx) as [n|] eqn:Hidx; [|discriminate].
  destruct (natTypes natType) as [ctor|]; [|discriminate].
  destruct (ctor n) as [t|]; [|discriminate]. intros [= <-].
  apply nodes_unicast_nodesByIP. simpl. intros i netw1 ip nd Hi Hnd.
  destruct (decide (i = idx)) as [->|Hne].
  - rewrite list_lookup_insert_eq in Hi by (by eapply lookup_lt_Some).
    injection Hi as <-. right. eauto.
  - rewrite list_lookup_insert_ne in Hi by done. right. eauto.
Qed.

Lemma foldl_initNode_unicast (l : list Node) :
  Forall (λ n, Node_mac n ≠ MAC_broadcast) l →
  ∀ r s', foldl initNode r l = Ok s' →
    ∃ s : Server T, r = Ok s ∧ (nodes_unicast s → nodes_unicast s').
Proof.
  induction 1 as [|x l Hx Hl IH]; intros r s' Hf.
  - simpl in Hf. subst. eauto.
  - simpl in Hf. destruct (IH _ _ Hf) as (s1 & Hs1 & HP).
    destruct r as [s| |]; [|discriminate..].
    exists s. split; [done|]. intros Hs. apply HP. by eapply initNode_unicast.
Qed.

Lemma foldl_initNATs_unicast (l : list Network) :
  ∀ r idx s', (foldl initNATs (r, idx) l).1 = Ok s' →
    ∃ s : Server T, r = Ok s ∧ (nodes_unicast s → nodes_unicast s').
Proof.
  induction l as [|x l IH]; intros r idx s' Hf.
  - simpl in Hf. subst. eauto.
  - simpl in Hf. destruct r as [s| |]; simpl in Hf.
    + destruct (IH _ _ _ Hf) as (s1 & Hs1 & HP).
      exists s. split; [done|]. intros Hs. apply HP. by eapply InitNAT_unicast.
    + destruct (IH _ _ _ Hf) as (s1 & Hs1 & _). discriminate.
    + destruct (IH _ _ _ Hf) as (s1 & Hs1 & _). discriminate.
Qed.

(** In a server started from a configuration built through the API no node
    has the broadcast MAC. *)
Lemma started_nodes_unicast (c : Config) (s : Server T) :
  built c → initFromConfig Server_empty c = Ok s → nodes_unicast s.
Proof.
  intros Hc Hinit. unfold initFromConfig in Hinit.
  assert (Hmacs : Forall (λ n, Node_mac n ≠ MAC_broadcast) (c_nodes c)).
  { eapply Forall_impl; [exact (built_macs c Hc)|].
    intros n Hn Heq. simpl in Hn. rewrite Heq in Hn. discriminate. }
  destruct (foldl_initNATs_unicast _ _ _ _ Hinit) as (s2 & H2 & P2).
  destruct (foldl_initNode_unicast _ Hmacs _ _ H2) as (s1 & H1 & P1).
  destruct (foldl_Result_inv nodes_unicast initNetwork (c_networks c) initNetwork_unicast
              (λ _, eq_refl) (λ _, eq_refl) _ _ H1) as (s0 & H0 & P0).
  injection H0 as <-. apply P2, P1, P0.
  intros i netw ip nd Hi. by destruct i.
Qed.

End StartedUnicast.
(** ** Start-up, loop by loop *)

Section InitLoops.
Context {T : Type} `{Ext : External T}.

Lemma initNetwork_Ok_inv (s : Server T) conf s1 :
  initNetwork (Ok s) conf = Ok s1 →
  Network_err conf = None
  ∧ networkByWAN s !! Network_wanIP conf = None
  ∧ s1 = mkServer (derpIPs s) (nodes s) (nodeByMAC s) (networks s ++ [networkOf conf])
                  (<[Network_wanIP conf := length (networks s)]> (networkByWAN s)).
Proof.
  unfold initNetwork. destruct (Network_err conf); [discriminate|].
  case_bool_decide as Hdup; [discriminate|]. intros [= <-].
  split; [done|]. split; [|done].
  destruct (networkByWAN s !! _) eqn:E; [|done]. exfalso. apply Hdup. by eexists.
Qed.

(** The first loop: it only appends networks and extends [networkByWAN]. *)
Lemma foldl_initNetwork_inv (l : list Network) : ∀ (r : Result (Server T)) s',
  foldl initNetwork r l = Ok s' →
  ∃ s, r = Ok s
    ∧ derpIPs s' = derpIPs s ∧ nodes s' = nodes s ∧ nodeByMAC s' = nodeByMAC s
    ∧ networks s' = networks s ++ (networkOf <$> l)
    ∧ Forall (λ conf, Network_err conf = None) l
    ∧ NoDup (Network_wanIP <$> l)
    ∧ (∀ ip, ip ∈ Network_wanIP <$> l → networkByWAN s !! ip = None)
    ∧ (∀ i conf, l !! i = Some conf →
         networkByWAN s' !! Network_wanIP conf = Some (length (networks s) + i)%nat)
    ∧ (∀ ip, ip ∉ Network_wanIP <$> l → networkByWAN s' !! ip = networkByWAN s !! ip).
Proof.
  induction l as [|x l IH]; intros r s' Hf.
  - simpl in Hf. subst r. exists s'. split_and!; try done.
    + by rewrite app_nil_r.
    + constructor.
    + intros ip Hin. by apply elem_of_nil in Hin.
  - simpl in Hf.
    destruct (IH _ _ Hf) as (s1 & Hs1 & Hd & Hn & Hm & Hnets & Herr & Hnd & Hfresh & Hidx & Hold).
    destruct r as [s| |]; [|discriminate..].
    apply initNetwork_Ok_inv in Hs1 as (Hx & Hwx & ->). simpl in *.
    assert (Hnotin : Network_wanIP x ∉ Network_wanIP <$> l).
    { intros Hin. specialize (Hfresh _ Hin). by rewrite lookup_insert_eq in Hfresh. }
    exists s. split_and!; try done.
    + by rewrite Hnets, <- (assoc_L (++)).
    + by constructor.
    + by apply NoDup_cons.
    + intros ip [->|Hin]%elem_of_cons; [done|]. specialize (Hfresh _ Hin).
      destruct (decide (Network_wanIP x = ip)) as [<-|Hne]; [done|].
      by rewrite lookup_insert_ne in Hfresh.
    + intros [|i] conf Hi; simpl in Hi.
      * injection Hi as <-. rewrite (Hold _ Hnotin), lookup_insert_eq. f_equal. lia.
      * rewrite (Hidx i conf Hi), length_app. simpl. f_equal. lia.
    + intros ip [Hne Hnot]%not_elem_of_cons. rewrite (Hold _ Hnot).
      by rewrite lookup_insert_ne.
Qed.

Lemma initNode_Ok_inv (s : Server T) conf s1 :
  initNode (Ok s) conf = Ok s1 →
  Node_err conf = None
  ∧ nodeByMAC s !! Node_mac conf = None
  ∧ ∃ idx netw lanIP,
      Node_Network conf = Some idx ∧ networks s !! idx = Some netw
      ∧ allocLanIP (net_lanIP netw) (Node_mac conf) = Some lanIP
      ∧ s1 = mkServer (derpIPs s) (nodes s ++ [mkNode (Node_mac conf) idx lanIP])
               (<[Node_mac conf := mkNode (Node_mac conf) idx lanIP]> (nodeByMAC s))
               (<[idx := set_nodesByIP netw
                           (<[lanIP := mkNode (Node_mac conf) idx lanIP]>
                              (net_nodesByIP netw))]> (networks s))
               (networkByWAN s).
Proof.
  unfold initNode. destruct (Node_err conf); [discriminate|].
  case_bool_decide as Hdup; [discriminate|].
  destruct (Node_Network conf) as [idx|]; [|discriminate].
  destruct (networks s !! idx) as [netw|] eqn:Hidx; [|discriminate].
  destruct (allocLanIP _ _) as [lanIP|] eqn:Hip; [|discriminate].
  intros [= <-]. split; [done|]. split.
  - destruct (nodeByMAC s !! _) eqn:E; [|done]. exfalso. apply Hdup. by eexists.
  - by exists idx, netw, lanIP.
Qed.

Lemma Forall2_trans_rel {A} (R : A → A → Prop) :
  (∀ a b c, R a b → R b c → R a c) →
  ∀ l1 l2 l3, Forall2 R l1 l2 → Forall2 R l2 l3 → Forall2 R l1 l3.
Proof.
  intros HR l1 l2 l3 H12. revert l3.
  induction H12; intros l3 H23; inversion H23; subst; constructor; eauto.
Qed.

Lemma same_but_nodesByIP_refl (l : list (network T)) : Forall2 same_but_nodesByIP l l.
Proof. apply Forall2_same_length_lookup. split; [done|]. by intros i a b -> [= <-]. Qed.

Lemma same_but_nodesByIP_insert (l : list (network T)) idx netw m :
  l !! idx = Some netw →
  Forall2 same_but_nodesByIP l (<[idx := set_nodesByIP netw m]> l).
Proof.
  intros Hidx. rewrite <- (list_insert_id l idx netw Hidx) at 1.
  apply Forall2_insert; [apply same_but_nodesByIP_refl|done].
Qed.

Lemma same_but_nodesByIP_trans (l1 l2 l3 : list (network T)) :
  Forall2 same_but_nodesByIP l1 l2 → Forall2 same_but_nodesByIP l2 l3 →
  Forall2 same_but_nodesByIP l1 l3.
Proof.
  apply Forall2_trans_rel. unfold same_but_nodesByIP. intros a b c Hab Hbc.
  destruct Hab as (?&?&?&?&?&?&?), Hbc as (?&?&?&?&?&?&?). split_and!; congruence.
Qed.

(** The second loop: it appends one node per configured node and touches
    nothing of a network but [nodesByIP]. *)
Lemma foldl_initNode_inv (l : list Node) : ∀ (r : Result (Server T)) s',
  foldl initNode r l = Ok s' →
  ∃ s new, r = Ok s
    ∧ derpIPs s' = derpIPs s ∧ networkByWAN s' = networkByWAN s
    ∧ nodes s' = nodes s ++ new
    ∧ Forall2 (λ conf nd, node_mac nd = Node_mac conf
                          ∧ Node_Network conf = Some (node_net nd)) l new
    ∧ Forall2 same_but_nodesByIP (networks s) (networks s')
    ∧ Forall (λ conf, Node_err conf = None) l
    ∧ NoDup (Node_mac <$> l)
    ∧ (∀ m, m ∈ Node_mac <$> l → nodeByMAC s !! m = None).
Proof.
  induction l as [|x l IH]; intros r s' Hf.
  - simpl in Hf. subst r. exists s', []. split_and!; try done.
    + by rewrite app_nil_r.
    + apply same_but_nodesByIP_refl.
    + constructor.
    + intros m Hin. by apply elem_of_nil in Hin.
  - simpl in Hf.
    destruct (IH _ _ Hf) as (s1 & new & Hs1 & Hd & Hw & Hn & Hnew & Hnets & Herr & Hnd & Hfresh).
    destruct r as [s| |]; [|discriminate..].
    apply initNode_Ok_inv in Hs1
      as (Hx & Hmx & idx & netw & lanIP & Hnet & Hidx & Hip & ->). simpl in *.
    assert (Hnotin : Node_mac x ∉ Node_mac <$> l).
    { intros Hin. specialize (Hfresh _ Hin). by rewrite lookup_insert_eq in Hfresh. }
    exists s, (mkNode (Node_mac x) idx lanIP :: new). split_and!; try done.
    + by rewrite Hn, <- (assoc_L (++)).
    + by constructor.
    + eapply same_but_nodesByIP_trans; [|exact Hnets].
      by apply same_but_nodesByIP_insert.
    + by constructor.
    + by apply NoDup_cons.
    + intros m [->|Hin]%elem_of_cons; [done|]. specialize (Hfresh _ Hin).
      destruct (decide (Node_mac x = m)) as [<-|Hne]; [done|].
      by rewrite lookup_insert_ne in Hfresh.
Qed.

Lemma InitNAT_Ok_inv (s : Server T) idx natType s1 :
  InitNAT s idx natType = Ok s1 →
  ∃ n ctor t,
    networks s !! idx = Some n ∧ natTypes natType = Some ctor ∧ ctor n = Some t
    ∧ s1 = mkServer (derpIPs s) (nodes s) (nodeByMAC s)
             (<[idx := set_natStyle (set_natTable n (Some t)) natType]> (networks s))
             (networkByWAN s).
Proof.
  unfold InitNAT. destruct (networks s !! idx) as [n|] eqn:Hidx; [|discriminate].
  destruct (natTypes natType) as [ctor|] eqn:Hc; [|discriminate].
  destruct (ctor n) as [t|] eqn:Ht; [|discriminate]. intros [= <-].
  by exists n, ctor, t.
Qed.

Lemma same_but_nat_refl (l : list (network T)) : Forall2 same_but_nat l l.
Proof. apply Forall2_same_length_lookup. split; [done|]. by intros i a b -> [= <-]. Qed.

Lemma same_but_nat_trans (l1 l2 l3 : list (network T)) :
  Forall2 same_but_nat l1 l2 → Forall2 same_but_nat l2 l3 → Forall2 same_but_nat l1 l3.
Proof.
  apply Forall2_trans_rel. unfold same_but_nat. intros a b c Hab Hbc.
  destruct Hab as (?&?&?&?&?&?), Hbc as (?&?&?&?&?&?). split_and!; congruence.
Qed.

Lemma same_but_nat_insert (l : list (network T)) idx netw netw' :
  l !! idx = Some netw → same_but_nat netw netw' →
  Forall2 same_but_nat l (<[idx := netw']> l).
Proof.
  intros Hidx Hs. rewrite <- (list_insert_id l idx netw Hidx) at 1.
  apply Forall2_insert; [apply same_but_nat_refl|done].
Qed.

(** The third loop: the network with index [idx + i] gets the NAT table of
    the [i]-th configured network; nothing else changes. *)
Lemma foldl_initNATs_inv' (l : list Network) : ∀ (r : Result (Server T)) idx s',
  (foldl initNATs (r, idx) l).1 = Ok s' →
  ∃ s, r = Ok s
    ∧ derpIPs s' = derpIPs s ∧ nodes s' = nodes s ∧ nodeByMAC s' = nodeByMAC s
    ∧ networkByWAN s' = networkByWAN s
    ∧ Forall2 same_but_nat (networks s) (networks s')
    ∧ (∀ j, (j < idx)%nat → networks s' !! j = networks s !! j)
    ∧ (∀ i conf, l !! i = Some conf →
         ∃ netw', networks s' !! (idx + i)%nat = Some netw'
                  ∧ is_Some (net_natTable netw')
                  ∧ net_natStyle netw' = natTypeOr (Network_natType conf)).
Proof.
  induction l as [|x l IH]; intros r idx s' Hf.
  - simpl in Hf. subst r. exists s'. split_and!; try done.
    apply same_but_nat_refl.
  - simpl in Hf. destruct r as [s| |]; simpl in Hf;
      destruct (IH _ _ _ Hf) as (s1 & Hs1 & Hd & Hn & Hm & Hw & Hnets & Hlow & Hnat);
      [|discriminate..].
    apply InitNAT_Ok_inv in Hs1 as (n & ctor & t & Hidx & Hc & Ht & ->). simpl in *.
    exists s. split_and!; try done.
    + eapply same_but_nat_trans; [|exact Hnets].
      by apply (same_but_nat_insert _ _ n).
    + intros j Hj. rewrite Hlow by lia. by rewrite list_lookup_insert_ne by lia.
    + intros [|i] conf Hi; simpl in Hi.
      * injection Hi as <-. rewrite Nat.add_0_r, Hlow by lia.
        rewrite list_lookup_insert_eq by (by eapply lookup_lt_Some).
        eexists. split; [done|]. simpl. split; [by eexists|done].
      * destruct (Hnat i conf Hi) as (netw' & Hn' & Hsome & Hstyle).
        exists netw'. split; [|done]. rewrite <- Hn'. f_equal. lia.
Qed.

(** What a successful [initFromConfig] did, loop by loop. *)
Lemma initFromConfig_loops (c : Config) (s : Server T) :
  initFromConfig Server_empty c = Ok s →
  ∃ s1 s2 : Server T,
    foldl initNetwork (Ok Server_empty) (c_networks c) = Ok s1
    ∧ foldl initNode (Ok s1) (c_nodes c) = Ok s2
    ∧ (foldl initNATs (Ok s2, 0%nat) (c_networks c)).1 = Ok s.
Proof.
  unfold initFromConfig. intros Hinit.
  destruct (foldl_initNATs_inv' _ _ _ _ Hinit) as (s2 & H2 & _).
  destruct (foldl_initNode_inv _ _ _ H2) as (s1 & new & H1 & _).
  exists s1, s2. by rewrite <- H1, <- H2.
Qed.

End InitLoops.

(** ** Start-up: the tables of a started server *)

Lemma allocLanIP_last_byte p m1 m2 ip :
  allocLanIP p m1 = Some ip → allocLanIP p m2 = Some ip →
  byte_of (mac5 m1) = byte_of (mac5 m2).
Proof.
  unfold allocLanIP. destruct (As4 (Prefix_Addr p)) as [[[[a b] c] d]|]; [|discriminate].
  intros [= <-] [= H]. unfold byte_of in *. Z.div_mod_to_equations. lia.
Qed.

Section StartedTables.
Context {T : Type} `{Ext : External T}.

Lemma initNetwork_sound (s : Server T) conf s1 :
  initNetwork (Ok s) conf = Ok s1 → nodesByIP_sound s → nodesByIP_sound s1.
Proof.
  intros (_ & _ & ->)%initNetwork_Ok_inv Hs i netw ip nd Hi Hnd. simpl in *.
  apply lookup_app_Some in Hi as [Hi|[_ Hi]]; [by eapply Hs|].
  apply list_lookup_singleton_Some in Hi as [_ <-]. simpl in Hnd.
  by rewrite lookup_empty in Hnd.
Qed.

Lemma initNode_sound (s : Server T) conf s1 :
  initNode (Ok s) conf = Ok s1 → nodesByIP_sound s → nodesByIP_sound s1.
Proof.
  intros (_ & _ & idx & netw & lanIP & _ & Hidx & _ & ->)%initNode_Ok_inv Hs i netw1 ip nd Hi Hnd.
  simpl in *. destruct (decide (i = idx)) as [->|Hne].
  - rewrite list_lookup_insert_eq in Hi by (by eapply lookup_lt_Some).
    injection Hi as <-. simpl in Hnd.
    apply lookup_insert_Some in Hnd as [[<- <-]|[_ Hnd]].
    + split; [|done]. apply elem_of_app. right. by apply list_elem_of_singleton.
    + destruct (Hs _ _ _ _ Hidx Hnd) as (Hin & ? & ?). split; [|done].
      apply elem_of_app. by left.
  - rewrite list_lookup_insert_ne in Hi by done.
    destruct (Hs _ _ _ _ Hi Hnd) as (Hin & ? & ?). split; [|done].
    apply elem_of_app. by left.
Qed.

Lemma initNode_lan_indexed (s : Server T) conf s1 :
  initNode (Ok s) conf = Ok s1 →
  (∀ nd, nd ∈ nodes s → byte_of (mac5 (node_mac nd)) ≠ lastByte conf) →
  lan_indexed s → lan_indexed s1.
Proof.
  intros (_ & _ & idx & netw & lanIP & _ & Hidx & Hip & ->)%initNode_Ok_inv Hlast Hs nd.
  simpl. intros [Hin| ->%list_elem_of_singleton]%elem_of_app.
  - destruct (Hs nd Hin) as (netw0 & Hn0 & Hl0 & Ha0).
    destruct (decide (node_net nd = idx)) as [Heq|Hne].
    + rewrite Heq in *. rewrite Hidx in Hn0. injection Hn0 as <-.
      eexists. split; [apply list_lookup_insert_eq; by eapply lookup_lt_Some|].
      simpl. split; [|done]. rewrite lookup_insert_ne; [done|].
      intros Hsame. apply (Hlast nd Hin). rewrite <- Hsame in Ha0.
      exact (allocLanIP_last_byte _ _ _ _ Ha0 Hip).
    + exists netw0. by rewrite list_lookup_insert_ne.
  - eexists. simpl. split; [apply list_lookup_insert_eq; by eapply lookup_lt_Some|].
    simpl. by rewrite lookup_insert_eq.
Qed.

Lemma foldl_initNode_lan_indexed (l : list Node) : ∀ (s s' : Server T),
  foldl initNode (Ok s) l = Ok s' →
  NoDup (lastByte <$> l) →
  (∀ nd, nd ∈ nodes s → byte_of (mac5 (node_mac nd)) ∉ lastByte <$> l) →
  lan_indexed s → lan_indexed s'.
Proof.
  induction l as [|x l IH]; intros s s' Hf Hnd Hfresh Hs.
  - simpl in Hf. by injection Hf as <-.
  - simpl in Hf. destruct (foldl_initNode_inv _ _ _ Hf) as (s1 & _ & Hs1 & _).
    rewrite Hs1 in Hf. rewrite fmap_cons in Hnd, Hfresh.
    apply NoDup_cons in Hnd as [Hx Hnd].
    apply (IH s1 s' Hf Hnd).
    + pose proof Hs1 as (_ & _ & idx & netw & lanIP & _ & _ & _ & ->)%initNode_Ok_inv.
      simpl. intros nd [Hin| ->%list_elem_of_singleton]%elem_of_app.
      * specialize (Hfresh nd Hin). by apply not_elem_of_cons in Hfresh as [_ ?].
      * exact Hx.
    + apply (initNode_lan_indexed _ _ _ Hs1); [|done].
      intros nd Hin. specialize (Hfresh nd Hin). by apply not_elem_of_cons in Hfresh as [? _].
Qed.

Lemma same_but_nat_sound (s s' : Server T) :
  nodes s' = nodes s → Forall2 same_but_nat (networks s) (networks s') →
  nodesByIP_sound s → nodesByIP_sound s'.
Proof.
  intros Hn Hnets Hs i netw' ip nd Hi Hnd.
  destruct (Forall2_lookup_r _ _ _ _ _ Hnets Hi) as (netw & Hi0 & Hsame).
  destruct Hsame as (_ & _ & _ & _ & Hby & _). rewrite <- Hby in Hnd.
  rewrite Hn. by eapply Hs.
Qed.

Lemma same_but_nat_lan_indexed (s s' : Server T) :
  nodes s' = nodes s → Forall2 same_but_nat (networks s) (networks s') →
  lan_indexed s → lan_indexed s'.
Proof.
  intros Hn Hnets Hs nd Hin. rewrite Hn in Hin.
  destruct (Hs nd Hin) as (netw & Hi & Hl & Ha).
  destruct (Forall2_lookup_l _ _ _ _ _ Hnets Hi) as (netw' & Hi' & Hsame).
  destruct Hsame as (_ & _ & _ & Hlan & Hby & _).
  exists netw'. by rewrite <- Hlan, <- Hby.
Qed.

Lemma initFromConfig_sound (c : Config) (s : Server T) :
  initFromConfig Server_empty c = Ok s → nodesByIP_sound s.
Proof.
  intros (s1 & s2 & H1 & H2 & H3)%initFromConfig_loops.
  destruct (foldl_initNATs_inv' _ _ _ _ H3) as (s2' & [= <-] & _ & Hn & _ & _ & Hnets & _).
  apply (same_but_nat_sound s2 s Hn Hnets).
  destruct (foldl_Result_inv nodesByIP_sound initNode (c_nodes c) initNode_sound
              (λ _, eq_refl) (λ _, eq_refl) _ _ H2) as (s1' & [= <-] & P1).
  apply P1.
  destruct (foldl_Result_inv nodesByIP_sound initNetwork (c_networks c) initNetwork_sound
              (λ _, eq_refl) (λ _, eq_refl) _ _ H1) as (s0 & [= <-] & P0).
  apply P0. intros i netw ip nd Hi. by destruct i.
Qed.

Lemma initFromConfig_lan_indexed (c : Config) (s : Server T) :
  NoDup (lastByte <$> c_nodes c) →
  initFromConfig Server_empty c = Ok s → lan_indexed s.
Proof.
  intros Hnd (s1 & s2 & H1 & H2 & H3)%initFromConfig_loops.
  destruct (foldl_initNATs_inv' _ _ _ _ H3) as (s2' & [= <-] & _ & Hn & _ & _ & Hnets & _).
  apply (same_but_nat_lan_indexed s2 s Hn Hnets).
  destruct (foldl_initNetwork_inv _ _ _ H1) as (s0 & [= <-] & _ & Hn1 & _).
  apply (foldl_initNode_lan_indexed _ _ _ H2 Hnd).
  - intros nd. rewrite Hn1. simpl. intros Hin. by apply elem_of_nil in Hin.
  - intros nd. rewrite Hn1. simpl. intros Hin. by apply elem_of_nil in Hin.
Qed.

End StartedTables.

(** ** Start-up: the configurations that start *)

Lemma AddNode_node_mac c opts :
  ∃ n, c_nodes (AddNode c opts).1 = c_nodes c ++ [n]
       ∧ Node_mac n = mkMAC 82 204 204 204 204 (byte_of (Z.of_nat (length (c_nodes c)))).
Proof.
  unfold AddNode.
  pose proof (AddNode_opts_mac (length (c_nodes c)) opts
    (mkNodeConf None (mkMAC 82 204 204 204 204 (byte_of (Z.of_nat (length (c_nodes c))))) [],
     c_networks c)) as Hmac.
  destruct (foldl _ _ opts) as [n' nets']. simpl in *.
  exists n'. by split.
Qed.

(** The MAC of the [i]-th node of a configuration built through the API
    ends in the low byte of [i]. *)
Lemma built_node_mac c :
  built c → ∀ i n, c_nodes c !! i = Some n →
  Node_mac n = mkMAC 82 204 204 204 204 (byte_of (Z.of_nat i)).
Proof.
  induction 1 as [|c opts Hc IH|c opts Hc IH]; intros i n Hi.
  - by destruct i.
  - destruct (AddNode_node_mac c opts) as (n' & Heq & Hn'). rewrite Heq in Hi.
    apply lookup_app_Some in Hi as [Hi|[Hge Hi]]; [by apply IH|].
    apply list_lookup_singleton_Some in Hi as [Hi <-].
    rewrite Hn'. do 2 f_equal. lia.
  - by apply IH.
Qed.

Lemma built_last_bytes c :
  built c → NoDup (Node_mac <$> c_nodes c) → NoDup (lastByte <$> c_nodes c).
Proof.
  intros Hc Hnd. apply NoDup_alt. intros i j x Hi Hj.
  apply list_lookup_fmap_Some in Hi as (ni & -> & Hni).
  apply list_lookup_fmap_Some in Hj as (nj & Hx & Hnj).
  pose proof (built_node_mac c Hc i ni Hni) as Hmi.
  pose proof (built_node_mac c Hc j nj Hnj) as Hmj.
  assert (Hmac : Node_mac ni = Node_mac nj).
  { unfold lastByte in Hx. rewrite Hmi, Hmj in *. simpl in Hx.
    unfold byte_of in *. rewrite !Z.mod_mod in Hx by lia. by rewrite Hx. }
  apply (proj1 (NoDup_alt _) Hnd i j (Node_mac ni)).
  - by rewrite list_lookup_fmap, Hni.
  - by rewrite list_lookup_fmap, Hnj, Hmac.
Qed.

Lemma built_addNodes n net0 c : built c → built (addNodes n net0 c).
Proof.
  intros Hc. induction n as [|n IH]; [done|].
  change (addNodes (S n) net0 c) with (AddNode (addNodes n net0 c) [NodeOptNetwork net0]).1.
  by apply built_AddNode.
Qed.

Section StartedConfig.
Context {T : Type} `{Ext : External T}.

Lemma started_networks_length (c : Config) (s : Server T) :
  initFromConfig Server_empty c = Ok s → length (networks s) = length (c_networks c).
Proof.
  intros (s1 & s2 & H1 & H2 & H3)%initFromConfig_loops.
  destruct (foldl_initNATs_inv' _ _ _ _ H3) as (? & [= <-] & _ & _ & _ & _ & Hn3 & _).
  destruct (foldl_initNode_inv _ _ _ H2) as (? & new & [= <-] & _ & _ & _ & _ & Hn2 & _).
  destruct (foldl_initNetwork_inv _ _ _ H1) as (? & [= <-] & _ & _ & _ & Hn1 & _).
  rewrite <- (Forall2_length _ _ _ Hn3), <- (Forall2_length _ _ _ Hn2), Hn1.
  simpl. by rewrite length_fmap.
Qed.

Lemma started_macs_NoDup (c : Config) (s : Server T) :
  initFromConfig Server_empty c = Ok s → NoDup (Node_mac <$> c_nodes c).
Proof.
  intros (s1 & s2 & H1 & H2 & H3)%initFromConfig_loops.
  by destruct (foldl_initNode_inv _ _ _ H2) as (? & ? & _ & _ & _ & _ & _ & _ & _ & ? & _).
Qed.

(** X1.  [initFromConfig] accepts a configuration only if no network
    carries an error and the WAN addresses of the networks are pairwise
    distinct; the missing WAN address counts as an address, so at most one
    network can be without one. *)
Theorem started_networks_distinct_wan (c : Config) (s : Server T) :
  initFromConfig Server_empty c = Ok s →
  Forall (λ conf, Network_err conf = None) (c_networks c)
  ∧ NoDup (Network_wanIP <$> c_networks c).
Proof.
  intros (s1 & s2 & H1 & _)%initFromConfig_loops.
  by destruct (foldl_initNetwork_inv _ _ _ H1) as (? & _ & _ & _ & _ & _ & ? & ? & _).
Qed.

(** X2.  [initFromConfig] accepts a configuration only if no node carries
    an error, every node was added to at least one network of the
    configuration, and the MACs of the nodes are pairwise distinct. *)
Theorem started_nodes_distinct_mac (c : Config) (s : Server T) :
  initFromConfig Server_empty c = Ok s →
  Forall (λ conf, Node_err conf = None
                  ∧ ∃ idx, Node_Network conf = Some idx
                           ∧ (idx < length (c_networks c))%nat) (c_nodes c)
  ∧ NoDup (Node_mac <$> c_nodes c).
Proof.
  intros Hinit.
  pose proof (started_networks_length c s Hinit) as Hlen.
  destruct (initFromConfig_wf _ _ _ Hinit server_wf_empty) as [W1 W2].
  destruct (initFromConfig_loops c s Hinit) as (s1 & s2 & H1 & H2 & H3).
  destruct (foldl_initNATs_inv' _ _ _ _ H3) as (? & [= <-] & _ & Hn3 & _).
  destruct (foldl_initNode_inv _ _ _ H2)
    as (? & new & [= <-] & _ & _ & Hn2 & Hnew & _ & Herr & Hnd & _).
  destruct (foldl_initNetwork_inv _ _ _ H1) as (? & [= <-] & _ & Hn1 & _).
  split; [|done]. rewrite Hn1 in Hn2. simpl in Hn2.
  apply Forall_lookup. intros i conf Hi.
  split; [by eapply (proj1 (Forall_lookup _ _) Herr)|].
  destruct (Forall2_lookup_l _ _ _ _ _ Hnew Hi) as (nd & Hnd' & Hmac & Hnet).
  exists (node_net nd). split; [done|].
  assert (Hin : nd ∈ nodes s).
  { rewrite Hn3, Hn2. by eapply list_elem_of_lookup_2. }
  destruct (W1 _ _ (W2 _ Hin)) as (_ & netw & Hnetw & _).
  rewrite <- Hlen. by eapply lookup_lt_Some.
Qed.

(** X3.  The nodes of a started server are the configured nodes, in
    order: each has the MAC of its configuration, is on the first network
    it was added to, is the entry of [nodeByMAC] for its MAC, and has the
    LAN address allocated from the prefix of that network. *)
Theorem started_nodes_mirror_config (c : Config) (s : Server T) :
  initFromConfig Server_empty c = Ok s →
  Forall2 (λ conf nd,
             node_mac nd = Node_mac conf
             ∧ Node_Network conf = Some (node_net nd)
             ∧ nodeByMAC s !! Node_mac conf = Some nd
             ∧ ∃ netw, networks s !! node_net nd = Some netw
                       ∧ allocLanIP (net_lanIP netw) (Node_mac conf) = Some (node_lanIP nd))
          (c_nodes c) (nodes s).
Proof.
  intros Hinit.
  destruct (initFromConfig_wf _ _ _ Hinit server_wf_empty) as [W1 W2].
  destruct (initFromConfig_loops c s Hinit) as (s1 & s2 & H1 & H2 & H3).
  destruct (foldl_initNATs_inv' _ _ _ _ H3) as (? & [= <-] & _ & Hn3 & _).
  destruct (foldl_initNode_inv _ _ _ H2) as (? & new & [= <-] & _ & _ & Hn2 & Hnew & _).
  destruct (foldl_initNetwork_inv _ _ _ H1) as (? & [= <-] & _ & Hn1 & _).
  rewrite Hn1 in Hn2. simpl in Hn2. rewrite Hn3, Hn2.
  apply Forall2_same_length_lookup. split; [by eapply Forall2_length|].
  intros i conf nd Hi Hnd.
  destruct (Forall2_lookup_l _ _ _ _ _ Hnew Hi) as (nd' & Hnd' & Hmac & Hnet).
  rewrite Hnd in Hnd'. injection Hnd' as <-.
  assert (Hin : nd ∈ nodes s).
  { rewrite Hn3, Hn2. by eapply list_elem_of_lookup_2. }
  pose proof (W2 _ Hin) as Hby. destruct (W1 _ _ Hby) as (_ & netw & Hnetw & Halloc).
  rewrite Hmac in Hby, Halloc. split_and!; try done. by exists netw.
Qed.

(** X4.  The networks of a started server are the configured networks, in
    order: each has the MAC, the WAN address and the services of its
    configuration, the configured LAN prefix or the default one, a NAT
    table of the configured type or of the easy type when none was given,
    and no writer; [networkByWAN] leads from its WAN address to it. *)
Theorem started_networks_mirror_config (c : Config) (s : Server T) :
  initFromConfig Server_empty c = Ok s →
  length (networks s) = length (c_networks c)
  ∧ ∀ i conf, c_networks c !! i = Some conf →
      ∃ netw, networks s !! i = Some netw
        ∧ net_mac netw = Network_mac conf
        ∧ net_wanIP netw = Network_wanIP conf
        ∧ net_lanIP netw = effectiveLanIP conf
        ∧ net_portmap netw = bool_decide (NATPMP ∈ Network_svcs conf)
        ∧ net_natStyle netw = natTypeOr (Network_natType conf)
        ∧ is_Some (net_natTable netw)
        ∧ net_writeFunc netw = ∅
        ∧ networkByWAN s !! Network_wanIP conf = Some i.
Proof.
  intros Hinit. split; [by apply started_networks_length|].
  destruct (initFromConfig_loops c s Hinit) as (s1 & s2 & H1 & H2 & H3).
  destruct (foldl_initNATs_inv' _ _ _ _ H3)
    as (? & [= <-] & _ & _ & _ & Hw3 & Hn3 & _ & Hnat).
  destruct (foldl_initNode_inv _ _ _ H2) as (? & new & [= <-] & _ & Hw2 & _ & _ & Hn2 & _).
  destruct (foldl_initNetwork_inv _ _ _ H1)
    as (? & [= <-] & _ & _ & _ & Hn1 & _ & _ & _ & Hidx & _).
  simpl in *. intros i conf Hi.
  destruct (Hnat i conf Hi) as (netw & Hnetw & Htable & Hstyle). simpl in Hnetw.
  exists netw. split; [done|].
  destruct (Forall2_lookup_r _ _ _ _ _ Hn3 Hnetw) as (netw2 & Hnetw2 & Hs3).
  destruct (Forall2_lookup_r _ _ _ _ _ Hn2 Hnetw2) as (netw1 & Hnetw1 & Hs2).
  rewrite Hn1, list_lookup_fmap, Hi in Hnetw1. injection Hnetw1 as <-.
  destruct Hs3 as (E1 & E2 & E3 & E4 & _ & E6).
  destruct Hs2 as (F1 & F2 & F3 & F4 & _ & _ & F7).
  rewrite <- E1, <- E2, <- E3, <- E4, <- E6, <- F1, <- F2, <- F3, <- F4, <- F7.
  split_and!; try done.
  rewrite Hw3, Hw2. by rewrite (Hidx i conf Hi).
Qed.

(** X5.  The last byte of a node's MAC is the low byte of the number of
    nodes added before it, so the 257th node gets the MAC of the first:
    a configuration built through the API with more than 256 nodes is never
    accepted. *)
Theorem more_than_256_nodes_never_start (c : Config) (s : Server T) :
  built c → (256 < length (c_nodes c))%nat →
  initFromConfig Server_empty c ≠ Ok s.
Proof.
  intros Hc Hlen Hinit.
  pose proof (started_macs_NoDup c s Hinit) as Hnd.
  destruct (lookup_lt_is_Some_2 (c_nodes c) 0) as [n0 H0]; [lia|].
  destruct (lookup_lt_is_Some_2 (c_nodes c) 256) as [n256 H256]; [lia|].
  pose proof (built_node_mac c Hc _ _ H0) as Hm0.
  pose proof (built_node_mac c Hc _ _ H256) as Hm256.
  assert (Heq : (0 = 256)%nat); [|discriminate].
  apply (proj1 (NoDup_alt _) Hnd 0%nat 256%nat (Node_mac n0)).
  - by rewrite list_lookup_fmap, H0.
  - rewrite list_lookup_fmap, H256. simpl. by rewrite Hm0, Hm256.
Qed.

(** X6.  In a server started from a configuration built through the API
    the LAN addresses are unique within a network: the table [nodesByIP] of
    a network holds exactly the nodes of that network, each under its own
    LAN address. *)
Theorem started_nodesByIP_exact (c : Config) (s : Server T) i netw ip nd :
  built c → initFromConfig Server_empty c = Ok s →
  networks s !! i = Some netw →
  net_nodesByIP netw !! ip = Some nd
  ↔ nd ∈ nodes s ∧ node_net nd = i ∧ node_lanIP nd = ip.
Proof.
  intros Hc Hinit Hi. split.
  - by apply (initFromConfig_sound c s Hinit).
  - intros (Hin & <- & <-).
    pose proof (started_macs_NoDup c s Hinit) as Hnd.
    destruct (initFromConfig_lan_indexed c s (built_last_bytes c Hc Hnd) Hinit nd Hin)
      as (netw' & Hi' & Hl & _).
    rewrite Hi in Hi'. by injection Hi' as <-.
Qed.

End StartedConfig.

(** ** Start-up: the configurations that are accepted *)

Section StartProgress.
Context {T : Type} `{Ext : External T}.

Lemma foldl_initNetwork_progress (l : list Network) : ∀ s : Server T,
  Forall (λ conf, Network_err conf = None) l →
  NoDup (Network_wanIP <$> l) →
  (∀ ip, ip ∈ Network_wanIP <$> l → networkByWAN s !! ip = None) →
  ∃ s', foldl initNetwork (Ok s) l = Ok s'.
Proof.
  induction l as [|x l IH]; intros s Herr Hnd Hfresh; [by eexists|].
  apply Forall_cons in Herr as [Hx Herr]. rewrite fmap_cons in Hnd, Hfresh.
  apply NoDup_cons in Hnd as [Hnotin Hnd].
  change (foldl initNetwork (Ok s) (x :: l))
    with (foldl initNetwork (initNetwork (Ok s) x) l).
  unfold initNetwork at 2. rewrite Hx.
  rewrite bool_decide_eq_false_2.
  - apply IH; [done..|]. simpl. intros ip Hin.
    rewrite lookup_insert_ne by (by intros <-). apply Hfresh. by right.
  - rewrite Hfresh by (by left). by intros [? ?].
Qed.

Lemma foldl_initNode_progress (l : list Node) : ∀ s : Server T,
  Forall (λ conf, Node_err conf = None
                  ∧ ∃ idx netw, Node_Network conf = Some idx
                                ∧ networks s !! idx = Some netw
                                ∧ is_Some (As4 (Prefix_Addr (net_lanIP netw)))) l →
  NoDup (Node_mac <$> l) →
  (∀ m, m ∈ Node_mac <$> l → nodeByMAC s !! m = None) →
  ∃ s', foldl initNode (Ok s) l = Ok s'.
Proof.
  induction l as [|x l IH]; intros s Hok Hnd Hfresh; [by eexists|].
  apply Forall_cons in Hok as [(Hx & idx & netw & Hnet & Hidx & H4) Hok].
  rewrite fmap_cons in Hnd, Hfresh. apply NoDup_cons in Hnd as [Hnotin Hnd].
  change (foldl initNode (Ok s) (x :: l)) with (foldl initNode (initNode (Ok s) x) l).
  unfold initNode at 2. rewrite Hx, Hnet, Hidx.
  rewrite bool_decide_eq_false_2 by (rewrite Hfresh by (by left); by intros [? ?]).
  assert (∃ lanIP, allocLanIP (net_lanIP netw) (Node_mac x) = Some lanIP) as [lanIP ->].
  { unfold allocLanIP. destruct H4 as [[[[a b] c] d] ->]. by eexists. }
  apply IH; [|done|].
  - eapply Forall_impl; [exact Hok|]. simpl.
    intros conf (Hc & idx' & netw' & Hnet' & Hidx' & H4'). split; [done|].
    destruct (decide (idx' = idx)) as [->|Hne].
    + rewrite Hidx in Hidx'. injection Hidx' as <-.
      eexists idx, _. split; [done|].
      split; [apply list_lookup_insert_eq; by eapply lookup_lt_Some|done].
    + exists idx', netw'. by rewrite list_lookup_insert_ne.
  - simpl. intros m Hin. rewrite lookup_insert_ne by (by intros <-).
    apply Hfresh. by right.
Qed.

Lemma foldl_initNATs_progress (l : list Network) : ∀ (s : Server T) idx,
  (idx + length l ≤ length (networks s))%nat →
  Forall (λ conf, ∃ ctor, natTypes (natTypeOr (Network_natType conf)) = Some ctor
                          ∧ ∀ netw, is_Some (ctor netw)) l →
  ∃ s', (foldl initNATs (Ok s, idx) l).1 = Ok s'.
Proof.
  induction l as [|x l IH]; intros s idx Hlen Hok; [by eexists|].
  apply Forall_cons in Hok as [(ctor & Hctor & Ht) Hok]. simpl in Hlen.
  change (foldl initNATs (Ok s, idx) (x :: l))
    with (foldl initNATs (InitNAT s idx (natTypeOr (Network_natType x)), S idx) l).
  destruct (lookup_lt_is_Some_2 (networks s) idx) as [n Hn]; [lia|].
  unfold InitNAT. rewrite Hn, Hctor. destruct (Ht n) as [t ->].
  apply IH; [|done]. simpl. rewrite length_insert. lia.
Qed.

(** X7.  [initFromConfig] accepts every configuration in which no network
    and no node carries an error, the WAN addresses are pairwise distinct,
    the MACs are pairwise distinct, every node was added to a network of
    the configuration whose LAN prefix has an IPv4 address, and the NAT
    type of every network is registered with a constructor that does not
    fail. *)
Theorem initFromConfig_succeeds (c : Config) :
  Forall (λ conf, Network_err conf = None) (c_networks c) →
  NoDup (Network_wanIP <$> c_networks c) →
  Forall (λ n, Node_err n = None
               ∧ ∃ idx conf, Node_Network n = Some idx
                             ∧ c_networks c !! idx = Some conf
                             ∧ is_Some (As4 (Prefix_Addr (effectiveLanIP conf))))
         (c_nodes c) →
  NoDup (Node_mac <$> c_nodes c) →
  Forall (λ conf, ∃ ctor, natTypes (natTypeOr (Network_natType conf)) = Some ctor
                          ∧ ∀ netw, is_Some (ctor netw)) (c_networks c) →
  ∃ s : Server T, initFromConfig Server_empty c = Ok s.
Proof.
  intros Herr Hwan Hnodes Hmacs Hnat. unfold initFromConfig.
  destruct (foldl_initNetwork_progress (c_networks c) Server_empty Herr Hwan)
    as [s1 H1]; [intros ip _; apply lookup_empty|].
  rewrite H1.
  destruct (foldl_initNetwork_inv _ _ _ H1) as (? & [= <-] & _ & _ & Hm1 & Hn1 & _).
  simpl in Hn1.
  destruct (foldl_initNode_progress (c_nodes c) s1) as [s2 H2]; [|done| |].
  { eapply Forall_impl; [exact Hnodes|]. simpl.
    intros n (Hn & idx & conf & Hnet & Hidx & H4). split; [done|].
    exists idx, (networkOf conf). split; [done|]. split; [|done].
    by rewrite Hn1, list_lookup_fmap, Hidx. }
  { intros m _. rewrite Hm1. apply lookup_empty. }
  rewrite H2.
  destruct (foldl_initNode_inv _ _ _ H2) as (? & new & [= <-] & _ & _ & _ & _ & Hn2 & _).
  apply foldl_initNATs_progress; [|done].
  rewrite <- (Forall2_length _ _ _ Hn2), Hn1, length_fmap. simpl. lia.
Qed.

End StartProgress.

(** ** Start-up on concrete configurations *)

Section StartRuns.
Import Sample Examples ExampleNets ExampleLarge.

Lemma conf2_built : built conf2.
Proof.
  change conf2
    with (AddNode (AddNode (AddNetwork Config_zero [NetOptAddr (Addr4 2 0 0 1)]).1
                           [NodeOptNetwork 0%nat]).1 [NodeOptNetwork 0%nat]).1.
  repeat constructor.
Qed.

Lemma conf2_nodes :
  c_nodes conf2 = [mkNodeConf None macA [0%nat]; mkNodeConf None macB [0%nat]].
Proof. reflexivity. Qed.

Lemma conf2_networks :
  c_networks conf2
  = [mkNetworkConf macRouter EmptyString (Addr4 2 0 0 1) Prefix_zero [0%nat; 1%nat] ∅ None].
Proof. reflexivity. Qed.

Lemma started_networks_distinct_wan_witness :
  initFromConfig Server_empty conf2 = Ok server2
  ∧ Forall (λ conf, Network_err conf = None) (c_networks conf2)
  ∧ NoDup (Network_wanIP <$> c_networks conf2).
Proof.
  split; [exact server2_started|].
  exact (started_networks_distinct_wan conf2 server2 server2_started).
Defined.

Lemma started_nodes_distinct_mac_witness :
  initFromConfig Server_empty conf2 = Ok server2
  ∧ Forall (λ conf, Node_err conf = None
                    ∧ ∃ idx, Node_Network conf = Some idx
                             ∧ (idx < length (c_networks conf2))%nat) (c_nodes conf2)
  ∧ NoDup (Node_mac <$> c_nodes conf2).
Proof.
  split; [exact server2_started|].
  exact (started_nodes_distinct_mac conf2 server2 server2_started).
Defined.

Lemma started_nodes_mirror_config_witness :
  initFromConfig Server_empty conf2 = Ok server2
  ∧ nodes server2 = [nodeA; nodeB]
  ∧ Forall2 (λ conf nd,
               node_mac nd = Node_mac conf
               ∧ Node_Network conf = Some (node_net nd)
               ∧ nodeByMAC server2 !! Node_mac conf = Some nd
               ∧ ∃ netw, networks server2 !! node_net nd = Some netw
                         ∧ allocLanIP (net_lanIP netw) (Node_mac conf)
                           = Some (node_lanIP nd))
            (c_nodes conf2) (nodes server2).
Proof.
  split; [exact server2_started|]. split; [vm_compute; reflexivity|].
  exact (started_nodes_mirror_config conf2 server2 server2_started).
Defined.

Lemma started_networks_mirror_config_witness :
  initFromConfig Server_empty conf2 = Ok server2
  ∧ length (networks server2) = length (c_networks conf2)
  ∧ ∀ i conf, c_networks conf2 !! i = Some conf →
      ∃ netw, networks server2 !! i = Some netw
        ∧ net_mac netw = Network_mac conf
        ∧ net_wanIP netw = Network_wanIP conf
        ∧ net_lanIP netw = effectiveLanIP conf
        ∧ net_portmap netw = bool_decide (NATPMP ∈ Network_svcs conf)
        ∧ net_natStyle netw = natTypeOr (Network_natType conf)
        ∧ is_Some (net_natTable netw)
        ∧ net_writeFunc netw = ∅
        ∧ networkByWAN server2 !! Network_wanIP conf = Some i.
Proof.
  split; [exact server2_started|].
  exact (started_networks_mirror_config conf2 server2 server2_started).
Defined.

Lemma more_than_256_nodes_never_start_witness :
  built conf257
  ∧ (256 < length (c_nodes conf257))%nat
  ∧ ∀ s : Server (), initFromConfig Server_empty conf257 ≠ Ok s.
Proof.
  assert (Hb : built conf257) by (apply built_addNodes; repeat constructor).
  assert (Hlen : (256 < length (c_nodes conf257))%nat) by (vm_compute; lia).
  split; [exact Hb|]. split; [exact Hlen|].
  intros s. exact (more_than_256_nodes_never_start conf257 s Hb Hlen).
Defined.

Lemma started_nodesByIP_exact_witness :
  networks server2 !! 0%nat
  = Some (mkNetwork macRouter false (Addr4 2 0 0 1) defaultLanIP
            {[ Addr4 192 168 0 101 := nodeA; Addr4 192 168 0 102 := nodeB ]}
            "easy" (Some ()) ∅)
  ∧ ∀ ip nd,
      ({[ Addr4 192 168 0 101 := nodeA; Addr4 192 168 0 102 := nodeB ]} : gmap Addr node)
        !! ip = Some nd
      ↔ nd ∈ nodes server2 ∧ node_net nd = 0%nat ∧ node_lanIP nd = ip.
Proof.
  assert (Hn : networks server2 !! 0%nat
               = Some (mkNetwork macRouter false (Addr4 2 0 0 1) defaultLanIP
                         {[ Addr4 192 168 0 101 := nodeA; Addr4 192 168 0 102 := nodeB ]}
                         "easy" (Some ()) ∅)) by (vm_compute; reflexivity).
  split; [exact Hn|]. intros ip nd.
  exact (started_nodesByIP_exact conf2 server2 0 _ ip nd conf2_built server2_started Hn).
Defined.

Lemma initFromConfig_succeeds_witness :
  ∃ s : Server (), initFromConfig Server_empty conf2 = Ok s.
Proof.
  apply initFromConfig_succeeds; rewrite ?conf2_nodes, ?conf2_networks.
  - by repeat constructor.
  - apply NoDup_singleton.
  - repeat constructor; eexists 0%nat, _; (split; [reflexivity|]); split;
      try reflexivity; by eexists.
  - simpl. repeat (apply NoDup_cons; split; [not_in_list|]). apply NoDup_nil_2.
  - repeat constructor. eexists. split; [reflexivity|]. intros netw. by eexists.
Defined.

End StartRuns.

(** ** The link registry: registering, writing, unregistering *)

Section LinkRoundTrips.
Context {T : Type} `{Ext : External T}.

Lemma writeEth_delivered (n : nat) (res : list Z) (s : Server T) netw dst src :
  networks s !! n = Some netw →
  (12 ≤ length res)%nat →
  MAC_of_slice (take 6 res) = Some dst →
  MAC_of_slice (take 6 (drop 6 res)) = Some src →
  writeEth n res s = Ret ((), s, delivered n (net_writeFunc netw) dst src res).
Proof.
  intros Hn Hlen Hd Hs. unfold writeEth, delivered.
  rewrite bool_decide_eq_false_2 by lia. rewrite Hd, Hs.
  rewrite (bind_getNet _ _ _ _ Hn).
  destruct (IsBroadcast dst); [by rewrite forM_emit|].
  case_bool_decide; [done|]. by destruct (net_writeFunc netw !! dst).
Qed.

Lemma registerWriter_run (n : nat) (mac : MAC) (f : option Writer) (s : Server T) netw :
  networks s !! n = Some netw →
  registerWriter n mac f s
  = Ret ((), mkServer (derpIPs s) (nodes s) (nodeByMAC s)
               (<[n := set_writeFunc netw
                         (match f with
                          | Some w => <[mac := w]> (net_writeFunc netw)
                          | None => delete mac (net_writeFunc netw)
                          end)]> (networks s)) (networkByWAN s), []).
Proof.
  intros Hn. unfold registerWriter. rewrite (bind_getNet _ _ _ _ Hn). by destruct f.
Qed.

Lemma elem_of_delivered n wf dst src res e :
  e ∈ delivered n wf dst src res →
  ∃ mac w, wf !! mac = Some w ∧ e = ECall n mac w res
           ∧ (mac = dst ∨ dst = MAC_broadcast).
Proof.
  unfold delivered, IsBroadcast. case_bool_decide as Hb.
  - unfold fanout. intros [[mac w] [-> Hin]]%list_elem_of_fmap.
    apply elem_of_map_to_list in Hin. exists mac, w. simpl. auto.
  - case_bool_decide; [by intros ?%elem_of_nil|].
    destruct (wf !! dst) as [w|] eqn:Hw; [|by intros ?%elem_of_nil].
    intros ->%list_elem_of_singleton. exists dst, w. auto.
Qed.

Lemma writeEth_same_server (n : nat) (res : list Z) (s : Server T) a s' es :
  writeEth n res s = Ret (a, s', es) → s' = s.
Proof.
  destruct (decide (length res < 12)%nat) as [Hshort|Hlong].
  { rewrite writeEth_short by done. by intros [= _ <- _]. }
  destruct (MAC_of_slice_long res) as [dst Hd]; [lia|].
  destruct (MAC_of_slice_long (drop 6 res)) as [src Hs]; [rewrite length_drop; lia|].
  destruct (networks s !! n) as [netw|] eqn:Hn.
  - rewrite (writeEth_delivered n res s netw dst src Hn) by (done || lia).
    by intros [= _ <- _].
  - unfold writeEth. rewrite bool_decide_eq_false_2 by done. rewrite Hd, Hs.
    unfold bind, getNet. cbv beta iota. by rewrite Hn.
Qed.

Lemma writeEth_calls (n : nat) (res : list Z) (s : Server T) e :
  e ∈ effects_of (writeEth n res s) →
  ∃ netw mac w,
    networks s !! n = Some netw ∧ net_writeFunc netw !! mac = Some w
    ∧ e = ECall n mac w res
    ∧ (take 6 res = HWAddr mac ∨ take 6 res = HWAddr MAC_broadcast).
Proof.
  destruct (decide (length res < 12)%nat) as [Hshort|Hlong].
  { rewrite writeEth_short by done. simpl. by intros ?%elem_of_nil. }
  destruct (MAC_of_slice_long res) as [dst Hd]; [lia|].
  destruct (MAC_of_slice_long (drop 6 res)) as [src Hs]; [rewrite length_drop; lia|].
  destruct (networks s !! n) as [netw|] eqn:Hn.
  - rewrite (writeEth_delivered n res s netw dst src Hn) by (done || lia).
    simpl. intros He.
    destruct (elem_of_delivered _ _ _ _ _ _ He) as (mac & w & Hw & -> & Hdst).
    exists netw, mac, w. split_and!; try done.
    destruct Hdst as [->| ->]; [left|right]; by apply MAC_of_slice_take6.
  - unfold writeEth. rewrite bool_decide_eq_false_2 by done. rewrite Hd, Hs.
    unfold bind, getNet. cbv beta iota. rewrite Hn. simpl. by intros ?%elem_of_nil.
Qed.

(** X8.  [writeEth] never changes the server, and every call it makes is a
    call of a writer that is registered on the network, for the MAC it is
    registered for, with the frame unchanged; that MAC is the destination
    of the frame unless the destination is the broadcast address. *)
Theorem writeEth_calls_registered_writers (n : nat) (res : list Z) (s : Server T) :
  (∀ a s' es, writeEth n res s = Ret (a, s', es) → s' = s)
  ∧ ∀ e, e ∈ effects_of (writeEth n res s) →
      ∃ netw mac w,
        networks s !! n = Some netw ∧ net_writeFunc netw !! mac = Some w
        ∧ e = ECall n mac w res
        ∧ (take 6 res = HWAddr mac ∨ take 6 res = HWAddr MAC_broadcast).
Proof.
  split.
  - intros a s' es. apply writeEth_same_server.
  - intros e. apply writeEth_calls.
Qed.

(** X9.  Registering a writer and then writing a unicast frame for its MAC
    calls that writer, and no other, exactly once with the frame; a writer
    that was registered for the MAC before is replaced. *)
Theorem registered_writer_gets_unicast (n : nat) (mac src : MAC) (w : Writer)
    (res : list Z) (s : Server T) netw :
  networks s !! n = Some netw →
  (12 ≤ length res)%nat →
  take 6 res = HWAddr mac → take 6 (drop 6 res) = HWAddr src →
  mac ≠ MAC_broadcast → src ≠ mac →
  ∃ s', (let* _ := registerWriter n mac (Some w) in writeEth n res) s
        = Ret ((), s', [ECall n mac w res]).
Proof.
  intros Hn Hlen Hd Hs Hb Hne. eexists. unfold bind at 1.
  rewrite (registerWriter_run _ _ _ _ _ Hn).
  erewrite writeEth_delivered; [| |done|by apply MAC_of_slice_take6..].
  2:{ simpl. apply list_lookup_insert_eq. by eapply lookup_lt_Some. }
  simpl. unfold delivered, IsBroadcast.
  rewrite (bool_decide_eq_false_2 _ Hb), (bool_decide_eq_false_2 _ Hne).
  by rewrite lookup_insert_eq.
Qed.

(** X10.  After [registerWriter(mac, nil)] no frame reaches a writer for
    [mac], neither a unicast frame nor a broadcast, whatever was registered
    for the MAC before and whoever registered it. *)
Theorem unregistered_mac_gets_nothing (n : nat) (mac : MAC) (res : list Z) (s : Server T) :
  copies_to mac (effects_of ((let* _ := registerWriter n mac None in writeEth n res) s))
  = 0%nat.
Proof.
  destruct (networks s !! n) as [netw|] eqn:Hn.
  - erewrite effects_of_bind by (by apply registerWriter_run). simpl.
    match goal with |- context [writeEth n res ?s1] =>
      pose proof (writeEth_calls n res s1) as Hcalls end.
    induction (effects_of _) as [|e es IH]; [done|].
    unfold copies_to in *. simpl.
    destruct (Hcalls e) as (netw' & mac' & w & Hn' & Hw & -> & _); [by left|].
    simpl in Hn'. rewrite list_lookup_insert_eq in Hn' by (by eapply lookup_lt_Some).
    injection Hn' as <-. simpl in Hw.
    rewrite bool_decide_eq_false_2.
    + apply IH. intros e' He'. apply Hcalls. by right.
    + intros ->. by rewrite lookup_delete_eq in Hw.
  - unfold registerWriter. unfold bind, getNet. cbv beta. by rewrite Hn.
Qed.

End LinkRoundTrips.

(** ** Frames on the LAN: switching and ARP *)

Section LanFrames.
Context {T : Type} `{Ext : External T}.

Lemma bind_ret_r (m : M T ()) (s s' : Server T) es :
  m s = Ret ((), s', es) → (let* _ := m in ret ()) s = Ret ((), s', es).
Proof. intros Hm. unfold bind. rewrite Hm. simpl. by rewrite app_nil_r. Qed.

Lemma serialized_length eth rest b :
  ethernet_header_law →
  length (eth_DstMAC eth) = 6%nat → length (eth_SrcMAC eth) = 6%nat →
  SerializeLayers (LEthernet eth :: rest) = Some b →
  (12 ≤ length b)%nat.
Proof.
  intros Hlaw Hd Hs Hb. destruct (Hlaw _ _ _ Hd Hs Hb) as [_ H2].
  apply (f_equal length) in H2. rewrite length_take, length_drop, Hs in H2. lia.
Qed.

(** X11.  An IPv4 frame whose destination MAC is neither the router's nor
    the broadcast address is switched, not routed: it goes to the writer
    registered for the destination MAC, if there is one and the frame does
    not come from that MAC itself, and the router does not look at it,
    whatever it carries. *)
Theorem lan_unicast_is_switched fuel n ep now (s : Server T) netw dstMAC srcMAC :
  networks s !! n = Some netw →
  DstMAC ep = Some dstMAC →
  eth_EthernetType (le ep) = EthernetTypeIPv4 →
  dstMAC ≠ net_mac netw → dstMAC ≠ MAC_broadcast →
  (12 ≤ length (pkt_Data (gp ep)))%nat →
  take 6 (pkt_Data (gp ep)) = HWAddr dstMAC →
  take 6 (drop 6 (pkt_Data (gp ep))) = HWAddr srcMAC →
  HandleEthernetPacket fuel n ep now s
  = Ret ((), s,
         if bool_decide (srcMAC = dstMAC) then []
         else match net_writeFunc netw !! dstMAC with
              | Some w => [ECall n dstMAC w (pkt_Data (gp ep))]
              | None => []
              end).
Proof.
  intros Hn Hd Hty Hr Hb Hlen Hdst Hsrc.
  rewrite (HandleEthernetPacket_ipv4 _ _ _ _ _ _ _ Hn Hd Hty).
  rewrite (bool_decide_eq_false_2 _ Hr). unfold IsBroadcast at 1.
  rewrite (bool_decide_eq_false_2 _ Hb). simpl.
  apply bind_ret_r.
  rewrite (writeEth_delivered n _ s netw dstMAC srcMAC Hn Hlen)
    by (by apply MAC_of_slice_take6).
  unfold delivered, IsBroadcast. by rewrite (bool_decide_eq_false_2 _ Hb).
Qed.

Lemma HandleEthernetPacket_arp_run fuel n ep now (s : Server T) netw dstMAC :
  networks s !! n = Some netw →
  DstMAC ep = Some dstMAC →
  eth_EthernetType (le ep) = EthernetTypeARP →
  HandleEthernetPacket fuel n ep now s
  = writeResult n (createARPResponse netw (gp ep)) s.
Proof.
  intros Hn Hd Harp. unfold HandleEthernetPacket. rewrite Hd, Harp.
  by rewrite (bind_getNet _ _ _ _ Hn).
Qed.

Lemma arpReply_Some netw pkt ethLayer arpLayer found :
  Layer_Ethernet pkt = Some ethLayer →
  Layer_ARP pkt = Some arpLayer →
  wellFormedARPRequest arpLayer →
  MACOfIP netw (AddrFromSlice (arp_DstProtAddress arpLayer)).1 = (found, true) →
  createARPResponse netw pkt
  = serialize (arpReplyLayers found (eth_SrcMAC ethLayer) (arp_DstProtAddress arpLayer)
                              (arp_SourceProtAddress arpLayer)).
Proof.
  intros He Ha (H1 & H2 & H3 & H4 & H5 & H6) Hfound.
  unfold createARPResponse, arpReply. rewrite He, Ha.
  rewrite (bool_decide_eq_false_2 (arp_Operation arpLayer ≠ _)) by (intros Hc; by apply Hc).
  rewrite (bool_decide_eq_false_2 (arp_AddrType arpLayer ≠ _)) by (intros Hc; by apply Hc).
  rewrite (bool_decide_eq_false_2 (arp_Protocol arpLayer ≠ _)) by (intros Hc; by apply Hc).
  rewrite (bool_decide_eq_false_2 (arp_HwAddressSize arpLayer ≠ _)) by (intros Hc; by apply Hc).
  rewrite (bool_decide_eq_false_2 (arp_ProtAddressSize arpLayer ≠ _)) by (intros Hc; by apply Hc).
  rewrite (bool_decide_eq_false_2 (length _ ≠ _)) by (intros Hc; by apply Hc).
  simpl. by rewrite Hfound.
Qed.

(** X12.  A well-formed ARP request for the router's LAN address or for
    the LAN address of a node of the network is answered: the reply names
    the MAC found for the address as its sender, it is addressed to the
    source MAC of the request, and it is written once, to the writer
    registered for that MAC.  (The requester is not the owner of the
    address, and the serializer puts the two MACs first.) *)
Theorem arp_request_answered fuel n ep now (s : Server T) netw dstMAC
    ethLayer arpLayer found requester w reply :
  ethernet_header_law →
  networks s !! n = Some netw →
  DstMAC ep = Some dstMAC →
  eth_EthernetType (le ep) = EthernetTypeARP →
  Layer_Ethernet (gp ep) = Some ethLayer →
  eth_SrcMAC ethLayer = HWAddr requester →
  Layer_ARP (gp ep) = Some arpLayer →
  wellFormedARPRequest arpLayer →
  MACOfIP netw (AddrFromSlice (arp_DstProtAddress arpLayer)).1 = (found, true) →
  SerializeLayers (arpReplyLayers found (HWAddr requester) (arp_DstProtAddress arpLayer)
                                  (arp_SourceProtAddress arpLayer)) = Some reply →
  requester ≠ MAC_broadcast → found ≠ requester →
  net_writeFunc netw !! requester = Some w →
  HandleEthernetPacket fuel n ep now s = Ret ((), s, [ECall n requester w reply]).
Proof.
  intros Hlaw Hn Hd Hty He Hsrc Ha Hwf Hfound Hser Hb Hne Hw.
  rewrite (HandleEthernetPacket_arp_run _ _ _ _ _ _ _ Hn Hd Hty).
  rewrite (arpReply_Some _ _ _ _ _ He Ha Hwf Hfound), Hsrc.
  unfold serialize. rewrite Hser. simpl.
  destruct (Hlaw (mkEthernet (HWAddr found) (HWAddr requester) EthernetTypeARP) _ _
              eq_refl eq_refl Hser) as [H1 H2]. simpl in H1, H2.
  assert (Hlen : (12 ≤ length reply)%nat).
  { apply (f_equal length) in H2. rewrite length_take, length_drop in H2.
    change (length (HWAddr _)) with 6%nat in H2. lia. }
  rewrite (writeEth_delivered n reply s netw requester found Hn Hlen)
    by (by apply MAC_of_slice_take6).
  unfold delivered, IsBroadcast.
  by rewrite (bool_decide_eq_false_2 _ Hb), (bool_decide_eq_false_2 _ Hne), Hw.
Qed.

(** X13.  A node that sends an ARP request for its own LAN address gets no
    answer: the reply would carry the node's MAC as source and as
    destination, and [writeEth] drops such a frame. *)
Theorem arp_for_own_address_unanswered fuel n ep now (s : Server T) netw dstMAC
    ethLayer arpLayer requester reply :
  ethernet_header_law →
  networks s !! n = Some netw →
  DstMAC ep = Some dstMAC →
  eth_EthernetType (le ep) = EthernetTypeARP →
  Layer_Ethernet (gp ep) = Some ethLayer →
  eth_SrcMAC ethLayer = HWAddr requester →
  Layer_ARP (gp ep) = Some arpLayer →
  wellFormedARPRequest arpLayer →
  MACOfIP netw (AddrFromSlice (arp_DstProtAddress arpLayer)).1 = (requester, true) →
  SerializeLayers (arpReplyLayers requester (HWAddr requester)
                                  (arp_DstProtAddress arpLayer)
                                  (arp_SourceProtAddress arpLayer)) = Some reply →
  requester ≠ MAC_broadcast →
  HandleEthernetPacket fuel n ep now s = Ret ((), s, []).
Proof.
  intros Hlaw Hn Hd Hty He Hsrc Ha Hwf Hfound Hser Hb.
  rewrite (HandleEthernetPacket_arp_run _ _ _ _ _ _ _ Hn Hd Hty).
  rewrite (arpReply_Some _ _ _ _ _ He Ha Hwf Hfound), Hsrc.
  unfold serialize. rewrite Hser. simpl.
  destruct (Hlaw (mkEthernet (HWAddr requester) (HWAddr requester) EthernetTypeARP) _ _
              eq_refl eq_refl Hser) as [H1 H2]. simpl in H1, H2.
  assert (Hlen : (12 ≤ length reply)%nat).
  { apply (f_equal length) in H2. rewrite length_take, length_drop in H2.
    change (length (HWAddr _)) with 6%nat in H2. lia. }
  rewrite (writeEth_delivered n reply s netw requester requester Hn Hlen)
    by (by apply MAC_of_slice_take6).
  unfold delivered, IsBroadcast.
  rewrite (bool_decide_eq_false_2 _ Hb). by rewrite bool_decide_eq_true_2.
Qed.

(** X14.  An ARP frame that is not a well-formed request for an IPv4
    address, or that asks for an address that is neither the router's nor a
    node's, is dropped: nothing is written and the server is unchanged. *)
Theorem arp_unanswerable_dropped fuel n ep now (s : Server T) netw dstMAC arpLayer :
  networks s !! n = Some netw →
  DstMAC ep = Some dstMAC →
  eth_EthernetType (le ep) = EthernetTypeARP →
  Layer_ARP (gp ep) = Some arpLayer →
  ¬ wellFormedARPRequest arpLayer
  ∨ (MACOfIP netw (AddrFromSlice (arp_DstProtAddress arpLayer)).1).2 = false →
  HandleEthernetPacket fuel n ep now s = Ret ((), s, []).
Proof.
  intros Hn Hd Hty Ha Hbad.
  rewrite (HandleEthernetPacket_arp_run _ _ _ _ _ _ _ Hn Hd Hty).
  assert (Hnil : createARPResponse netw (gp ep) = Ok []); [|by rewrite Hnil].
  unfold createARPResponse, arpReply.
  destruct (Layer_Ethernet (gp ep)) as [ethLayer|]; [|done]. rewrite Ha.
  destruct (_ || _) eqn:Hchk; [done|].
  repeat (apply orb_false_elim in Hchk as [Hchk ?]).
  repeat match goal with
         | H : bool_decide (_ ≠ _) = false |- _ =>
             apply bool_decide_eq_false in H; apply dec_stable in H
         end.
  destruct Hbad as [Hbad|Hbad]; [by destruct Hbad|].
  simpl. destruct (MACOfIP _ _) as [m ok]. simpl in Hbad. by rewrite Hbad.
Qed.

End LanFrames.

(** ** Handling a packet changes nothing but NAT tables *)

Lemma Forall2_refl_rel {A} (R : A → A → Prop) (l : list A) :
  (∀ a, R a a) → Forall2 R l l.
Proof. intros HR. induction l; constructor; auto. Qed.

Lemma Forall2_insert_rel {A} (R : A → A → Prop) (l : list A) i x y :
  (∀ a, R a a) → l !! i = Some x → R x y → Forall2 R l (<[i := y]> l).
Proof.
  intros HR Hi Hxy. rewrite <- (list_insert_id l i x Hi) at 1.
  apply Forall2_insert; [by apply Forall2_refl_rel|done].
Qed.

Section NatOnly.
Context {T : Type} `{Ext : External T}.

Lemma only_nat_table_refl (a : network T) : only_nat_table a a.
Proof. by repeat split. Qed.

Lemma only_nat_table_trans (a b c : network T) :
  only_nat_table a b → only_nat_table b c → only_nat_table a c.
Proof.
  intros (?&?&?&?&?&?&?&?) (?&?&?&?&?&?&?&?). split_and!; try congruence. auto.
Qed.

Lemma nat_only_refl (s : Server T) : nat_only s s.
Proof.
  split_and!; try done. apply Forall2_refl_rel, only_nat_table_refl.
Qed.

Lemma nat_only_trans (s1 s2 s3 : Server T) :
  nat_only s1 s2 → nat_only s2 s3 → nat_only s1 s3.
Proof.
  intros (?&?&?&?&H12) (?&?&?&?&H23). split_and!; try congruence.
  eapply Forall2_trans_rel; [exact only_nat_table_trans|exact H12|exact H23].
Qed.

Lemma nat_only_with_natTable (s : Server T) n netw t :
  networks s !! n = Some netw → nat_only s (with_natTable s n netw t).
Proof.
  intros Hn. split_and!; try done. simpl.
  apply (Forall2_insert_rel _ _ _ netw); [apply only_nat_table_refl|done|].
  by split_and!.
Qed.

Lemma nat_only_ready (s s' : Server T) : nat_only s s' → nat_ready s → nat_ready s'.
Proof.
  intros (_ & _ & _ & Hw & Hnets) [R1 R2]. split.
  - intros i netw' Hi.
    destruct (Forall2_lookup_r _ _ _ _ _ Hnets Hi) as (netw & Hi0 & Hsame).
    destruct Hsame as (_&_&_&_&_&_&_&Htable). apply Htable. by eapply R1.
  - intros ip i. rewrite Hw, <- (Forall2_length _ _ _ Hnets). apply R2.
Qed.

Lemma keeps_ret {A} (a : A) : keeps (T:=T) (ret a).
Proof. intros s a' s' es [= _ <- _]. apply nat_only_refl. Qed.

Lemma keeps_panic {A} : keeps (T:=T) (A:=A) panic.
Proof. by intros s a s' es. Qed.

Lemma keeps_outOfFuel {A} : keeps (T:=T) (A:=A) outOfFuel.
Proof. by intros s a s' es. Qed.

Lemma keeps_emit e : keeps (T:=T) (emit e).
Proof. intros s a s' es [= _ <- _]. apply nat_only_refl. Qed.

Lemma keeps_getServer : keeps (T:=T) getServer.
Proof. intros s a s' es [= _ <- _]. apply nat_only_refl. Qed.

Lemma keeps_getNet n : keeps (T:=T) (getNet n).
Proof.
  intros s a s' es. unfold getNet. destruct (networks s !! n); [|done].
  intros [= _ <- _]. apply nat_only_refl.
Qed.

Lemma keeps_bind {A B} (m : M T A) (f : A → M T B) :
  keeps m → (∀ a, keeps (f a)) → keeps (bind m f).
Proof.
  intros Hm Hf s b s' es. unfold bind.
  destruct (m s) as [[[a s1] e1]|e1|e1] eqn:Em; [|done..].
  destruct (f a s1) as [[[b' s2] e2]|e2|e2] eqn:Ef; [|done..].
  intros [= _ <- _]. eapply nat_only_trans; [by eapply Hm|by eapply Hf].
Qed.

Lemma keeps_writeEth n res : keeps (T:=T) (writeEth n res).
Proof.
  intros s a s' es Hrun. rewrite (writeEth_same_server _ _ _ _ _ _ Hrun).
  apply nat_only_refl.
Qed.

Lemma keeps_writeResult n r : keeps (T:=T) (writeResult n r).
Proof.
  destruct r; simpl; [apply keeps_writeEth|apply keeps_ret|apply keeps_panic].
Qed.

Lemma doNAT_run n (pick : T → AddrPort * T) (s : Server T) netw t :
  networks s !! n = Some netw → net_natTable netw = Some t →
  (let* netw := getNet n in
   match net_natTable netw with
   | None => panic
   | Some t =>
       let '(a, t') := pick t in
       let* _ := setNet n (set_natTable netw (Some t')) in
       ret a
   end) s
  = Ret ((pick t).1, with_natTable s n netw (pick t).2, []).
Proof.
  intros Hn Ht. rewrite (bind_getNet _ _ _ _ Hn), Ht. by destruct (pick t) as [a t'].
Qed.

Lemma keeps_doNAT n (pick : T → AddrPort * T) :
  keeps (let* netw := getNet n in
         match net_natTable netw with
         | None => panic
         | Some t =>
             let '(a, t') := pick t in
             let* _ := setNet n (set_natTable netw (Some t')) in
             ret a
         end).
Proof.
  intros s a s' es.
  destruct (networks s !! n) as [netw|] eqn:Hn;
    [|unfold bind, getNet; by rewrite Hn].
  destruct (net_natTable netw) as [t|] eqn:Ht.
  - rewrite (doNAT_run n pick s netw t Hn Ht). intros [= _ <- _].
    by apply nat_only_with_natTable.
  - rewrite (bind_getNet _ _ _ _ Hn), Ht. done.
Qed.

Lemma keeps_WriteUDPPacketNoNAT n p : keeps (T:=T) (WriteUDPPacketNoNAT n p).
Proof.
  unfold WriteUDPPacketNoNAT. apply keeps_bind; [apply keeps_getNet|]. intros netw.
  destruct (net_nodesByIP netw !! _); [|apply keeps_ret].
  destruct (serialize _); [apply keeps_writeEth|apply keeps_ret..].
Qed.

Lemma keeps_HandleUDPPacket n p now : keeps (T:=T) (HandleUDPPacket n p now).
Proof.
  unfold HandleUDPPacket, doNATIn.
  apply keeps_bind; [apply (keeps_doNAT n (λ t, PickIncomingDst t (Src p) (Dst p) now))|].
  intros dst. destruct (negb _); [apply keeps_ret|apply keeps_WriteUDPPacketNoNAT].
Qed.

Lemma keeps_routeUDPPacket fuel up now : keeps (T:=T) (routeUDPPacket fuel up now).
Proof.
  revert up. induction fuel as [|fuel IH]; intros up; simpl; [apply keeps_outOfFuel|].
  case_bool_decide.
  - destruct (makeSTUNReply up) as [res [|]]; [apply IH|apply keeps_ret].
  - apply keeps_bind; [apply keeps_getServer|]. intros s.
    destruct (networkByWAN s !! _); [apply keeps_HandleUDPPacket|apply keeps_ret].
Qed.

Lemma keeps_handleNATPMPRequest n req now : keeps (T:=T) (handleNATPMPRequest n req now).
Proof.
  unfold handleNATPMPRequest. case_bool_decide; [|apply keeps_ret].
  apply keeps_bind; [apply keeps_getNet|]. intros netw.
  destruct (natpmpReplyPayload _ _); [apply keeps_WriteUDPPacketNoNAT|apply keeps_panic].
Qed.

Lemma keeps_router fuel n ep now :
  keeps (T:=T) (HandleEthernetIPv4PacketForRouter fuel n ep now).
Proof.
  unfold HandleEthernetIPv4PacketForRouter.
  destruct (Layer_IPv4 (gp ep)) as [v4|]; [|apply keeps_ret].
  apply keeps_bind; [apply keeps_getNet|]. intros netw.
  destruct (isDHCPRequest _).
  { apply keeps_bind; [apply keeps_getServer|]. intros s. apply keeps_writeResult. }
  destruct (_ || _); [apply keeps_ret|].
  destruct (isDNSRequest _); [apply keeps_writeResult|].
  destruct (negb _ && isNATPMP _).
  { destruct (Layer_UDP _); [apply keeps_handleNATPMPRequest|apply keeps_panic]. }
  destruct (_ && bool_decide _).
  { destruct (Layer_UDP _) as [u|]; [|apply keeps_panic]. unfold doNATOut.
    apply keeps_bind; [|intros src'; apply keeps_routeUDPPacket].
    apply (keeps_doNAT n (λ t, PickOutgoingSrc t (AddrPortFrom _ (udp_SrcPort u))
                                              (AddrPortFrom _ (udp_DstPort u)) now)). }
  apply keeps_bind; [apply keeps_getServer|]. intros s.
  destruct (_ && _); [apply keeps_emit|apply keeps_ret].
Qed.

Lemma keeps_HandleEthernetPacket fuel n ep now :
  keeps (T:=T) (HandleEthernetPacket fuel n ep now).
Proof.
  unfold HandleEthernetPacket. destruct (DstMAC ep) as [dstMAC|]; [|apply keeps_panic].
  apply keeps_bind; [apply keeps_getNet|]. intros netw.
  case_bool_decide; [apply keeps_writeResult|].
  case_bool_decide; [apply keeps_ret|].
  case_bool_decide; [|apply keeps_ret].
  apply keeps_bind; [apply keeps_writeEth|]. intros _.
  destruct (_ || _); [apply keeps_router|apply keeps_ret].
Qed.

(** X15.  Handling a frame of a guest touches nothing of the server but
    the NAT tables of its networks, and does not lose one: the nodes, the
    MAC and WAN indexes, the LAN configuration, the node tables and the
    registered writers are afterwards what they were before. *)
Theorem frame_handling_changes_nat_tables_only fuel n ep now (s s' : Server T) es :
  HandleEthernetPacket fuel n ep now s = Ret ((), s', es) →
  derpIPs s' = derpIPs s ∧ nodes s' = nodes s ∧ nodeByMAC s' = nodeByMAC s
  ∧ networkByWAN s' = networkByWAN s
  ∧ length (networks s') = length (networks s)
  ∧ ∀ i netw, networks s !! i = Some netw →
      ∃ netw', networks s' !! i = Some netw'
        ∧ net_mac netw' = net_mac netw ∧ net_portmap netw' = net_portmap netw
        ∧ net_wanIP netw' = net_wanIP netw ∧ net_lanIP netw' = net_lanIP netw
        ∧ net_nodesByIP netw' = net_nodesByIP netw
        ∧ net_natStyle netw' = net_natStyle netw
        ∧ net_writeFunc netw' = net_writeFunc netw
        ∧ (is_Some (net_natTable netw) → is_Some (net_natTable netw')).
Proof.
  intros Hrun.
  destruct (keeps_HandleEthernetPacket fuel n ep now s () s' es Hrun)
    as (H1 & H2 & H3 & H4 & Hnets).
  split_and!; try done.
  - symmetry. by eapply Forall2_length.
  - intros i netw Hi.
    destruct (Forall2_lookup_l _ _ _ _ _ Hnets Hi) as (netw' & Hi' & Hsame).
    destruct Hsame as (?&?&?&?&?&?&?&?). exists netw'. by split_and!.
Qed.

End NatOnly.

(** ** Packets from the WAN *)

Section WanPackets.
Context {T : Type} `{Ext : External T}.

Lemma writeEth_returns n res (s : Server T) :
  (n < length (networks s))%nat → ∃ es, writeEth n res s = Ret ((), s, es).
Proof.
  intros Hlt. destruct (lookup_lt_is_Some_2 _ _ Hlt) as [netw Hn].
  destruct (decide (length res < 12)%nat) as [Hshort|Hlong].
  { rewrite writeEth_short by done. by eexists. }
  destruct (MAC_of_slice_long res) as [dst Hd]; [lia|].
  destruct (MAC_of_slice_long (drop 6 res)) as [src Hs]; [rewrite length_drop; lia|].
  rewrite (writeEth_delivered n res s netw dst src Hn) by (done || lia). by eexists.
Qed.

Lemma WriteUDPPacketNoNAT_returns n p (s : Server T) :
  (n < length (networks s))%nat → ∃ es, WriteUDPPacketNoNAT n p s = Ret ((), s, es).
Proof.
  intros Hlt. destruct (lookup_lt_is_Some_2 _ _ Hlt) as [netw Hn].
  unfold WriteUDPPacketNoNAT. rewrite (bind_getNet _ _ _ _ Hn).
  destruct (net_nodesByIP netw !! _); [|by eexists].
  destruct (serialize _); [by apply writeEth_returns|by eexists..].
Qed.

Lemma HandleUDPPacket_run n p now (s : Server T) netw t :
  networks s !! n = Some netw → net_natTable netw = Some t →
  let dst := (PickIncomingDst t (Src p) (Dst p) now).1 in
  let s1 := with_natTable s n netw (PickIncomingDst t (Src p) (Dst p) now).2 in
  HandleUDPPacket n p now s
  = if negb (AddrPort_IsValid dst) then Ret ((), s1, [])
    else WriteUDPPacketNoNAT n (mkUDPPacket (Src p) dst (Payload p)) s1.
Proof.
  intros Hn Ht dst s1. unfold HandleUDPPacket, doNATIn, bind at 1.
  rewrite (doNAT_run n (λ t, PickIncomingDst t (Src p) (Dst p) now) s netw t Hn Ht).
  fold dst s1. destruct (negb _); [done|].
  by destruct (WriteUDPPacketNoNAT _ _ _) as [[[[] s2] e2]|e2|e2].
Qed.

Lemma HandleUDPPacket_returns n p now (s : Server T) :
  nat_ready s → (n < length (networks s))%nat →
  ∃ s' es, HandleUDPPacket n p now s = Ret ((), s', es).
Proof.
  intros [R1 _] Hlt. destruct (lookup_lt_is_Some_2 _ _ Hlt) as [netw Hn].
  destruct (R1 _ _ Hn) as [t Ht].
  rewrite (HandleUDPPacket_run n p now s netw t Hn Ht).
  destruct (negb _); [by do 2 eexists|].
  match goal with |- context [WriteUDPPacketNoNAT n ?q ?s1] =>
    destruct (WriteUDPPacketNoNAT_returns n q s1) as [es ->] end; [|by do 2 eexists].
  simpl. by rewrite length_insert.
Qed.

Lemma routeUDPPacket_once_returns fuel up now (s : Server T) :
  nat_ready s → ap_port (Dst up) ≠ stunPort →
  ∃ s' es, routeUDPPacket (S fuel) up now s = Ret ((), s', es).
Proof.
  intros Hs Hport. rewrite routeUDPPacket_other by done.
  destruct (networkByWAN s !! _) as [i|] eqn:Hi; [|by do 2 eexists].
  apply HandleUDPPacket_returns; [done|]. by eapply (proj2 Hs).
Qed.

(** X16.  On a server in which every network has a NAT table, routing a
    UDP packet on the WAN always returns: it neither panics nor recurses
    more than once, and the server is afterwards again one in which every
    network has a NAT table.  (A binding response does not parse as a
    binding request.) *)
Theorem routeUDPPacket_returns fuel up now (s : Server T) :
  stun_response_is_no_request → nat_ready s →
  ∃ s' es, routeUDPPacket (S (S fuel)) up now s = Ret ((), s', es) ∧ nat_ready s'.
Proof.
  intros Hlaw Hs.
  assert (∃ s' es, routeUDPPacket (S (S fuel)) up now s = Ret ((), s', es))
    as (s' & es & Hrun).
  { destruct (decide (ap_port (Dst up) = stunPort)) as [Hp|Hp];
      [|by apply routeUDPPacket_once_returns].
    simpl. rewrite (bool_decide_eq_true_2 _ Hp). unfold makeSTUNReply at 1.
    destruct (ParseBindingRequest (Payload up)) as [tx|]; [|by do 2 eexists].
    simpl. case_bool_decide as Hsrc.
    - unfold makeSTUNReply. simpl. rewrite Hlaw. by do 2 eexists.
    - rewrite bind_getServer.
      destruct (networkByWAN s !! _) as [i|] eqn:Hi; [|by do 2 eexists].
      apply HandleUDPPacket_returns; [done|]. by eapply (proj2 Hs). }
  exists s', es. split; [done|].
  eapply nat_only_ready; [|exact Hs]. by eapply keeps_routeUDPPacket.
Qed.

(** X17.  A binding request that comes from port 3478 itself gets no
    answer: the response is addressed to port 3478, so [routeUDPPacket]
    takes it for a STUN packet, fails to parse it as a request and drops
    it. *)
Theorem stun_request_from_stun_port_unanswered fuel up now (s : Server T) tx :
  stun_response_is_no_request →
  ap_port (Dst up) = stunPort → ap_port (Src up) = stunPort →
  ParseBindingRequest (Payload up) = Some tx →
  routeUDPPacket (S (S fuel)) up now s = Ret ((), s, []).
Proof.
  intros Hlaw Hd Hsrc Hparse. simpl.
  rewrite (bool_decide_eq_true_2 _ Hd). unfold makeSTUNReply at 1. rewrite Hparse.
  simpl. rewrite (bool_decide_eq_true_2 _ Hsrc). unfold makeSTUNReply. simpl.
  by rewrite Hlaw.
Qed.

(** X18.  A UDP packet from the WAN whose translated destination is the
    LAN address of a node reaches that node and nobody else: it is written
    once, to the writer registered for the node's MAC, as a frame from the
    router's MAC that carries the source of the packet unchanged, the
    translated destination and the payload. *)
Theorem wan_packet_delivered n p now (s : Server T) netw t nd w frame :
  ethernet_header_law →
  networks s !! n = Some netw → net_natTable netw = Some t →
  let dst := (PickIncomingDst t (Src p) (Dst p) now).1 in
  AddrPort_IsValid dst = true →
  net_nodesByIP netw !! ap_addr dst = Some nd →
  SerializeLayers (udpLayers (net_mac netw) (node_mac nd)
                             (mkUDPPacket (Src p) dst (Payload p))) = Some frame →
  node_mac nd ≠ MAC_broadcast → net_mac netw ≠ node_mac nd →
  net_writeFunc netw !! node_mac nd = Some w →
  HandleUDPPacket n p now s
  = Ret ((), with_natTable s n netw (PickIncomingDst t (Src p) (Dst p) now).2,
         [ECall n (node_mac nd) w frame]).
Proof.
  intros Hlaw Hn Ht dst Hvalid Hnd Hser Hb Hne Hw.
  rewrite (HandleUDPPacket_run n p now s netw t Hn Ht). fold dst. rewrite Hvalid. simpl.
  assert (Hn1 : networks (with_natTable s n netw (PickIncomingDst t (Src p) (Dst p) now).2)
                !! n = Some (set_natTable netw
                               (Some (PickIncomingDst t (Src p) (Dst p) now).2))).
  { simpl. apply list_lookup_insert_eq. by eapply lookup_lt_Some. }
  unfold WriteUDPPacketNoNAT. rewrite (bind_getNet _ _ _ _ Hn1). simpl. rewrite Hnd.
  unfold serialize. unfold udpLayers in Hser. simpl in Hser. rewrite Hser.
  destruct (Hlaw (mkEthernet (HWAddr (net_mac netw)) (HWAddr (node_mac nd))
                             EthernetTypeIPv4) _ _ eq_refl eq_refl Hser) as [H1 H2].
  simpl in H1, H2.
  assert (Hlen : (12 ≤ length frame)%nat).
  { apply (f_equal length) in H2. rewrite length_take, length_drop in H2.
    change (length (HWAddr _)) with 6%nat in H2. lia. }
  rewrite (writeEth_delivered n frame _ _ (node_mac nd) (net_mac netw) Hn1 Hlen)
    by (by apply MAC_of_slice_take6).
  unfold delivered, IsBroadcast. simpl.
  by rewrite (bool_decide_eq_false_2 _ Hb), (bool_decide_eq_false_2 _ Hne), Hw.
Qed.

(** X19.  A UDP packet from the WAN for which the NAT table has no
    mapping (it returns the invalid address), or whose translated
    destination is not the LAN address of a node, is dropped: nothing is
    written; only the NAT table has seen the packet. *)
Theorem wan_packet_dropped n p now (s : Server T) netw t :
  networks s !! n = Some netw → net_natTable netw = Some t →
  let dst := (PickIncomingDst t (Src p) (Dst p) now).1 in
  AddrPort_IsValid dst = false ∨ net_nodesByIP netw !! ap_addr dst = None →
  HandleUDPPacket n p now s
  = Ret ((), with_natTable s n netw (PickIncomingDst t (Src p) (Dst p) now).2, []).
Proof.
  intros Hn Ht dst Hdrop.
  rewrite (HandleUDPPacket_run n p now s netw t Hn Ht). fold dst.
  destruct (AddrPort_IsValid dst) eqn:Hvalid; [|done]. simpl.
  destruct Hdrop as [?|Hnone]; [done|].
  assert (Hn1 : networks (with_natTable s n netw (PickIncomingDst t (Src p) (Dst p) now).2)
                !! n = Some (set_natTable netw
                               (Some (PickIncomingDst t (Src p) (Dst p) now).2))).
  { simpl. apply list_lookup_insert_eq. by eapply lookup_lt_Some. }
  unfold WriteUDPPacketNoNAT. rewrite (bind_getNet _ _ _ _ Hn1). simpl.
  by rewrite Hnone.
Qed.

End WanPackets.

(** ** The router: edges of DHCP and TCP *)

Section RouterEdges.
Context {T : Type} `{Ext : External T}.

Lemma router_dhcp_run fuel n ep now (s : Server T) netw :
  networks s !! n = Some netw →
  isDHCPRequest (gp ep) = true →
  HandleEthernetIPv4PacketForRouter fuel n ep now s
  = writeResult n (createDHCPResponse s (gp ep)) s.
Proof.
  intros Hn Hdhcp. unfold HandleEthernetIPv4PacketForRouter.
  destruct (Layer_IPv4 (gp ep)) as [v4|] eqn:Hip.
  - rewrite (bind_getNet _ _ _ _ Hn), Hdhcp. by rewrite bind_getServer.
  - unfold isDHCPRequest in Hdhcp. by rewrite Hip in Hdhcp.
Qed.

(** X20.  A DHCP request whose source MAC is not the MAC of a node is
    ignored: nothing is written and the server is unchanged. *)
Theorem dhcp_from_unknown_mac_ignored fuel n ep now (s : Server T) netw ethLayer :
  networks s !! n = Some netw →
  isDHCPRequest (gp ep) = true →
  Layer_Ethernet (gp ep) = Some ethLayer →
  (macOf (eth_SrcMAC ethLayer)).2 = false
  ∨ nodeByMAC s !! (macOf (eth_SrcMAC ethLayer)).1 = None →
  HandleEthernetIPv4PacketForRouter fuel n ep now s = Ret ((), s, []).
Proof.
  intros Hn Hdhcp He Hunknown.
  rewrite (router_dhcp_run _ _ _ _ _ _ Hn Hdhcp).
  assert (Hnil : createDHCPResponse s (gp ep) = Ok []); [|by rewrite Hnil].
  unfold createDHCPResponse, dhcpReply. rewrite He.
  destruct (macOf (eth_SrcMAC ethLayer)) as [srcMAC ok]. simpl in Hunknown.
  destruct ok; simpl; [|done].
  destruct Hunknown as [?|Hnone]; [done|]. by rewrite Hnone.
Qed.

(** X21.  A datagram from port 68 to port 67 that a node sends and that
    has no decoded DHCP layer makes the router panic:
    [createDHCPResponse] asserts the layer without checking. *)
Theorem dhcp_without_dhcp_layer_panics fuel n ep now (s : Server T) netw ethLayer m nd netw' :
  networks s !! n = Some netw →
  isDHCPRequest (gp ep) = true →
  Layer_Ethernet (gp ep) = Some ethLayer →
  eth_SrcMAC ethLayer = HWAddr m →
  nodeByMAC s !! m = Some nd →
  networks s !! node_net nd = Some netw' →
  Layer_DHCPv4 (gp ep) = None →
  HandleEthernetIPv4PacketForRouter fuel n ep now s = Panic [].
Proof.
  intros Hn Hdhcp He Hsrc Hnd Hnet Hnone.
  rewrite (router_dhcp_run _ _ _ _ _ _ Hn Hdhcp).
  assert (Hcrash : createDHCPResponse s (gp ep) = Crashed); [|by rewrite Hcrash].
  unfold createDHCPResponse, dhcpReply. rewrite He, Hsrc. unfold macOf.
  rewrite bool_decide_eq_false_2 by (intros Hc; by apply Hc).
  rewrite MAC_of_slice_HWAddr. simpl. rewrite Hnd, Hnet, Hnone.
  by destruct (Layer_IPv4 (gp ep)), (Layer_UDP (gp ep)).
Qed.

(** X22.  A TCP segment that is addressed to the router's own LAN address
    or to 0.0.0.0 is never handed to the TCP/IP stack, whatever its port:
    interception is for routed destinations only. *)
Theorem tcp_to_router_not_intercepted fuel n ep now (s : Server T) netw v4 tcp :
  networks s !! n = Some netw →
  Layer_IPv4 (gp ep) = Some v4 →
  Layer_TCP (gp ep) = Some tcp →
  Layer_UDP (gp ep) = None →
  Layer_IGMP (gp ep) = None →
  let dstIP := (AddrFromSlice (ip_DstIP v4)).1 in
  dstIP = Prefix_Addr (net_lanIP netw) ∨ dstIP = IPv4Unspecified →
  HandleEthernetIPv4PacketForRouter fuel n ep now s = Ret ((), s, []).
Proof.
  intros Hn Hip Htcp Hudp Higmp dstIP Hlocal.
  unfold HandleEthernetIPv4PacketForRouter. rewrite Hip.
  rewrite (bind_getNet _ _ _ _ Hn).
  unfold isDHCPRequest, isMDNSQuery, isIGMP, isDNSRequest, isNATPMP.
  rewrite Hip, Hudp, Higmp. simpl. fold dstIP.
  assert (Hfw : bool_decide (dstIP ≠ Prefix_Addr (net_lanIP netw))
                && bool_decide (dstIP ≠ IPv4Unspecified) = false).
  { destruct Hlocal as [Hl|Hl].
    - rewrite (bool_decide_eq_false_2 (dstIP ≠ Prefix_Addr _)); [done|].
      intros Hc. by apply Hc.
    - rewrite (bool_decide_eq_false_2 (dstIP ≠ IPv4Unspecified)); [apply andb_false_r|].
      intros Hc. by apply Hc. }
  rewrite Hfw. simpl.
  destruct (bool_decide (ip_Protocol v4 ≠ IPProtocolUDP)); by rewrite bind_getServer.
Qed.

End RouterEdges.

(** ** The agent registry: adding and taking *)

Section AgentRoundTrips.
Import Agent.

Lemma takeAgentConnOne_loop_none order s n :
  (∀ ac obj, agentConns s !! ac = Some obj → ac_node obj ≠ n) →
  takeAgentConnOne_loop order s n = (None, s).
Proof.
  intros Hnone. induction order as [|x order IH]; [done|]. simpl.
  destruct (agentConns s !! x) as [obj|] eqn:Hx; [|done].
  by rewrite bool_decide_eq_false_2 by (by eapply Hnone).
Qed.

(** X23.  When the iteration visits every member of the set,
    [takeAgentConnOne] comes back empty-handed exactly if no idle
    connection belongs to the node asked for; it then leaves the set as it
    was. *)
Theorem takeAgentConnOne_None_iff (order : list nat) (s : AgentState) (n : node) :
  (∀ ac, is_Some (agentConns s !! ac) → ac ∈ order) →
  takeAgentConnOne order s n = (None, s)
  ↔ ∀ ac obj, agentConns s !! ac = Some obj → ac_node obj ≠ n.
Proof.
  intros Hcover. split.
  - intros Htake ac obj Hac.
    destruct (AgentFacts.takeAgentConnOne_None _ _ _ _ Htake) as [_ Hall].
    apply (Hall ac obj); [|done]. apply Hcover. by eexists.
  - apply takeAgentConnOne_loop_none.
Qed.

(** X24.  A connection that [addIdleAgentConn] has put into the set is
    the one that the next [takeAgentConnOne] for its node returns, provided
    no other idle connection of that node is in the set and the iteration
    reaches it; afterwards the set is what it was before the connection was
    added. *)
Theorem added_agent_conn_is_taken (s : AgentState) (ac : nat) (obj : agentConn)
    (order : list nat) :
  agentConns s !! ac = None →
  (∀ ac' obj', agentConns s !! ac' = Some obj' → ac_node obj' ≠ ac_node obj) →
  ac ∈ order →
  takeAgentConnOne order (addIdleAgentConn s ac obj).2 (ac_node obj)
  = (Some ac, mkAgentState (agentConnWaiter s) (agentConns s)).
Proof.
  intros Hfresh Hother Hin. unfold takeAgentConnOne. simpl.
  induction order as [|x order IH]; [by apply elem_of_nil in Hin|]. simpl.
  destruct (decide (x = ac)) as [->|Hne].
  - rewrite lookup_insert_eq, bool_decide_eq_true_2 by done.
    by rewrite delete_insert_id.
  - rewrite lookup_insert_ne by done.
    apply elem_of_cons in Hin as [->|Hin]; [done|].
    destruct (agentConns s !! x) as [obj'|] eqn:Hx; [|by apply IH].
    rewrite bool_decide_eq_false_2 by (by eapply Hother). by apply IH.
Qed.

End AgentRoundTrips.

(** ** Framing on a guest connection *)

Lemma Uint32_AppendUint32 (v : Z) (rest : list Z) :
  0 ≤ v < 2 ^ 32 → Uint32 (AppendUint32 [] v ++ rest) = v.
Proof.
  intros Hv. unfold Uint32, AppendUint32, of_be, byte_of. simpl.
  rewrite !Z.shiftr_div_pow2 by lia.
  change (2 ^ 24) with 16777216. change (2 ^ 16) with 65536. change (2 ^ 8) with 256.
  change (2 ^ 32) with 4294967296 in Hv.
  Z.div_mod_to_equations. lia.
Qed.

Lemma readQEMU_written (f rest : list Z) :
  Z.of_nat (length f) ≤ 16380 →
  readQEMU (writePkt ProtocolQEMU (Some f) ++ rest) = QFrame f rest.
Proof.
  intros Hlen. unfold readQEMU, writePkt.
  assert (Hn : uint32_of (Z.of_nat (length f)) = Z.of_nat (length f)).
  { unfold uint32_of. apply Z.mod_small. lia. }
  rewrite Hn, <- (assoc_L (++)).
  rewrite bool_decide_eq_false_2 by (simpl; lia).
  change (take 4 (AppendUint32 [] (Z.of_nat (length f)) ++ f ++ rest))
    with (AppendUint32 [] (Z.of_nat (length f))).
  change (drop 4 (AppendUint32 [] (Z.of_nat (length f)) ++ f ++ rest)) with (f ++ rest).
  rewrite <- (app_nil_r (AppendUint32 _ _)), Uint32_AppendUint32 by lia.
  rewrite Nat2Z.id.
  rewrite bool_decide_eq_false_2.
  - rewrite bool_decide_eq_false_2 by (rewrite length_app; lia).
    by rewrite take_app_length, drop_app_length.
  - unfold uint32_of, bufLen. rewrite Z.mod_small by lia. lia.
Qed.

Lemma qemuReads_written (frames : list (list Z)) : ∀ fuel,
  Forall (λ f, Z.of_nat (length f) ≤ 16380) frames →
  (length frames < fuel)%nat →
  qemuReads fuel (concat ((λ f, writePkt ProtocolQEMU (Some f)) <$> frames))
  = (frames, QEOF).
Proof.
  induction frames as [|f frames IH]; intros fuel Hall Hfuel.
  - destruct fuel as [|fuel]; [simpl in Hfuel; lia|]. reflexivity.
  - destruct fuel as [|fuel]; [simpl in Hfuel; lia|].
    apply Forall_cons in Hall as [Hf Hall]. rewrite fmap_cons, concat_cons.
    cbn [qemuReads]. rewrite readQEMU_written by done.
    rewrite IH; [done|done|]. simpl in Hfuel. lia.
Qed.

Lemma written_length (frames : list (list Z)) :
  (length frames
   ≤ length (concat ((λ f, writePkt ProtocolQEMU (Some f)) <$> frames)))%nat.
Proof.
  induction frames as [|f frames IH]; [done|].
  rewrite fmap_cons, concat_cons, length_app.
  assert (4 ≤ length (writePkt ProtocolQEMU (Some f)))%nat
    by (unfold writePkt; rewrite length_app; simpl; lia).
  cbn [length]. lia.
Qed.

(** X25.  What [writePkt] writes for a sequence of frames on a QEMU
    connection, the read loop of a QEMU connection reads back as the same
    frames in the same order, and then finds the end of the stream; each
    frame has at most 16380 bytes, which is what fits the read buffer
    after the header. *)
Theorem qemu_framing_round_trip (frames : list (list Z)) :
  Forall (λ f, Z.of_nat (length f) ≤ 16380) frames →
  qemuSession (concat ((λ f, writePkt ProtocolQEMU (Some f)) <$> frames))
  = (frames, QEOF).
Proof.
  intros Hall. unfold qemuSession. apply qemuReads_written; [done|].
  pose proof (written_length frames). lia.
Qed.

(** X26.  A QEMU header that announces more than 16380 bytes makes the
    read loop panic, whatever follows it: the slice of the 16 KiB buffer
    that is to take the frame is out of range. *)
Theorem qemu_oversize_header_panics (n : Z) (rest : list Z) :
  16380 < n < 2 ^ 32 →
  readQEMU (AppendUint32 [] n ++ rest) = QPanic.
Proof.
  intros Hn. unfold readQEMU.
  rewrite bool_decide_eq_false_2 by (simpl; lia).
  change (take 4 (AppendUint32 [] n ++ rest)) with (AppendUint32 [] n).
  rewrite <- (app_nil_r (AppendUint32 _ _)), Uint32_AppendUint32 by lia.
  rewrite bool_decide_eq_true_2; [done|].
  unfold uint32_of, bufLen. change (2 ^ 32) with 4294967296 in *.
  destruct (decide (4 + n < 4294967296)).
  - right. rewrite Z.mod_small by lia. lia.
  - left. replace (4 + n) with ((4 + n - 4294967296) + 1 * 4294967296) by lia.
    rewrite Z.mod_add by lia. rewrite Z.mod_small by lia. lia.
Qed.

(** ** The TCP handler *)

Section TCPHandler.
Context {T : Type} `{Ext : External T}.

(** X27.  Every TCP connection that the router intercepts finds a handler
    in [acceptTCP]: with a valid client address, and when the endpoint can
    be created and the dial succeeds, the request is not reset.  On port
    123 it is answered with the greeting; on port 8008 of the test agent
    address it is handed to the agent registry for the node the client
    address belongs to (a client address that is no node's makes the
    registry panic); otherwise it is proxied, to the destination address
    itself when that is a DERP address and to the control plane by name
    when not. *)
Theorem intercepted_tcp_is_served (s : Server T) (netw : network T) (pkt : Packet)
    v4 tcp a b c d remote :
  Layer_IPv4 pkt = Some v4 →
  Layer_TCP pkt = Some tcp →
  ip_DstIP v4 = [a; b; c; d] →
  shouldInterceptTCP s pkt = true →
  Addr_IsValid (netaddrIPFromNetstackIP remote) = true →
  let dst := Addr4 a b c d in
  let port := tcp_DstPort tcp in
  acceptTCP s netw remote (ip_DstIP v4) port true true
  = if bool_decide (port = 123) then TCPGreeting
    else if bool_decide (port = 8008 ∧ dst = fakeTestAgentIP)
    then match net_nodesByIP netw !! netaddrIPFromNetstackIP remote with
         | Some nd => TCPAgent nd
         | None => TCPPanic
         end
    else TCPProxy (if bool_decide (dst ∈ derpIPs s) then DialAddr dst port
                   else DialControlplane port).
Proof.
  intros Hip Htcp Hdst Hint Hvalid dst port.
  apply (shouldInterceptTCP_spec s pkt v4 tcp a b c d Hip Htcp Hdst) in Hint.
  unfold acceptTCP. rewrite Hvalid, Hdst.
  change (netaddrIPFromNetstackIP [a; b; c; d]) with dst. simpl. fold port.
  unfold intercepted in Hint. fold dst port in Hint.
  case_bool_decide as H123; [done|].
  destruct Hint as [?|[[Hd Hp]|[Hd Hp]]]; [done| |].
  - rewrite (bool_decide_eq_false_2 (port = 8008 ∧ _)) by (intros [? _]; lia).
    rewrite (bool_decide_eq_false_2 (port = 8008)) by lia. simpl.
    case_bool_decide as Hderp; [done|].
    destruct Hd as [Hd|?]; [|done]. by rewrite bool_decide_eq_true_2.
  - rewrite (bool_decide_eq_true_2 (port = 8008 ∧ _)) by done.
    rewrite (bool_decide_eq_true_2 (port = 8008)) by done.
    by rewrite (bool_decide_eq_true_2 (dst = _)) by done.
Qed.

End TCPHandler.

(** ** The end of a guest session *)

Section SessionEnd.
Context {T : Type} `{Ext : External T}.

Lemma keeps_forM_ {A} (l : list A) (f : A → M T ()) :
  (∀ x, keeps (f x)) → keeps (forM_ l f).
Proof.
  intros Hf. induction l as [|x l IH]; [apply keeps_ret|].
  simpl. apply keeps_bind; [apply Hf|]. intros _. exact IH.
Qed.

Lemma lockedFrames_ended (mac : MAC) (evs : list ReadEvent) :
  ReadError ∈ evs → (lockedFrames mac ProtocolQEMU evs).2 = true.
Proof.
  induction evs as [|[|p now] evs IH]; [by intros ?%elem_of_nil|done|].
  intros [?|Hin]%elem_of_cons; [done|]. simpl.
  destruct (acceptable p) as [[ep m]|]; [|by apply IH].
  case_bool_decide; by apply IH.
Qed.

Lemma lockedFrames_dgram (mac : MAC) (evs : list ReadEvent) :
  (lockedFrames mac ProtocolUnixDGRAM evs).2 = false.
Proof.
  induction evs as [|[|p now] evs IH]; [done|done|]. simpl.
  destruct (acceptable p) as [[ep m]|]; [|done]. by case_bool_decide.
Qed.

(** X28.  A QEMU session that has locked onto a node ends with the first
    failed read: when [ServeUnixConn] returns, no writer is registered for
    the MAC of the session any more, and the other writers of the network
    are those that were registered when it locked.  A datagram session is
    not ended by a failed read: its writer stays registered. *)
Theorem session_end_unregisters fuel w evs nd mac (s s' : Server T) es netw :
  networks s !! node_net nd = Some netw →
  (ReadError ∈ evs →
   serveLoop (HandleEthernetPacket fuel) w ProtocolQEMU evs (Some (nd, mac)) s
   = Ret ((), s', es) →
   ∃ netw', networks s' !! node_net nd = Some netw'
            ∧ net_writeFunc netw' = delete mac (net_writeFunc netw))
  ∧ (serveLoop (HandleEthernetPacket fuel) w ProtocolUnixDGRAM evs (Some (nd, mac)) s
     = Ret ((), s', es) →
     ∃ netw', networks s' !! node_net nd = Some netw'
              ∧ net_writeFunc netw' = net_writeFunc netw).
Proof.
  intros Hn.
  assert (Hframes : ∀ proto s1 e1,
    forM_ (lockedFrames (node_mac nd) proto evs).1
          (λ f, HandleEthernetPacket fuel (node_net nd) f.1 f.2) s = Ret ((), s1, e1) →
    ∃ netw1, networks s1 !! node_net nd = Some netw1
             ∧ net_writeFunc netw1 = net_writeFunc netw).
  { intros proto s1 e1 Hrun.
    destruct (keeps_forM_ _ _ (λ f, keeps_HandleEthernetPacket fuel (node_net nd) f.1 f.2)
                _ _ _ _ Hrun) as (_ & _ & _ & _ & Hnets).
    destruct (Forall2_lookup_l _ _ _ _ _ Hnets Hn) as (netw1 & Hn1 & Hsame).
    destruct Hsame as (_&_&_&_&_&_&Hw&_). by exists netw1. }
  split.
  - intros Herr. rewrite serveLoop_locked, lockedFrames_ended by done.
    unfold bind at 1.
    destruct (forM_ _ _ s) as [[[[] s1] e1]|e1|e1] eqn:Hrun; [|done..].
    destruct (Hframes _ _ _ Hrun) as (netw1 & Hn1 & Hw1).
    rewrite (registerWriter_run _ _ _ _ _ Hn1). intros [= <- _].
    eexists. simpl. split; [apply list_lookup_insert_eq; by eapply lookup_lt_Some|].
    simpl. by rewrite Hw1.
  - rewrite serveLoop_locked, lockedFrames_dgram.
    unfold bind at 1.
    destruct (forM_ _ _ s) as [[[[] s1] e1]|e1|e1] eqn:Hrun; [|done..].
    intros [= <- _]. by eapply Hframes.
Qed.

End SessionEnd.

(** ** LAN addresses inside the prefix *)

Section PrefixOfStarted.
Context {T : Type} `{Ext : External T}.

(** X29.  In a started server every node of a network whose LAN prefix is
    an IPv4 prefix of length at most 24 has its LAN address inside that
    prefix: the address differs from the prefix address in the last octet
    only. *)
Theorem started_lanIP_inside_prefix24 (c : Config) (s : Server T) nd netw a b c' d bits :
  initFromConfig Server_empty c = Ok s →
  nd ∈ nodes s →
  networks s !! node_net nd = Some netw →
  net_lanIP netw = PrefixFrom (Addr4 a b c' d) bits →
  0 ≤ d < 256 → 0 ≤ bits ≤ 24 →
  node_lanIP nd = Addr4 a b c' ((101 + mac5 (node_mac nd)) mod 256)
  ∧ Prefix_Contains (net_lanIP netw) (node_lanIP nd) = true.
Proof.
  intros Hinit Hin Hn Hp Hd Hbits.
  destruct (initFromConfig_wf _ _ _ Hinit server_wf_empty) as [_ W2].
  exact (started_node_in_prefix c s _ nd netw a b c' d bits Hinit (W2 _ Hin) Hn Hp Hd Hbits).
Qed.

End PrefixOfStarted.

(** ** Session recording: the failure policy *)

Section RecordingPolicy.
Import Hijacker.
Context {error : Type} `{Err : Errors error}.

(** X30.  When no recorder can be reached, [setUpRecording] follows the
    failure policy.  Fail open: the client's own connection is handed back
    untouched and the session goes on unrecorded.  Fail closed: no
    connection is handed back but an error; the client is sent one
    forbidden response that names the cause, and the connection is closed
    exactly once, whether or not the response could be written.
    ([multierr.New] of a list that starts with an error is an error.) *)
Theorem recorder_unreachable_policy (err : string) (writeErr closeErr : option error) :
  (∀ e l, is_Some (multierrNew (Some e :: l))) →
  setUpRecording true (Some err) writeErr closeErr = (Some ConnClient, None, [])
  ∧ ∃ e, setUpRecording false (Some err) writeErr closeErr
         = (None, Some e, [WriteForbidden (failClosedMsg err); CloseConn]).
Proof.
  intros Hlaw. split; [done|]. unfold setUpRecording, closeConnWithWarning.
  destruct writeErr as [we|].
  - destruct (Hlaw (errorWriting (failClosedMsg err) we) [closeErr]) as [e1 ->].
    destruct (Hlaw (errorsNew (failClosedMsg err)) [Some e1]) as [e2 ->]. by eexists.
  - destruct closeErr as [ce|]; [|by eexists].
    destruct (Hlaw (errorsNew (failClosedMsg err)) [Some ce]) as [e2 ->]. by eexists.
Qed.

End RecordingPolicy.

(** ** The new properties on concrete inputs *)

Section MoreRuns.
Import Sample Examples ExampleNets ExampleConfigs ExamplePackets ExampleUDP ExampleSession
       ExampleAgent ExampleLan.

Lemma sample_header_law : ethernet_header_law (Ext := Sample.ext).
Proof.
  intros eth rest b Hd Hs. simpl. unfold serializeLayers.
  rewrite (bool_decide_eq_true_2 _ Hd), (bool_decide_eq_true_2 _ Hs). simpl.
  intros [= <-]. rewrite <- !(assoc_L (++)).
  rewrite take_app_length' by done. rewrite drop_app_length' by done.
  by rewrite take_app_length' by done.
Qed.

Lemma toNodeA_header_law : ethernet_header_law (Ext := toNodeA).
Proof. exact sample_header_law. Qed.

Lemma sample_stun_law : stun_response_is_no_request (Ext := Sample.ext).
Proof. intros tx ap. reflexivity. Qed.

Lemma connected2_nat_ready : nat_ready connected2.
Proof.
  assert (Hnets : networks connected2 = [net2]) by (vm_compute; reflexivity).
  assert (Hwan : networkByWAN connected2 = {[ Addr4 2 0 0 1 := 0%nat ]})
    by (vm_compute; reflexivity).
  split.
  - intros i netw. rewrite Hnets. destruct i as [|i]; [|by destruct i].
    intros [= <-]. by eexists.
  - intros ip i. rewrite Hwan, Hnets. intros [_ <-]%lookup_singleton_Some. simpl. lia.
Qed.

Lemma registered_writer_gets_unicast_witness :
  ∃ s', (let* _ := registerWriter 0 macA (Some 7%nat) in
         writeEth 0 (HWAddr macA ++ HWAddr macB ++ [8; 0])) connected2
        = Ret ((), s', [ECall 0 macA 7%nat (HWAddr macA ++ HWAddr macB ++ [8; 0])]).
Proof.
  apply (registered_writer_gets_unicast 0 macA macB 7%nat _ connected2 net2 connected2_net);
    [simpl; lia|reflexivity|reflexivity|discriminate|discriminate].
Defined.

Lemma lan_unicast_is_switched_witness :
  HandleEthernetPacket 2 0 epAB 0 connected2
  = Ret ((), connected2, [ECall 0 macB 2%nat frameAB]).
Proof.
  exact (lan_unicast_is_switched 2 0 epAB 0 connected2 net2 macB macA connected2_net
           eq_refl eq_refl ltac:(discriminate) ltac:(discriminate)
           ltac:(vm_compute; lia) eq_refl eq_refl).
Defined.

Lemma arpA_wellFormed target :
  length target = 4%nat →
  wellFormedARPRequest
    (mkARP LinkTypeEthernet EthernetTypeIPv4 6 4 ARPRequest
           (HWAddr macA) [192; 168; 0; 101] (HWAddr MAC_zero) target).
Proof. intros Hlen. by repeat split. Qed.

Lemma arp_request_answered_witness :
  ∃ reply,
    SerializeLayers (arpReplyLayers macB (HWAddr macA) [192; 168; 0; 102] [192; 168; 0; 101])
    = Some reply
    ∧ HandleEthernetPacket 2 0 (epArpFor [192; 168; 0; 102]) 0 connected2
      = Ret ((), connected2, [ECall 0 macA 1%nat reply]).
Proof.
  eexists. split; [vm_compute; reflexivity|].
  apply (arp_request_answered 2 0 (epArpFor [192; 168; 0; 102]) 0 connected2 net2
           MAC_broadcast ethArp _ macB macA 1%nat _ sample_header_law connected2_net
           eq_refl eq_refl eq_refl eq_refl eq_refl
           (arpA_wellFormed [192; 168; 0; 102] eq_refl)).
  - vm_compute. reflexivity.
  - vm_compute. reflexivity.
  - discriminate.
  - discriminate.
  - vm_compute. reflexivity.
Defined.

Lemma arp_for_own_address_unanswered_witness :
  HandleEthernetPacket 2 0 (epArpFor [192; 168; 0; 101]) 0 connected2
  = Ret ((), connected2, []).
Proof.
  eapply (arp_for_own_address_unanswered 2 0 (epArpFor [192; 168; 0; 101]) 0 connected2 net2
            MAC_broadcast ethArp _ macA _ sample_header_law connected2_net
            eq_refl eq_refl eq_refl eq_refl eq_refl
            (arpA_wellFormed [192; 168; 0; 101] eq_refl)).
  - vm_compute. reflexivity.
  - vm_compute. reflexivity.
  - discriminate.
Defined.

Lemma arp_unanswerable_dropped_witness :
  HandleEthernetPacket 2 0 (epArpFor [192; 168; 0; 77]) 0 connected2
  = Ret ((), connected2, []).
Proof.
  apply (arp_unanswerable_dropped 2 0 (epArpFor [192; 168; 0; 77]) 0 connected2 net2
           MAC_broadcast _ connected2_net eq_refl eq_refl eq_refl).
  right. vm_compute. reflexivity.
Defined.

Lemma frame_handling_changes_nat_tables_only_witness :
  ∃ s' es,
    HandleEthernetPacket 2 0 (pktUDP [8; 8; 8; 8] 1234 [1]) 0 connected2 = Ret ((), s', es)
    ∧ nodes s' = nodes connected2 ∧ nodeByMAC s' = nodeByMAC connected2
    ∧ networkByWAN s' = networkByWAN connected2
    ∧ length (networks s') = length (networks connected2).
Proof.
  assert (Hrun : ∃ s' es,
            HandleEthernetPacket 2 0 (pktUDP [8; 8; 8; 8] 1234 [1]) 0 connected2
            = Ret ((), s', es)) by (do 2 eexists; vm_compute; reflexivity).
  destruct Hrun as (s' & es & Hrun). exists s', es. split; [exact Hrun|].
  destruct (frame_handling_changes_nat_tables_only 2 0 _ 0 connected2 s' es Hrun)
    as (_ & H2 & H3 & H4 & H5 & _).
  exact (conj H2 (conj H3 (conj H4 H5))).
Defined.

Lemma routeUDPPacket_returns_witness :
  ∃ s' es, routeUDPPacket 2 wanPacket 0 connected2 = Ret ((), s', es) ∧ nat_ready s'.
Proof.
  exact (routeUDPPacket_returns 0 wanPacket 0 connected2 sample_stun_law
           connected2_nat_ready).
Defined.

Lemma stun_request_from_stun_port_unanswered_witness :
  routeUDPPacket 2 stunFromStunPort 0 connected2 = Ret ((), connected2, []).
Proof.
  exact (stun_request_from_stun_port_unanswered 0 stunFromStunPort 0 connected2
           (replicate 12 7) sample_stun_law eq_refl eq_refl eq_refl).
Defined.

Lemma wan_packet_delivered_witness :
  ∃ frame,
    SerializeLayers (External := toNodeA)
      (udpLayers macRouter macA
         (mkUDPPacket (Src wanPacket) (mkAddrPort (Addr4 192 168 0 101) 40000) [1; 2; 3]))
    = Some frame
    ∧ HandleUDPPacket (Ext := toNodeA) 0 wanPacket 0 connected2
      = Ret ((), with_natTable connected2 0 net2 (), [ECall 0 macA 1%nat frame]).
Proof.
  eexists. split; [vm_compute; reflexivity|].
  apply (wan_packet_delivered (Ext := toNodeA) 0 wanPacket 0 connected2 net2 () nodeA 1%nat _
           toNodeA_header_law connected2_net eq_refl eq_refl).
  - vm_compute. reflexivity.
  - vm_compute. reflexivity.
  - discriminate.
  - discriminate.
  - vm_compute. reflexivity.
Defined.

Lemma wan_packet_dropped_witness :
  HandleUDPPacket 0 wanPacket 0 connected2
  = Ret ((), with_natTable connected2 0 net2 (), []).
Proof.
  exact (wan_packet_dropped (Ext := Sample.ext) 0 wanPacket 0 connected2 net2 ()
           connected2_net eq_refl (or_introl eq_refl)).
Defined.

Lemma dhcp_from_unknown_mac_ignored_witness :
  HandleEthernetIPv4PacketForRouter 2 0 (epDiscoverFrom macStranger) 0 connected2
  = Ret ((), connected2, []).
Proof.
  eapply (dhcp_from_unknown_mac_ignored 2 0 (epDiscoverFrom macStranger) 0 connected2 net2 _
            connected2_net eq_refl eq_refl).
  right. vm_compute. reflexivity.
Defined.

Lemma dhcp_without_dhcp_layer_panics_witness :
  HandleEthernetIPv4PacketForRouter 2 0 epBadDHCP 0 connected2 = Panic [].
Proof.
  eapply (dhcp_without_dhcp_layer_panics 2 0 epBadDHCP 0 connected2 net2 _ macA nodeA net2
            connected2_net eq_refl eq_refl eq_refl).
  - vm_compute. reflexivity.
  - exact connected2_net.
  - reflexivity.
Defined.

Lemma tcp_to_router_not_intercepted_witness :
  HandleEthernetIPv4PacketForRouter 2 0 (pktTCP [192; 168; 0; 0] 123) 0 connected2
  = Ret ((), connected2, []).
Proof.
  apply (tcp_to_router_not_intercepted 2 0 (pktTCP [192; 168; 0; 0] 123) 0 connected2 net2
           _ (mkTCP 50000 123) connected2_net eq_refl eq_refl eq_refl eq_refl).
  left. reflexivity.
Defined.

Lemma takeAgentConnOne_None_iff_witness :
  Agent.takeAgentConnOne [11%nat]
    (Agent.mkAgentState ∅ {[ 11%nat := Agent.mkAgentConn nodeB 2 ]}) nodeA
  = (None, Agent.mkAgentState ∅ {[ 11%nat := Agent.mkAgentConn nodeB 2 ]}).
Proof.
  apply takeAgentConnOne_None_iff.
  - intros ac [obj Hac]. simpl in Hac. apply lookup_singleton_Some in Hac as [<- _].
    by left.
  - intros ac obj Hac. simpl in Hac. apply lookup_singleton_Some in Hac as [_ <-].
    discriminate.
Defined.

Lemma added_agent_conn_is_taken_witness :
  Agent.takeAgentConnOne [11%nat; 10%nat]
    (Agent.addIdleAgentConn
       (Agent.mkAgentState ∅ {[ 11%nat := Agent.mkAgentConn nodeB 2 ]})
       10 (Agent.mkAgentConn nodeA 1)).2 nodeA
  = (Some 10%nat, Agent.mkAgentState ∅ {[ 11%nat := Agent.mkAgentConn nodeB 2 ]}).
Proof.
  assert (H1 : Agent.agentConns
                 (Agent.mkAgentState ∅ {[ 11%nat := Agent.mkAgentConn nodeB 2 ]})
               !! 10%nat = None) by reflexivity.
  assert (H2 : ∀ ac obj,
            Agent.agentConns
              (Agent.mkAgentState ∅ {[ 11%nat := Agent.mkAgentConn nodeB 2 ]}) !! ac
            = Some obj →
            Agent.ac_node obj ≠ Agent.ac_node (Agent.mkAgentConn nodeA 1)).
  { intros ac obj Hac. simpl in Hac. apply lookup_singleton_Some in Hac as [_ <-].
    discriminate. }
  assert (H3 : 10%nat ∈ [11%nat; 10%nat]) by (apply elem_of_cons; right; by left).
  exact (added_agent_conn_is_taken _ 10 (Agent.mkAgentConn nodeA 1) [11%nat; 10%nat]
           H1 H2 H3).
Defined.

Lemma qemu_framing_round_trip_witness :
  qemuSession (concat ((λ f, writePkt ProtocolQEMU (Some f)) <$> [frameAB; []; frameA]))
  = ([frameAB; []; frameA], QEOF).
Proof.
  apply qemu_framing_round_trip. repeat constructor; vm_compute; discriminate.
Defined.

Lemma qemu_oversize_header_panics_witness :
  readQEMU ([0; 0; 64; 0] ++ frameAB) = QPanic.
Proof. apply (qemu_oversize_header_panics 16384 frameAB). lia. Defined.

Lemma intercepted_tcp_is_served_witness :
  acceptTCP connected2 net2 [192; 168; 0; 101] [52; 52; 0; 2] 8008 true true
  = TCPAgent nodeA
  ∧ acceptTCP connected2 net2 [192; 168; 0; 101] [52; 52; 0; 1] 443 true true
    = TCPProxy (DialControlplane 443).
Proof.
  split.
  - exact (intercepted_tcp_is_served connected2 net2 (gp (pktTCP [52; 52; 0; 2] 8008))
             _ (mkTCP 50000 8008) 52 52 0 2 [192; 168; 0; 101]
             eq_refl eq_refl eq_refl eq_refl eq_refl).
  - exact (intercepted_tcp_is_served connected2 net2 (gp (pktTCP [52; 52; 0; 1] 443))
             _ (mkTCP 50000 443) 52 52 0 1 [192; 168; 0; 101]
             eq_refl eq_refl eq_refl eq_refl eq_refl).
Defined.

Lemma session_end_unregisters_witness :
  ∃ s' es netw',
    serveLoop (HandleEthernetPacket 2) 1%nat ProtocolQEMU readsUntilError
      (Some (nodeA, macA)) connected2 = Ret ((), s', es)
    ∧ networks s' !! 0%nat = Some netw'
    ∧ net_writeFunc netw' = delete macA wf2.
Proof.
  assert (Hrun : ∃ s' es,
            serveLoop (HandleEthernetPacket 2) 1%nat ProtocolQEMU readsUntilError
              (Some (nodeA, macA)) connected2 = Ret ((), s', es))
    by (do 2 eexists; vm_compute; reflexivity).
  destruct Hrun as (s' & es & Hrun).
  assert (Herr : ReadError ∈ readsUntilError) by (apply elem_of_cons; right; by left).
  destruct (proj1 (session_end_unregisters 2 1%nat readsUntilError nodeA macA connected2
                     s' es net2 connected2_net) Herr Hrun) as (netw' & Hn' & Hw').
  exists s', es, netw'. exact (conj Hrun (conj Hn' Hw')).
Defined.

Lemma started_lanIP_inside_prefix24_witness :
  node_lanIP nodeA = Addr4 192 168 0 101
  ∧ Prefix_Contains defaultLanIP (node_lanIP nodeA) = true.
Proof.
  assert (Hin : nodeA ∈ nodes server2) by (vm_compute; by left).
  assert (Hn : networks server2 !! node_net nodeA
               = Some (mkNetwork macRouter false (Addr4 2 0 0 1) defaultLanIP
                         {[ Addr4 192 168 0 101 := nodeA; Addr4 192 168 0 102 := nodeB ]}
                         "easy" (Some ()) ∅)) by (vm_compute; reflexivity).
  exact (started_lanIP_inside_prefix24 conf2 server2 nodeA _ 192 168 0 0 24
           server2_started Hin Hn eq_refl ltac:(lia) ltac:(lia)).
Defined.

Lemma recorder_unreachable_policy_witness :
  Hijacker.setUpRecording true (Some "no route"%string) (Some "broken pipe"%string) None
  = (Some Hijacker.ConnClient, None, [])
  ∧ ∃ e, Hijacker.setUpRecording false (Some "no route"%string)
           (Some "broken pipe"%string) None
         = (None, Some e,
            [Hijacker.WriteForbidden (Hijacker.failClosedMsg "no route");
             Hijacker.CloseConn]).
Proof.
  apply (recorder_unreachable_policy (Err := Hijacker.sampleErrors)).
  intros e l. simpl. by eexists.
Defined.

End MoreRuns.
